(** * kube-foundry: deployment planning and provisioning core

    A shallow embedding of the backend code the specification speaks about:

    - [CostEstimation]: services/costEstimation.ts
      ([calculateResourceBreakdown], [getHourlyRate], [calculateCostEstimate]);
    - [Dynamo]: the Dynamo provider's manifest generator
      ([generateDynamoManifest], [generateWorkerSpec], [validateManifest]);
    - [Routes]: the handlers of hono-app.ts for deployment creation and for
      provider install, upgrade and uninstall;
    - [Deployments]: the listing of deployments of hono-app.ts, behind its
      query validator;
    - [Validation]: the naming rules of lib/validation.ts;
    - [ModelCompatibility]: services/modelCompatibility.ts;
    - [GpuTables]: the GPU memory table of services/costEstimation.ts;
    - [Aikit]: the image names of services/aikit.ts.

    A JavaScript number is a binary64 float: Rocq's primitive [float],
    whose operations round as the IEEE 754 standard says.
    [JsNumberToString.toString] is Number::toString of ECMAScript, which
    [String(x)] and template literals apply to a number.

    The cost engine is written against the interface [JsNumber], so the
    statements about it hold for every implementation of the arithmetic;
    [JsDouble_number] is the binary64 implementation, the one the code runs
    on.

    An async route handler is a [Routes.Handler]: a tree of the operations
    it awaits on helmService, kubernetesService and configService, whose
    sources are not part of this development.  [Routes.run] runs a handler
    against a [Routes.World], which settles every operation, and returns
    the trace of the run with its outcome. *)

From Stdlib Require Import ZArith QArith Qround Qabs Floats.
From Stdlib Require Import Bool List String Ascii Lia.
From Stdlib Require Import DecimalString.
Import ListNotations.

Open Scope string_scope.

(* ------------------------------------------------------------------ *)
(** * JavaScript values shared by the modules *)

(** [a ?? b]: the left operand unless it is null or undefined. *)
Definition nullish {A : Type} (a : option A) (b : A) : A :=
  match a with
  | Some x => x
  | None => b
  end.

Notation "a ?? b" := (nullish a b) (at level 45, right associativity).

(** The operations the cost engine applies to JavaScript numbers. *)
Class JsNumber (num : Type) : Type := {
  nlit : Z -> num;                 (* an integer literal *)
  ndec : Z -> positive -> num;     (* the literal p/q, e.g. 4.10 = 410/100 *)
  nadd : num -> num -> num;
  nsub : num -> num -> num;
  nmul : num -> num -> num;
  ndiv : num -> num -> num;
  ngt : num -> num -> bool;        (* a > b *)
  ntruthy : num -> bool            (* neither 0 nor NaN *)
}.

(** The numbers of JavaScript: binary64 floats. *)
Module JsDouble.

(** The float nearest to an integer (ties to the even mantissa), as an
    integer literal is read. *)
Definition ofZ (z : Z) : float :=
  SF2Prim (binary_normalize prec emax z 0 false).

(** Neither 0 (of either sign) nor NaN. *)
Definition truthy (x : float) : bool :=
  negb (PrimFloat.eqb x 0 || PrimFloat.is_nan x).

End JsDouble.

(** A decimal literal p/q is read as the float nearest to it; for [p] and
    [q] below 2^53 that is the quotient of the two floats, which is rounded
    once. *)
#[export] Instance JsDouble_number : JsNumber float := {
  nlit := JsDouble.ofZ;
  ndec p q := PrimFloat.div (JsDouble.ofZ p) (JsDouble.ofZ (Z.pos q));
  nadd := PrimFloat.add;
  nsub := PrimFloat.sub;
  nmul := PrimFloat.mul;
  ndiv := PrimFloat.div;
  ngt a b := PrimFloat.ltb b a;
  ntruthy := JsDouble.truthy
}.

(* ------------------------------------------------------------------ *)
(** * Number::toString

    ECMAScript, Number::toString(x) with radix 10: for a positive finite
    [x], the integers [n], [k] and [s] are such that [k >= 1],
    [10^(k-1) <= s < 10^k], [s * 10^(n-k)] rounds to [x], and [k] is as
    small as possible; of several [s], the one whose [s * 10^(n-k)] is
    closest to [x].  The digits of [s] are then laid out by the size of
    [n]. *)

Module JsNumberToString.


(** The value of a finite float (0 for the others). *)
Definition valueOf (x : float) : Q :=
  match Prim2SF x with
  | S754_finite s m e =>
      (if s then -1 else 1) * (inject_Z (Z.pos m) * Qpower 2 e)
  | _ => 0
  end.

Definition evenMantissa (x : float) : bool :=
  match Prim2SF x with
  | S754_finite _ m _ => Z.even (Z.pos m)
  | _ => true
  end.

Definition Qlt_bool (a b : Q) : bool := negb (Qle_bool b a).

(** The real numbers that round to the positive finite float [x]: those
    between the midpoints to its two neighbours, the midpoints included
    when the mantissa of [x] is even (ties go to the even mantissa). *)
Record Rounding : Type := {
  exact : Q;
  lowest : Q;
  highest : Q;
  closed : bool
}.

Definition roundingOf (x : float) : Rounding :=
  let v := valueOf x in
  let below := valueOf (next_down x) in
  {| exact := Qred v;
     lowest := Qred ((below + v) / 2);
     highest :=
       Qred (if is_infinity (next_up x)
             then v + (v - below) / 2
             else (v + valueOf (next_up x)) / 2);
     closed := evenMantissa x |}.

Definition roundsTo (r : Rounding) (v : Q) : bool :=
  if closed r
  then Qle_bool (lowest r) v && Qle_bool v (highest r)
  else Qlt_bool (lowest r) v && Qlt_bool v (highest r).

(** [floor(log2 x)] for a positive finite float. *)
Definition binaryExponent (x : float) : Z :=
  match Prim2SF x with
  | S754_finite _ m e => (e + Z.log2 (Z.pos m))%Z
  | _ => 0%Z
  end.

(** The least [n' >= n] with [v < 10^n']. *)
Fixpoint decimalExponent (fuel : nat) (n : Z) (v : Q) : Z :=
  match fuel with
  | O => n
  | S fuel =>
      if Qlt_bool v (Qpower 10 n) then n
      else decimalExponent fuel (n + 1) v
  end.

(** The [n] with [10^(n-1) <= x < 10^n].  The search starts at
    [floor(log2 x) * 0.30103], which is at most [n] and at least [n - 2]. *)
Definition decimalExponentOf (x : float) : Z :=
  decimalExponent 8 (binaryExponent x * 30103 / 100000) (valueOf x).

(** The [k]-digit integers [s] for which [s * 10^(n-k)] rounds to [x],
    among the two next to [x / 10^(n-k)]. *)
Definition candidates (r : Rounding) (k n : Z) : list (Z * Z) :=
  let scale := Qpower 10 (n - k) in
  let s := Qfloor (exact r / scale) in
  List.filter
    (fun c =>
       (10 ^ (k - 1) <=? fst c)%Z && (fst c <? 10 ^ k)%Z
       && roundsTo r (inject_Z (fst c) * scale))
    [(s, n); ((s + 1)%Z, n)].

Definition distance (r : Rounding) (k : Z) (c : Z * Z) : Q :=
  Qabs (inject_Z (fst c) * Qpower 10 (snd c - k) - exact r).

(** The candidate closest to [x]; of two at the same distance, the even
    one. *)
Definition closest (r : Rounding) (k : Z) (cs : list (Z * Z))
  : option (Z * Z) :=
  List.fold_left
    (fun best c =>
       match best with
       | None => Some c
       | Some b =>
           if Qlt_bool (distance r k c) (distance r k b) then Some c
           else if Qlt_bool (distance r k b) (distance r k c) then Some b
           else if Z.even (fst c) then Some c else Some b
       end)
    cs None.

(** The shortest digits: the least number of digits [k], counting from
    [k] on, with the digits [s] and the exponent [n]. *)
Fixpoint shortest (fuel : nat) (r : Rounding) (nx k : Z) : Z * Z * Z :=
  match fuel with
  | O => (k, 0%Z, nx)
  | S fuel =>
      match
        closest r k (candidates r k nx ++ candidates r k (nx + 1))%list
      with
      | Some (s, n) => (k, s, n)
      | None => shortest fuel r nx (k + 1)%Z
      end
  end.

Definition digitsOf (n : Z) : string := NilZero.string_of_int (Z.to_int n).

Fixpoint zeros (n : nat) : string :=
  match n with
  | O => EmptyString
  | S n => String "0" (zeros n)
  end.

(** Number::toString for a positive finite number, radix 10. *)
Definition positiveToString (x : float) : string :=
  let nx := decimalExponentOf x in
  let '(k, s, n) := shortest 17 (roundingOf x) nx 1 in
  let digits := digitsOf s in
  let kn := Z.to_nat k in
  if ((k <=? n) && (n <=? 21))%Z
  then digits ++ zeros (Z.to_nat (n - k))
  else if ((0 <? n) && (n <=? 21))%Z
  then substring 0 (Z.to_nat n) digits ++ "."
       ++ substring (Z.to_nat n) (kn - Z.to_nat n) digits
  else if ((-6 <? n) && (n <=? 0))%Z
  then "0." ++ zeros (Z.to_nat (- n)) ++ digits
  else
    let e := (n - 1)%Z in
    let exponent :=
      "e" ++ (if (e <? 0)%Z then "-" else "+") ++ digitsOf (Z.abs e) in
    if (k =? 1)%Z then digits ++ exponent
    else substring 0 1 digits ++ "." ++ substring 1 (kn - 1) digits
         ++ exponent.

(** [String(x)] and [`${x}`] for a number. *)
Definition toString (x : float) : string :=
  if PrimFloat.is_nan x then "NaN"
  else if PrimFloat.eqb x 0 then "0"
  else if PrimFloat.ltb x 0
  then "-" ++ (if is_infinity x then "Infinity"
               else positiveToString (PrimFloat.opp x))
  else if is_infinity x then "Infinity" else positiveToString x.

End JsNumberToString.

Arguments JsNumberToString.toString x : simpl never.

(* ------------------------------------------------------------------ *)
(** * services/costEstimation.ts *)

Module CostEstimation.

Inductive Mode : Type := aggregated | disaggregated.

Inductive CloudProvider : Type := aws | azure | gcp | on_prem | none.

Inductive GpuType : Type :=
| nvidia_a100_40gb | nvidia_a100_80gb | nvidia_h100 | nvidia_h200
| nvidia_l40s | nvidia_l4 | nvidia_t4 | nvidia_v100 | nvidia_a10g
| unknown.

Section WithNumbers.

Context {num : Type} {N : JsNumber num}.

(** CostEstimateInput of shared/types/costs.ts. *)
Record CostEstimateInput : Type := {
  mode : Mode;
  replicas : num;
  gpusPerReplica : num;
  prefillReplicas : option num;
  decodeReplicas : option num;
  prefillGpus : option num;
  decodeGpus : option num;
  cloudProvider : option CloudProvider;
  gpuType : option GpuType;
  customHourlyRate : option num
}.

Record CostSettings : Type := {
  settings_cloudProvider : CloudProvider;
  settings_gpuType : GpuType;
  settings_customHourlyRate : option num
}.

Record ResourceBreakdown : Type := {
  workerInstances : option num;
  gpusPerWorker : option num;
  prefillInstances : option num;
  prefillGpusPerInstance : option num;
  decodeInstances : option num;
  decodeGpusPerInstance : option num;
  totalGpus : num;
  totalInstances : num
}.

(** CostEstimate, without [relativeDescription] (display text only). *)
Record CostEstimate : Type := {
  resources : ResourceBreakdown;
  hasActualCosts : bool;
  hourlyRate : option num;
  dailyRate : option num;
  monthlyRate : option num;
  estimate_gpuType : option GpuType;
  estimate_cloudProvider : option CloudProvider;
  gpuMultiplier : num;
  baselineGpus : num;
  additionalGpus : num;
  percentageIncrease : num
}.

(** GPU_PRICING, USD per GPU-hour. *)
Definition GPU_PRICING (p : CloudProvider) (g : GpuType) : num :=
  match p with
  | aws =>
      match g with
      | nvidia_a100_40gb => ndec 340 100
      | nvidia_a100_80gb => ndec 410 100
      | nvidia_h100 => ndec 510 100
      | nvidia_h200 => ndec 650 100
      | nvidia_l40s => ndec 180 100
      | nvidia_l4 => ndec 80 100
      | nvidia_t4 => ndec 53 100
      | nvidia_v100 => ndec 126 100
      | nvidia_a10g => ndec 121 100
      | unknown => ndec 250 100
      end
  | azure =>
      match g with
      | nvidia_a100_40gb => ndec 340 100
      | nvidia_a100_80gb => ndec 367 100
      | nvidia_h100 => ndec 500 100
      | nvidia_h200 => ndec 620 100
      | nvidia_l40s => ndec 170 100
      | nvidia_l4 => ndec 75 100
      | nvidia_t4 => ndec 52 100
      | nvidia_v100 => ndec 122 100
      | nvidia_a10g => ndec 110 100
      | unknown => ndec 240 100
      end
  | gcp =>
      match g with
      | nvidia_a100_40gb => ndec 317 100
      | nvidia_a100_80gb => ndec 367 100
      | nvidia_h100 => ndec 507 100
      | nvidia_h200 => ndec 630 100
      | nvidia_l40s => ndec 165 100
      | nvidia_l4 => ndec 70 100
      | nvidia_t4 => ndec 35 100
      | nvidia_v100 => ndec 110 100
      | nvidia_a10g => ndec 100 100
      | unknown => ndec 230 100
      end
  | on_prem => nlit 0
  | none => nlit 0
  end.

Definition calculateResourceBreakdown (input : CostEstimateInput)
  : ResourceBreakdown :=
  match mode input with
  | disaggregated =>
      let prefillInstances := prefillReplicas input ?? nlit 1 in
      let decodeInstances := decodeReplicas input ?? nlit 1 in
      let prefillGpusPerInstance :=
        prefillGpus input ?? gpusPerReplica input in
      let decodeGpusPerInstance :=
        decodeGpus input ?? gpusPerReplica input in
      let totalGpus :=
        nadd (nmul prefillInstances prefillGpusPerInstance)
             (nmul decodeInstances decodeGpusPerInstance) in
      {| workerInstances := None;
         gpusPerWorker := None;
         prefillInstances := Some prefillInstances;
         prefillGpusPerInstance := Some prefillGpusPerInstance;
         decodeInstances := Some decodeInstances;
         decodeGpusPerInstance := Some decodeGpusPerInstance;
         totalGpus := totalGpus;
         totalInstances := nadd prefillInstances decodeInstances |}
  | aggregated =>
      let workerInstances := replicas input in
      let gpusPerWorker := gpusPerReplica input in
      let totalGpus := nmul workerInstances gpusPerWorker in
      {| workerInstances := Some workerInstances;
         gpusPerWorker := Some gpusPerWorker;
         prefillInstances := None;
         prefillGpusPerInstance := None;
         decodeInstances := None;
         decodeGpusPerInstance := None;
         totalGpus := totalGpus;
         totalInstances := workerInstances |}
  end.

Definition getHourlyRate (cloudProvider : option CloudProvider)
    (gpuType : option GpuType) (customHourlyRate : option num)
  : option num :=
  match cloudProvider, customHourlyRate with
  | Some on_prem, Some custom => Some custom
  | None, _ | Some none, _ => None
  | Some p, _ =>
      let rate := GPU_PRICING p (gpuType ?? unknown) in
      if ngt rate (nlit 0) then Some rate else None
  end.

Definition calculateCostEstimate (input : CostEstimateInput)
    (costSettings : option CostSettings) : CostEstimate :=
  let resources := calculateResourceBreakdown input in
  let cloudProvider :=
    cloudProvider input
      ?? option_map settings_cloudProvider costSettings ?? none in
  let gpuType :=
    gpuType input ?? option_map settings_gpuType costSettings ?? unknown in
  let customHourlyRate :=
    match customHourlyRate input with
    | Some r => Some r
    | None =>
        match costSettings with
        | Some s => settings_customHourlyRate s
        | None => None
        end
    end in
  let baselineGpus := gpusPerReplica input in
  let additionalGpus := nsub (totalGpus resources) baselineGpus in
  let percentageIncrease :=
    if ngt baselineGpus (nlit 0)
    then nmul (ndiv (nsub (totalGpus resources) baselineGpus) baselineGpus)
              (nlit 100)
    else nlit 0 in
  let gpuMultiplier :=
    if ngt baselineGpus (nlit 0)
    then ndiv (totalGpus resources) baselineGpus
    else nlit 1 in
  let perGpuHourlyRate :=
    getHourlyRate (Some cloudProvider) (Some gpuType) customHourlyRate in
  let hasActualCosts :=
    match perGpuHourlyRate with
    | Some r => ngt r (nlit 0)
    | None => false
    end in
  let hourlyRate :=
    match perGpuHourlyRate with
    | Some r =>
        if hasActualCosts && ntruthy r
        then Some (nmul (totalGpus resources) r)
        else None
    | None => None
    end in
  let dailyRate := option_map (fun h => nmul h (nlit 24)) hourlyRate in
  let monthlyRate := option_map (fun h => nmul h (nlit 730)) hourlyRate in
  {| resources := resources;
     hasActualCosts := hasActualCosts;
     hourlyRate := hourlyRate;
     dailyRate := dailyRate;
     monthlyRate := monthlyRate;
     estimate_gpuType := if hasActualCosts then Some gpuType else None;
     estimate_cloudProvider :=
       if hasActualCosts then Some cloudProvider else None;
     gpuMultiplier := gpuMultiplier;
     baselineGpus := baselineGpus;
     additionalGpus := additionalGpus;
     percentageIncrease := percentageIncrease |}.

(** The provider the estimate is priced for:
    [input.cloudProvider ?? costSettings?.cloudProvider ?? 'none']. *)
Definition resolvedCloudProvider (input : CostEstimateInput)
    (costSettings : option CostSettings) : CloudProvider :=
  cloudProvider input
    ?? option_map settings_cloudProvider costSettings ?? none.

End WithNumbers.

Arguments CostEstimateInput num : clear implicits.
Arguments CostSettings num : clear implicits.
Arguments ResourceBreakdown num : clear implicits.
Arguments CostEstimate num : clear implicits.

End CostEstimation.

(* ------------------------------------------------------------------ *)
(** * The Dynamo provider: manifest generation and validation *)

(** Untyped JavaScript data ([unknown], [Record<string, unknown>]).  An
    object is the list of its properties in the order [Object.entries]
    enumerates them. *)
#[warnings="-register-all"]
Inductive JsValue : Type :=
| JUndefined
| JNull
| JBool (b : bool)
| JNumber (n : float)
| JString (s : string)
| JArray (items : list JsValue)
| JObject (props : list (string * JsValue)).

Module Js.

Definition Obj : Type := list (string * JsValue).

(** [xs.push(x)] *)
Definition push {A : Type} (xs : list A) (x : A) : list A := (xs ++ [x])%list.

Definition str_truthy (s : string) : bool :=
  match s with
  | EmptyString => false
  | String _ _ => true
  end.

Definition truthy (v : JsValue) : bool :=
  match v with
  | JUndefined | JNull => false
  | JBool b => b
  | JNumber n => JsDouble.truthy n
  | JString s => str_truthy s
  | JArray _ | JObject _ => true
  end.

(** [`${v}`] *)
Fixpoint to_string (v : JsValue) : string :=
  match v with
  | JUndefined => "undefined"
  | JNull => "null"
  | JBool true => "true"
  | JBool false => "false"
  | JNumber n => JsNumberToString.toString n
  | JString s => s
  | JArray items =>
      String.concat ","
        (List.map (fun x =>
                     match x with
                     | JUndefined | JNull => EmptyString
                     | _ => to_string x
                     end) items)
  | JObject _ => "[object Object]"
  end.

(** [o[k]] on an object: undefined when the property is absent. *)
Fixpoint get (o : Obj) (k : string) : JsValue :=
  match o with
  | [] => JUndefined
  | (k', v) :: rest => if String.eqb k' k then v else get rest k
  end.

(** [o[k] = v]: overwrite in place, or add as the last property. *)
Fixpoint set (o : Obj) (k : string) (v : JsValue) : Obj :=
  match o with
  | [] => [(k, v)]
  | (k', v') :: rest =>
      if String.eqb k' k then (k', v) :: rest else (k', v') :: set rest k v
  end.

(** [{ ...o, ...src }] *)
Definition spread (o src : Obj) : Obj :=
  fold_left (fun acc kv => set acc (fst kv) (snd kv)) src o.

(** [v.k] and [v?.k]; only the properties of objects are looked up. *)
Definition prop (v : JsValue) (k : string) : JsValue :=
  match v with
  | JObject o => get o k
  | _ => JUndefined
  end.

(** How many properties of [o] are named [k]. *)
Definition count_key (o : Obj) (k : string) : nat :=
  List.length (List.filter (fun kv => String.eqb (fst kv) k) o).

End Js.

Module Dynamo.

Inductive Engine : Type := vllm | sglang | trtllm.

Inductive DeployMode : Type := aggregated | disaggregated.

Inductive RouterMode : Type := router_none | kv | round_robin.

Definition Engine_str (e : Engine) : string :=
  match e with
  | vllm => "vllm"
  | sglang => "sglang"
  | trtllm => "trtllm"
  end.

Definition RouterMode_str (r : RouterMode) : string :=
  match r with
  | router_none => "none"
  | kv => "kv"
  | round_robin => "round-robin"
  end.

Record Resources : Type := {
  gpu : float;
  memory : option string
}.

Record DeploymentConfig : Type := {
  name : string;
  namespace : string;
  modelId : string;
  engine : Engine;
  mode : DeployMode;
  servedModelName : option string;
  routerMode : RouterMode;
  replicas : float;
  hfTokenSecret : string;
  contextLength : option float;
  enforceEager : bool;
  enablePrefixCaching : bool;
  trustRemoteCode : bool;
  resources : option Resources;
  engineArgs : option Js.Obj
}.

Record Metadata : Type := {
  metadata_name : string;
  metadata_namespace : string;
  metadata_labels : option (list (string * string))
}.

Record DynamoManifest : Type := {
  apiVersion : string;
  kind : string;
  metadata : Metadata;
  spec : JsValue
}.

Definition generateFrontendSpec (config : DeploymentConfig) : Js.Obj :=
  let spec :=
    [ ("componentType", JString "frontend");
      ("dynamoNamespace", JString (name config));
      ("replicas", JNumber 1%float) ] in
  let spec :=
    match routerMode config with
    | router_none => spec
    | r => Js.set spec "router-mode" (JString (RouterMode_str r))
    end in
  let spec :=
    if Js.str_truthy (hfTokenSecret config)
    then Js.set spec "envFromSecret" (JString (hfTokenSecret config))
    else spec in
  spec.

(** [...(memory && { memory })] inside an object literal. *)
Definition memoryEntry (memory : option string) : Js.Obj :=
  match memory with
  | Some m => if Js.str_truthy m then [("memory", JString m)] else []
  | None => []
  end.

(** One step of the [forEach] over [Object.entries(config.engineArgs)]. *)
Definition pushEngineArg (args : list string) (entry : string * JsValue)
  : list string :=
  let (key, value) := entry in
  match value with
  | JBool true => Js.push args ("--" ++ key)
  | JBool false => args
  | _ => Js.push args ("--" ++ key ++ " " ++ Js.to_string value)
  end.

(** The [args] array of [generateWorkerSpec], push by push. *)
Definition buildArgs (config : DeploymentConfig) : list string :=
  let args : list string := [] in
  let args :=
    Js.push args ("python3 -m dynamo." ++ Engine_str (engine config)) in
  let args := Js.push args ("--model " ++ modelId config) in
  let args :=
    match servedModelName config with
    | Some s =>
        if Js.str_truthy s
        then Js.push args ("--served-model-name " ++ s) else args
    | None => args
    end in
  let args :=
    if enforceEager config then Js.push args "--enforce-eager" else args in
  let args :=
    if enablePrefixCaching config
    then Js.push args "--enable-prefix-caching" else args in
  let args :=
    if trustRemoteCode config
    then Js.push args "--trust-remote-code" else args in
  let args :=
    match contextLength config with
    | Some n =>
        if JsDouble.truthy n
        then Js.push args ("--max-model-len " ++ JsNumberToString.toString n)
        else args
    | None => args
    end in
  let args :=
    match engineArgs config with
    | Some entries => fold_left pushEngineArg entries args
    | None => args
    end in
  args.

Definition workerKey (e : Engine) : string :=
  match e with
  | vllm => "VllmWorker"
  | sglang => "SglangWorker"
  | trtllm => "TrtllmWorker"
  end.

Definition generateWorkerSpec (config : DeploymentConfig) : Js.Obj :=
  let baseSpec :=
    [ ("componentType", JString "worker");
      ("dynamoNamespace", JString (name config));
      ("replicas", JNumber (replicas config)) ] in
  let baseSpec :=
    if Js.str_truthy (hfTokenSecret config)
    then Js.set baseSpec "envFromSecret" (JString (hfTokenSecret config))
    else baseSpec in
  let baseSpec :=
    match resources config with
    | Some r =>
        Js.set baseSpec "resources"
          (JObject
             [ ("limits",
                JObject
                  (("gpu", JString (JsNumberToString.toString (gpu r)))
                     :: memoryEntry (memory r)));
               ("requests",
                JObject
                  (("gpu", JString (JsNumberToString.toString (gpu r)))
                     :: memoryEntry (memory r))) ])
    | None => baseSpec
    end in
  let args := buildArgs config in
  let baseSpec :=
    Js.set baseSpec "extraPodSpec"
      (JObject
         [ ("mainContainer",
            JObject
              [ ("workingDir",
                 JString ("/workspace/examples/backends/"
                            ++ Engine_str (engine config)));
                ("command", JArray [JString "/bin/sh"; JString "-c"]);
                ("args", JArray [JString (String.concat " " args)]) ]) ]) in
  match engine config with
  | vllm => [("VllmWorker", JObject baseSpec)]
  | sglang => [("SglangWorker", JObject baseSpec)]
  | trtllm => [("TrtllmWorker", JObject baseSpec)]
  end.

Definition generateDynamoManifest (config : DeploymentConfig)
  : DynamoManifest :=
  let workerSpec := generateWorkerSpec config in
  let frontendSpec := generateFrontendSpec config in
  let services :=
    Js.spread [("Frontend", JObject frontendSpec)] workerSpec in
  {| apiVersion := "nvidia.com/v1alpha1";
     kind := "DynamoGraphDeployment";
     metadata :=
       {| metadata_name := name config;
          metadata_namespace := namespace config;
          metadata_labels :=
            Some [ ("app.kubernetes.io/name", "kubefoundry");
                   ("app.kubernetes.io/instance", name config);
                   ("app.kubernetes.io/managed-by", "kubefoundry");
                   ("kubefoundry.io/provider", "dynamo") ] |};
     spec :=
       JObject [ ("backendFramework", JString (Engine_str (engine config)));
                 ("services", JObject services) ] |}.

Record ValidationResult : Type := {
  valid : bool;
  errors : list string
}.

(** [if (cond) errors.push(msg)] *)
Definition pushIf (cond : bool) (msg : string) (errors : list string)
  : list string :=
  if cond then Js.push errors msg else errors.

Definition validateManifest (manifest : DynamoManifest) : ValidationResult :=
  let errors : list string := [] in
  let errors :=
    pushIf (negb (Js.str_truthy (apiVersion manifest))
            || negb (String.eqb (apiVersion manifest) "nvidia.com/v1alpha1"))
      "Invalid or missing apiVersion" errors in
  let errors :=
    pushIf (negb (Js.str_truthy (kind manifest))
            || negb (String.eqb (kind manifest) "DynamoGraphDeployment"))
      "Invalid or missing kind" errors in
  let errors :=
    pushIf (negb (Js.str_truthy (metadata_name (metadata manifest))))
      "Missing metadata.name" errors in
  let errors :=
    pushIf (negb (Js.str_truthy (metadata_namespace (metadata manifest))))
      "Missing metadata.namespace" errors in
  let errors :=
    pushIf (negb (Js.truthy (spec manifest))) "Missing spec" errors in
  let services := Js.prop (spec manifest) "services" in
  let errors :=
    if negb (Js.truthy services)
    then Js.push errors "Missing spec.services"
    else
      let errors :=
        pushIf (negb (Js.truthy (Js.prop services "Frontend")))
          "Missing Frontend in spec.services" errors in
      let hasWorker :=
        Js.truthy (Js.prop services "VllmWorker")
        || Js.truthy (Js.prop services "SglangWorker")
        || Js.truthy (Js.prop services "TrtllmWorker") in
      pushIf (negb hasWorker)
        ("Missing worker spec (VllmWorker, SglangWorker, or TrtllmWorker)"
           ++ " in spec.services")
        errors in
  {| valid := Nat.eqb (List.length errors) 0;
     errors := errors |}.

End Dynamo.

(* ------------------------------------------------------------------ *)
(** * lib/validation.ts: Kubernetes naming rules *)

Module Validation.

Definition lower_alnum (c : ascii) : bool :=
  let n := nat_of_ascii c in
  ((97 <=? n) && (n <=? 122) || (48 <=? n) && (n <=? 57))%nat.

(** The part of the pattern after the first character:
    [([a-z0-9<extra>]*[a-z0-9])?$]. *)
Fixpoint tail_matches (extra : ascii -> bool) (s : string) : bool :=
  match s with
  | EmptyString => true
  | String c EmptyString => lower_alnum c
  | String c rest => (lower_alnum c || extra c) && tail_matches extra rest
  end.

(** [/^[a-z0-9]([a-z0-9<extra>]*[a-z0-9])?$/] *)
Definition name_regex (extra : ascii -> bool) (s : string) : bool :=
  match s with
  | EmptyString => false
  | String c rest => lower_alnum c && tail_matches extra rest
  end.

Definition is_hyphen (c : ascii) : bool := Ascii.eqb c "-"%char.
Definition is_hyphen_or_dot (c : ascii) : bool :=
  Ascii.eqb c "-"%char || Ascii.eqb c "."%char.

Definition namespaceSchema (s : string) : bool :=
  ((1 <=? String.length s) && (String.length s <=? 63))%nat
  && name_regex is_hyphen s.

Definition resourceNameSchema (s : string) : bool :=
  ((1 <=? String.length s) && (String.length s <=? 253))%nat
  && name_regex is_hyphen_or_dot s.

End Validation.

(* ------------------------------------------------------------------ *)
(** * hono-app.ts: deployment creation and provider installation routes *)

Module Routes.

(** ** Data of shared/types *)

Record HelmRepo : Type := {
  repo_name : string;
  repo_url : string
}.

Record HelmChart : Type := {
  chart_name : string;
  chart : string;
  chart_version : option string;
  chart_namespace : string;
  createNamespace : option bool
}.

Record HelmStatus : Type := {
  available : bool;
  helm_version : option string;
  helm_error : option string
}.

Record NodeGpuInfo : Type := {
  nodeName : string;
  node_totalGpus : float;
  node_allocatedGpus : float;
  node_availableGpus : float
}.

Record ClusterGpuCapacity : Type := {
  totalGpus : float;
  allocatedGpus : float;
  availableGpus : float;
  maxContiguousAvailable : float;
  nodes : list NodeGpuInfo
}.

(** What the handlers read of the result of one Helm command. *)
Record HelmResult : Type := {
  success : bool;
  stdout : string;
  stderr : string
}.

Record StepResult : Type := {
  step : string;
  result : HelmResult
}.

(** What the handlers read of the result of [helmService.installProvider]. *)
Record InstallProviderResult : Type := {
  install_success : bool;
  install_results : list StepResult
}.

(** An entry of models.json. *)
Record Model : Type := {
  model_id : string;
  minGpus : option float
}.

(** ** Exceptions and responses *)

Inductive Thrown : Type :=
| HTTPException (status : Z) (message : string)
| Error (message : string).

(** A promise once settled. *)
Inductive Settled (A : Type) : Type :=
| Resolved (a : A)
| Rejected (e : Thrown).

Arguments Resolved {A} a.
Arguments Rejected {A} e.

(** [c.json(body, status)] *)
Record Response : Type := {
  status : Z;
  body : JsValue
}.

Definition json (body : Js.Obj) (status : Z) : Response :=
  {| status := status; body := JObject body |}.

Inductive LogLevel : Type := debug | info | warn.

(** The double-quote character inside a message. *)
Definition dquote : string := String (ascii_of_nat 34) EmptyString.

(** [`${s}`] for an optional string. *)
Definition show (s : option string) : string := s ?? "undefined".

Section Handlers.

(** The provider's typed deployment config and the fit checker's result
    (providers/ and services/gpuValidation.ts). *)
Context {Config GpuFitResult : Type}.

Inductive ValidationResult : Type :=
| Valid (data : Config)
| Invalid (errors : list string).

Record Provider : Type := {
  provider_name : string;
  getHelmRepos : list HelmRepo;
  getHelmCharts : list HelmChart;
  validateConfig : JsValue -> ValidationResult
}.

(** The awaited operations of the collaborators: helmService,
    kubernetesService and configService.  The line callback handed to the
    Helm operations only logs and is left out. *)
Inductive Call : Type :=
| checkHelmAvailable
| repoAdd (repo : HelmRepo)
| repoUpdate
| installProvider (repos : list HelmRepo) (charts : list HelmChart)
| upgrade (chart : HelmChart)
| uninstall (name namespace : string)
| checkProviderInstallation (id : string)
| getClusterGpuCapacity
| createDeployment (config : Config)
| getActiveProvider.

Definition Answer (c : Call) : Type :=
  match c with
  | checkHelmAvailable => HelmStatus
  | repoAdd _ | repoUpdate | upgrade _ | uninstall _ _ => HelmResult
  | installProvider _ _ => InstallProviderResult
  | checkProviderInstallation _ => JsValue
  | getClusterGpuCapacity => ClusterGpuCapacity
  | createDeployment _ => unit
  | getActiveProvider => Provider
  end.

(** An async handler: what it awaits and logs, and how it ends. *)
Inductive Handler (R : Type) : Type :=
| Return (r : R)
| Throw (e : Thrown)
| Await (c : Call) (k : Settled (Answer c) -> Handler R)
| Log (level : LogLevel) (msg : string) (k : Handler R).

Arguments Return {R} r.
Arguments Throw {R} e.
Arguments Await {R} c k.
Arguments Log {R} level msg k.

(** [await c] outside of any [try]: a rejection is rethrown. *)
Definition await {R : Type} (c : Call) (k : Answer c -> Handler R)
  : Handler R :=
  Await c (fun s =>
             match s with
             | Resolved a => k a
             | Rejected e => Throw e
             end).

(** ** Running a handler against the collaborators *)

(** What a run leaves behind: each operation with how it settled, and
    each log line. *)
Inductive Step : Type :=
| Issued (c : Call) (answer : Settled (Answer c))
| Logged (level : LogLevel) (msg : string).

(** The collaborators: how each operation settles, given what has
    happened so far. *)
Definition World : Type := list Step -> forall c : Call, Settled (Answer c).

Inductive Outcome (R : Type) : Type :=
| Returned (r : R)
| Raised (e : Thrown).

Arguments Returned {R} r.
Arguments Raised {R} e.

Fixpoint run {R : Type} (h : Handler R) (w : World) (trace : list Step)
  : list Step * Outcome R :=
  match h with
  | Return r => (trace, Returned r)
  | Throw e => (trace, Raised e)
  | Await c k =>
      let answer := w trace c in
      run (k answer) w (Js.push trace (Issued c answer))
  | Log level msg k => run k w (Js.push trace (Logged level msg))
  end.

(** ** Reading a trace *)

Definition callOf (s : Step) : option Call :=
  match s with
  | Issued c _ => Some c
  | Logged _ _ => None
  end.

(** The operations of the run, in the order they were issued. *)
Fixpoint calls (trace : list Step) : list Call :=
  match trace with
  | [] => []
  | s :: rest =>
      match callOf s with
      | Some c => c :: calls rest
      | None => calls rest
      end
  end.

(** The operations that change the cluster through the package manager. *)
Definition isProvisioning (c : Call) : bool :=
  match c with
  | repoAdd _ | repoUpdate | installProvider _ _ | upgrade _
  | uninstall _ _ => true
  | _ => false
  end.

Definition provisioningCalls (trace : list Step) : list Call :=
  List.filter isProvisioning (calls trace).

Definition isRejected (s : Step) : bool :=
  match s with
  | Issued _ (Rejected _) => true
  | _ => false
  end.

(** Every operation of the run produced a result. *)
Definition allResolved (trace : list Step) : bool :=
  List.forallb (fun s => negb (isRejected s)) trace.

(** The answer of the cluster, when [s] is an installation status query. *)
Definition statusReport (s : Step) : option (Settled JsValue) :=
  match s with
  | Issued c answer =>
      match c return Settled (Answer c) -> option (Settled JsValue) with
      | checkProviderInstallation _ => fun a => Some a
      | _ => fun _ => None
      end answer
  | Logged _ _ => None
  end.

(** The first installation status the cluster reported in the run. *)
Fixpoint firstStatusReport (trace : list Step) : option (Settled JsValue) :=
  match trace with
  | [] => None
  | s :: rest =>
      match statusReport s with
      | Some a => Some a
      | None => firstStatusReport rest
      end
  end.

(** The answer of the Helm CLI check, when [s] is that check. *)
Definition helmReport (s : Step) : option (Settled HelmStatus) :=
  match s with
  | Issued c answer =>
      match c return Settled (Answer c) -> option (Settled HelmStatus) with
      | checkHelmAvailable => fun a => Some a
      | _ => fun _ => None
      end answer
  | Logged _ _ => None
  end.

(** The Helm CLI check of the run found the CLI. *)
Definition helmFound (s : Step) : bool :=
  match helmReport s with
  | Some (Resolved helmStatus) => available helmStatus
  | _ => false
  end.

(** The chart and the captured stderr, when [s] is a chart upgrade that
    reported failure. *)
Definition failedUpgrade (s : Step) : option (string * string) :=
  match s with
  | Issued c answer =>
      match c return Settled (Answer c) -> option (string * string) with
      | upgrade chart => fun a =>
          match a with
          | Resolved r =>
              if success r then None else Some (chart_name chart, stderr r)
          | Rejected _ => None
          end
      | _ => fun _ => None
      end answer
  | Logged _ _ => None
  end.

(** The result, when [s] is a provider installation that reported
    failure. *)
Definition failedInstall (s : Step) : option InstallProviderResult :=
  match s with
  | Issued c answer =>
      match c return Settled (Answer c) -> option InstallProviderResult with
      | installProvider _ _ => fun a =>
          match a with
          | Resolved r => if install_success r then None else Some r
          | Rejected _ => None
          end
      | _ => fun _ => None
      end answer
  | Logged _ _ => None
  end.

(** ** The collaborators that are plain functions *)

Variable providerRegistry : string -> option Provider.
Variable models : list Model.
Variable config_name config_namespace config_modelId : Config -> string.
Variable fits : GpuFitResult -> bool.
Variable validateGpuFit :
  Config -> ClusterGpuCapacity -> float -> Settled GpuFitResult.
Variable formatGpuWarnings : GpuFitResult -> Settled (list string).

(** ** POST /deployments *)

(** The 201 response; [warnings] is there only when the list is not empty. *)
Definition createdResponse (config : Config) (gpuWarnings : list string)
  : Response :=
  json
    (Js.spread
       [ ("message", JString "Deployment created successfully");
         ("name", JString (config_name config));
         ("namespace", JString (config_namespace config)) ]
       (if (0 <? List.length gpuWarnings)%nat
        then [("warnings", JArray (List.map JString gpuWarnings))]
        else []))
    201.

(** The tail of the handler, after the [try] block. *)
Definition createAndRespond (config : Config) (gpuWarnings : list string)
  : Handler Response :=
  await (createDeployment config) (fun _ =>
    Return (createdResponse config gpuWarnings)).

(** The [catch] clause of the GPU fit validation. *)
Definition gpuFitFailed (config : Config) : Handler Response :=
  Log warn "Could not perform GPU fit validation"
    (createAndRespond config []).

Definition createDeploymentRoute (body : JsValue) : Handler Response :=
  await getActiveProvider (fun provider =>
    match validateConfig provider body with
    | Invalid errors =>
        Throw (HTTPException 400
                 ("Validation error: " ++ String.concat ", " errors))
    | Valid config =>
        Await getClusterGpuCapacity (fun settled =>
          match settled with
          | Rejected gpuError => gpuFitFailed config
          | Resolved capacity =>
              let model :=
                List.find
                  (fun m => String.eqb (model_id m) (config_modelId config))
                  models in
              let modelMinGpus :=
                match model with
                | Some m => minGpus m
                | None => None
                end ?? 1%float in
              match validateGpuFit config capacity modelMinGpus with
              | Rejected gpuError => gpuFitFailed config
              | Resolved gpuFitResult =>
                  if negb (fits gpuFitResult)
                  then
                    match formatGpuWarnings gpuFitResult with
                    | Rejected gpuError => gpuFitFailed config
                    | Resolved gpuWarnings =>
                        Log warn "GPU fit warnings for deployment"
                          (createAndRespond config gpuWarnings)
                    end
                  else createAndRespond config []
              end
          end)
    end).

(** ** POST /installation/providers/:id/install *)

Definition stepJson (r : StepResult) : JsValue :=
  JObject
    [ ("step", JString (step r));
      ("success", JBool (success (result r)));
      ("output", JString (stdout (result r)));
      ("error", JString (stderr (result r))) ].

Definition helmUnavailable (helmStatus : HelmStatus) (advice : string)
  : Thrown :=
  HTTPException 400
    ("Helm CLI not available: " ++ show (helm_error helmStatus) ++ advice).

(** The response when the provider is found installed. *)
Definition alreadyInstalledResponse (provider : Provider) : Response :=
  json
    [ ("success", JBool true);
      ("message", JString (provider_name provider ++ " is already installed"));
      ("alreadyInstalled", JBool true) ]
    200.

(** The exception raised when [installProvider] reports failure. *)
Definition installationFailed (result : InstallProviderResult) : Thrown :=
  let failedStep :=
    List.find (fun r => negb (success (Routes.result r)))
      (install_results result) in
  HTTPException 500
    ("Installation failed at step " ++ dquote
       ++ show (option_map step failedStep)
       ++ dquote ++ ": "
       ++ show (option_map (fun r => stderr (Routes.result r)) failedStep)).

Definition installRoute (id : string) : Handler Response :=
  match providerRegistry id with
  | None => Throw (HTTPException 404 ("Provider not found: " ++ id))
  | Some provider =>
    await checkHelmAvailable (fun helmStatus =>
      if negb (available helmStatus)
      then
        Throw (helmUnavailable helmStatus
                 (". Please install Helm or use the manual installation"
                    ++ " commands."))
      else
        await (checkProviderInstallation id) (fun currentStatus =>
          if Js.truthy (Js.prop currentStatus "installed")
          then
            Return (alreadyInstalledResponse provider)
          else
            Log info ("Starting installation of " ++ provider_name provider)
              (await
                 (installProvider (getHelmRepos provider)
                    (getHelmCharts provider))
                 (fun result =>
                    if install_success result
                    then
                      await (checkProviderInstallation id)
                        (fun verifyStatus =>
                           Return
                             (json
                                [ ("success", JBool true);
                                  ("message",
                                   JString (provider_name provider
                                              ++ " installed successfully"));
                                  ("installationStatus", verifyStatus);
                                  ("results",
                                   JArray (List.map stepJson
                                             (install_results result))) ]
                                200))
                    else Throw (installationFailed result)))))
  end.

(** ** POST /installation/providers/:id/upgrade *)

Definition chartJson (c : HelmChart) (r : HelmResult) : JsValue :=
  JObject
    [ ("chart", JString (chart_name c));
      ("success", JBool (success r));
      ("output", JString (stdout r));
      ("error",
       if Js.str_truthy (stderr r) then JString (stderr r) else JUndefined) ].

(** [for (const repo of repos) await helmService.repoAdd(repo)] *)
Fixpoint addRepos {R : Type} (repos : list HelmRepo) (k : Handler R)
  : Handler R :=
  match repos with
  | [] => k
  | repo :: rest => await (repoAdd repo) (fun _ => addRepos rest k)
  end.

(** The exception raised when the upgrade of a chart reports failure. *)
Definition upgradeFailed (failure : string * string) : Thrown :=
  HTTPException 500
    ("Upgrade failed for chart " ++ dquote ++ fst failure
       ++ dquote ++ ": " ++ snd failure).

(** The loop over the charts; [results] is the array filled so far. *)
Fixpoint upgradeCharts {R : Type} (charts : list HelmChart)
    (results : list JsValue) (k : list JsValue -> Handler R) : Handler R :=
  match charts with
  | [] => k results
  | c :: rest =>
      await (upgrade c) (fun result =>
        let results := Js.push results (chartJson c result) in
        if negb (success result)
        then Throw (upgradeFailed (chart_name c, stderr result))
        else upgradeCharts rest results k)
  end.

Definition upgradeRoute (id : string) : Handler Response :=
  match providerRegistry id with
  | None => Throw (HTTPException 404 ("Provider not found: " ++ id))
  | Some provider =>
    await checkHelmAvailable (fun helmStatus =>
      if negb (available helmStatus)
      then
        Throw (helmUnavailable helmStatus
                 (". Please install Helm or use the manual upgrade"
                    ++ " commands."))
      else
        let charts := getHelmCharts provider in
        let repos := getHelmRepos provider in
        Log info ("Starting upgrade of " ++ provider_name provider)
          (addRepos repos
             (await repoUpdate (fun _ =>
                upgradeCharts charts [] (fun results =>
                  await (checkProviderInstallation id)
                    (fun verifyStatus =>
                       Return
                         (json
                            [ ("success", JBool true);
                              ("message",
                               JString (provider_name provider
                                          ++ " upgraded successfully"));
                              ("installationStatus", verifyStatus);
                              ("results", JArray results) ]
                            200)))))))
  end.

(** ** POST /installation/providers/:id/uninstall *)

(** The loop over [[...charts].reverse()], given that reversed list. *)
Fixpoint uninstallCharts {R : Type} (charts : list HelmChart)
    (results : list JsValue) (k : list JsValue -> Handler R) : Handler R :=
  match charts with
  | [] => k results
  | c :: rest =>
      await (uninstall (chart_name c) (chart_namespace c)) (fun result =>
        uninstallCharts rest (Js.push results (chartJson c result)) k)
  end.

(** One chart with the result of its Helm command. *)
Definition chartOutcomeJson (outcome : HelmChart * HelmResult) : JsValue :=
  chartJson (fst outcome) (snd outcome).

(** The trace of an uninstall command that produced a result. *)
Definition uninstallStep (outcome : HelmChart * HelmResult) : Step :=
  Issued (uninstall (chart_name (fst outcome)) (chart_namespace (fst outcome)))
    (Resolved (snd outcome)).

(** The response of the uninstall route. *)
Definition uninstalledResponse (provider : Provider) (verifyStatus : JsValue)
    (results : list JsValue) : Response :=
  json
    [ ("success", JBool true);
      ("message", JString (provider_name provider ++ " uninstalled"));
      ("installationStatus", verifyStatus);
      ("results", JArray results) ]
    200.

Definition uninstallRoute (id : string) : Handler Response :=
  match providerRegistry id with
  | None => Throw (HTTPException 404 ("Provider not found: " ++ id))
  | Some provider =>
    await checkHelmAvailable (fun helmStatus =>
      if negb (available helmStatus)
      then Throw (helmUnavailable helmStatus EmptyString)
      else
        let charts := getHelmCharts provider in
        Log info ("Starting uninstall of " ++ provider_name provider)
          (uninstallCharts (List.rev charts) [] (fun results =>
             await (checkProviderInstallation id) (fun verifyStatus =>
               Return (uninstalledResponse provider verifyStatus results)))))
  end.

(** ** The shape of a run that stops at a failed step *)

(** [failed] recognises the steps that report a failure and [raise] gives
    the exception for one: either no step of the run failed, or the failed
    step is the last step of the run and the run raised its exception. *)
Definition haltsAtFailure {X R : Type} (failed : Step -> option X)
    (raise : X -> Thrown) (result : list Step * Outcome R) : Prop :=
  Forall (fun s => failed s = None) (fst result)
  \/ exists before s x,
       Forall (fun s => failed s = None) before
       /\ fst result = (before ++ [s])%list
       /\ failed s = Some x
       /\ snd result = Raised (raise x).

End Handlers.

Arguments Return {Config R} r.
Arguments Throw {Config R} e.
Arguments Await {Config R} c k.
Arguments Log {Config R} level msg k.
Arguments Returned {R} r.
Arguments Raised {R} e.

End Routes.


(* ------------------------------------------------------------------ *)
(** * Requests used as examples *)

Module CostExamples.

Import CostEstimation.

(** Two replicas of four GPUs each, no pricing configured. *)
Definition twoByFour : CostEstimateInput float :=
  {| mode := aggregated;
     replicas := nlit 2;
     gpusPerReplica := nlit 4;
     prefillReplicas := None;
     decodeReplicas := None;
     prefillGpus := None;
     decodeGpus := None;
     cloudProvider := None;
     gpuType := None;
     customHourlyRate := None |}.

(** A split deployment that names only its decode side. *)
Definition decodeOnly : CostEstimateInput float :=
  {| mode := disaggregated;
     replicas := nlit 1;
     gpusPerReplica := nlit 2;
     prefillReplicas := None;
     decodeReplicas := Some (nlit 3);
     prefillGpus := None;
     decodeGpus := Some (nlit 4);
     cloudProvider := Some aws;
     gpuType := Some nvidia_a100_80gb;
     customHourlyRate := None |}.

(** The requests of the service's own tests. *)
Definition awsTwoByFour : CostEstimateInput float :=
  {| mode := aggregated;
     replicas := nlit 2;
     gpusPerReplica := nlit 4;
     prefillReplicas := None;
     decodeReplicas := None;
     prefillGpus := None;
     decodeGpus := None;
     cloudProvider := Some aws;
     gpuType := Some nvidia_a100_80gb;
     customHourlyRate := None |}.

Definition splitTwoAndThree : CostEstimateInput float :=
  {| mode := disaggregated;
     replicas := nlit 1;
     gpusPerReplica := nlit 2;
     prefillReplicas := Some (nlit 2);
     decodeReplicas := Some (nlit 3);
     prefillGpus := Some (nlit 2);
     decodeGpus := Some (nlit 2);
     cloudProvider := None;
     gpuType := None;
     customHourlyRate := None |}.

(** Two CPU-only replicas: no GPU per replica. *)
Definition cpuOnly : CostEstimateInput float :=
  {| mode := aggregated;
     replicas := nlit 2;
     gpusPerReplica := nlit 0;
     prefillReplicas := None;
     decodeReplicas := None;
     prefillGpus := None;
     decodeGpus := None;
     cloudProvider := None;
     gpuType := None;
     customHourlyRate := None |}.

End CostExamples.

(* ------------------------------------------------------------------ *)
(** * Reading a generated manifest *)

Module DynamoSpec.

Import Dynamo.

Definition Engine_eqb (a b : Engine) : bool :=
  match a, b with
  | vllm, vllm | sglang, sglang | trtllm, trtllm => true
  | _, _ => false
  end.

(** [manifest.spec.services] *)
Definition servicesOf (manifest : DynamoManifest) : JsValue :=
  Js.prop (spec manifest) "services".

(** [services[<worker key>].extraPodSpec.mainContainer.args] of the worker
    generated for [e]. *)
Definition workerArgs (e : Engine) (manifest : DynamoManifest) : JsValue :=
  Js.prop
    (Js.prop
       (Js.prop (Js.prop (servicesOf manifest) (workerKey e)) "extraPodSpec")
       "mainContainer")
    "args".

(** A part of the command line that is there only when [present]. *)
Definition optionalArg (present : bool) (arg : string) : list string :=
  if present then [arg] else [].

(** What one entry of [engineArgs] adds to the command line. *)
Definition engineArgFlag (entry : string * JsValue) : list string :=
  match snd entry with
  | JBool true => ["--" ++ fst entry]
  | JBool false => []
  | value => ["--" ++ fst entry ++ " " ++ Js.to_string value]
  end.

(** The command line as the concatenation of its parts, in their order. *)
Definition commandLine (config : DeploymentConfig) : string :=
  String.concat " "
    (List.concat
       [ [ "python3 -m dynamo." ++ Engine_str (engine config);
           "--model " ++ modelId config ];
         match servedModelName config with
         | Some s =>
             optionalArg (Js.str_truthy s) ("--served-model-name " ++ s)
         | None => []
         end;
         optionalArg (enforceEager config) "--enforce-eager";
         optionalArg (enablePrefixCaching config) "--enable-prefix-caching";
         optionalArg (trustRemoteCode config) "--trust-remote-code";
         match contextLength config with
         | Some n =>
             optionalArg (JsDouble.truthy n)
               ("--max-model-len " ++ JsNumberToString.toString n)
         | None => []
         end;
         List.flat_map engineArgFlag (engineArgs config ?? []) ]).

(** Following the specification's words: "boolean-true flags emitted bare,
    all others emitted as --key value". *)
Definition engineArgFlagAsSpecified (entry : string * JsValue) : list string :=
  match snd entry with
  | JBool true => ["--" ++ fst entry]
  | value => ["--" ++ fst entry ++ " " ++ Js.to_string value]
  end.

(** Following the specification's words: every optional part is there as
    soon as its field is set (or true), and every engine argument that is not
    boolean true is written with its value. *)
Definition commandLineAsSpecified (config : DeploymentConfig) : string :=
  String.concat " "
    (List.concat
       [ [ "python3 -m dynamo." ++ Engine_str (engine config);
           "--model " ++ modelId config ];
         match servedModelName config with
         | Some s => ["--served-model-name " ++ s]
         | None => []
         end;
         optionalArg (enforceEager config) "--enforce-eager";
         optionalArg (enablePrefixCaching config) "--enable-prefix-caching";
         optionalArg (trustRemoteCode config) "--trust-remote-code";
         match contextLength config with
         | Some n => ["--max-model-len " ++ JsNumberToString.toString n]
         | None => []
         end;
         List.flat_map engineArgFlagAsSpecified (engineArgs config ?? []) ]).

(** The configuration of the provider's tests, with engine arguments. *)
Definition testConfig (args : option Js.Obj) : DeploymentConfig :=
  {| name := "test-deployment";
     namespace := "kubefoundry-system";
     modelId := "Qwen/Qwen3-0.6B";
     engine := vllm;
     mode := aggregated;
     servedModelName := None;
     routerMode := router_none;
     replicas := 1%float;
     hfTokenSecret := "hf-token-secret";
     contextLength := None;
     enforceEager := true;
     enablePrefixCaching := false;
     trustRemoteCode := false;
     resources := None;
     engineArgs := args |}.

End DynamoSpec.


(* ------------------------------------------------------------------ *)
(** * A provider and clusters used as examples *)

Module RouteExamples.

Import Routes.

Definition Config : Type := Dynamo.DeploymentConfig.

(** The fit checker's result, reduced to its warnings. *)
Definition GpuFitResult : Type := list string.

Definition repo : HelmRepo :=
  {| repo_name := "nvidia"; repo_url := "https://helm.ngc.nvidia.com/nvidia" |}.

Definition chartNamed (name : string) : HelmChart :=
  {| chart_name := name;
     chart := "nvidia/" ++ name;
     chart_version := None;
     chart_namespace := "dynamo-system";
     createNamespace := Some true |}.

(** A provider with the chart list [A, B, C]; its validator accepts every
    body as the test configuration. *)
Definition provider : @Provider Config :=
  {| provider_name := "NVIDIA Dynamo";
     getHelmRepos := [repo];
     getHelmCharts := [chartNamed "A"; chartNamed "B"; chartNamed "C"];
     validateConfig := fun _ => Valid (DynamoSpec.testConfig None) |}.

Definition providerRegistry (id : string) : option (@Provider Config) :=
  if String.eqb id "dynamo" then Some provider else None.

Definition helmOk : HelmResult :=
  {| success := true; stdout := "done"; stderr := EmptyString |}.

Definition helmFailed : HelmResult :=
  {| success := false; stdout := EmptyString; stderr := "timed out" |}.

(** An installation that failed at its second step. *)
Definition installFailedAtA : InstallProviderResult :=
  {| install_success := false;
     install_results :=
       [ {| step := "repo-add-nvidia"; result := helmOk |};
         {| step := "install-A"; result := helmFailed |} ] |}.

(** A cluster with the Helm CLI at hand: [installed] is what it reports of
    the provider, the chart named [failing] fails to upgrade or uninstall,
    and [capacity] is how the GPU capacity query settles. *)
Definition cluster (installed : bool) (failing : string)
    (capacity : Settled ClusterGpuCapacity) : @World Config :=
  fun _ c =>
    match c return Settled (Answer c) with
    | checkHelmAvailable =>
        Resolved
          {| available := true;
             helm_version := Some "v3.14.0";
             helm_error := None |}
    | repoAdd _ => Resolved helmOk
    | repoUpdate => Resolved helmOk
    | installProvider _ _ => Resolved installFailedAtA
    | upgrade c =>
        Resolved
          (if String.eqb (chart_name c) failing then helmFailed else helmOk)
    | uninstall name _ =>
        Resolved (if String.eqb name failing then helmFailed else helmOk)
    | checkProviderInstallation _ =>
        Resolved (JObject [("installed", JBool installed)])
    | getClusterGpuCapacity => capacity
    | createDeployment _ => Resolved tt
    | getActiveProvider => Resolved provider
    end.

Definition unreachable : Settled ClusterGpuCapacity :=
  Rejected (Error "connect ECONNREFUSED").

Definition fits (r : GpuFitResult) : bool :=
  match r with
  | [] => true
  | _ :: _ => false
  end.

Definition validateGpuFit (config : Config) (capacity : ClusterGpuCapacity)
    (modelMinGpus : float) : Settled GpuFitResult :=
  Resolved
    (if PrimFloat.ltb (availableGpus capacity) modelMinGpus
     then ["Not enough GPUs available"]
     else []).

Definition formatGpuWarnings (r : GpuFitResult) : Settled (list string) :=
  Resolved r.

Definition createRoute (body : JsValue) : @Handler Config Response :=
  createDeploymentRoute [] Dynamo.name Dynamo.namespace Dynamo.modelId
    fits validateGpuFit formatGpuWarnings body.

End RouteExamples.

(* ------------------------------------------------------------------ *)
(** * hono-app.ts: more readings of a run *)

Module RouteTraces.

Import Routes.

Section Readings.

Context {Config : Type}.

(** The chart, when [s] is a chart upgrade. *)
Definition upgradedChart (s : @Step Config) : option HelmChart :=
  match callOf s with
  | Some (upgrade c) => Some c
  | _ => None
  end.

(** The release and its namespace, when [s] is a chart uninstall. *)
Definition uninstalledRelease (s : @Step Config) : option (string * string) :=
  match callOf s with
  | Some (uninstall name namespace) => Some (name, namespace)
  | _ => None
  end.

(** The values [read] finds in the steps of a trace, in order. *)
Fixpoint collect {A : Type} (read : @Step Config -> option A)
    (trace : list (@Step Config)) : list A :=
  match trace with
  | [] => []
  | s :: rest =>
      match read s with
      | Some a => a :: collect read rest
      | None => collect read rest
      end
  end.

(** [h] adds at most an initial part of [items] to what [read] finds in
    the trace, whatever the collaborators answer. *)
Definition addsPrefix {A R : Type} (read : @Step Config -> option A)
    (items : list A) (h : @Handler Config R) : Prop :=
  forall (w : @World Config) (tr : list (@Step Config)),
    exists n,
      collect read (fst (run h w tr))
      = (collect read tr ++ firstn n items)%list.

(** The result, when [s] is a provider installation that reported
    success. *)
Definition succeededInstall (s : @Step Config) : option InstallProviderResult :=
  match s with
  | Issued c answer =>
      match c return Settled (Answer c) -> option InstallProviderResult with
      | installProvider _ _ => fun a =>
          match a with
          | Resolved r => if install_success r then Some r else None
          | Rejected _ => None
          end
      | _ => fun _ => None
      end answer
  | Logged _ _ => None
  end.

(** No chart upgrade of the run reported failure. *)
Definition noFailedUpgrade (trace : list (@Step Config)) : bool :=
  List.forallb
    (fun s => match failedUpgrade s with Some _ => false | None => true end)
    trace.

(** The trace of an upgrade command that produced a result. *)
Definition upgradeStep (outcome : HelmChart * HelmResult) : @Step Config :=
  Issued (upgrade (fst outcome)) (Resolved (snd outcome)).

(** The trace of a repo-add command that produced a result. *)
Definition repoAddStep (outcome : HelmRepo * HelmResult) : @Step Config :=
  Issued (repoAdd (fst outcome)) (Resolved (snd outcome)).

(** The entry the uninstall response holds for one chart: the chart's
    name with what Helm answered, the error only when there is one. *)
Definition outcomeEntry (outcome : HelmChart * HelmResult) : JsValue :=
  JObject
    [ ("chart", JString (chart_name (fst outcome)));
      ("success", JBool (success (snd outcome)));
      ("output", JString (stdout (snd outcome)));
      ("error",
       match stderr (snd outcome) with
       | EmptyString => JUndefined
       | error => JString error
       end) ].

(** The response of the upgrade route. *)
Definition upgradedResponse (provider : @Provider Config)
    (verifyStatus : JsValue) (results : list JsValue) : Response :=
  json
    [ ("success", JBool true);
      ("message", JString (provider_name provider ++ " upgraded successfully"));
      ("installationStatus", verifyStatus);
      ("results", JArray results) ]
    200.

(** The response of the install route after an installation. *)
Definition installedResponse (provider : @Provider Config)
    (verifyStatus : JsValue) (result : InstallProviderResult) : Response :=
  json
    [ ("success", JBool true);
      ("message",
       JString (provider_name provider ++ " installed successfully"));
      ("installationStatus", verifyStatus);
      ("results", JArray (List.map stepJson (install_results result))) ]
    200.

End Readings.

End RouteTraces.

Module RouteExamples2.

Import Routes RouteExamples.

(** A cluster on a machine without the Helm CLI. *)
Definition helmMissing : HelmStatus :=
  {| available := false;
     helm_version := None;
     helm_error := Some "helm: command not found" |}.

Definition clusterWithoutHelm : @World Config :=
  fun trace c =>
    match c return Settled (Answer c) with
    | checkHelmAvailable => Resolved helmMissing
    | other => cluster true "none" unreachable trace other
    end.

(** A provider whose validator rejects every body. *)
Definition strictProvider : @Provider Config :=
  {| provider_name := "Strict";
     getHelmRepos := [];
     getHelmCharts := [];
     validateConfig :=
       fun _ => Invalid ["name: Required"; "modelId: Required"] |}.

Definition clusterWithStrictProvider : @World Config :=
  fun trace c =>
    match c return Settled (Answer c) with
    | getActiveProvider => Resolved strictProvider
    | other => cluster true "none" unreachable trace other
    end.

(** A cluster where the provider is not installed and its installation
    succeeds in two steps. *)
Definition installedInTwoSteps : InstallProviderResult :=
  {| install_success := true;
     install_results :=
       [ {| step := "repo-add-nvidia"; result := helmOk |};
         {| step := "install-A"; result := helmOk |} ] |}.

Definition freshCluster : @World Config :=
  fun trace c =>
    match c return Settled (Answer c) with
    | installProvider _ _ => Resolved installedInTwoSteps
    | other => cluster false "none" unreachable trace other
    end.

(** A cluster where the Helm CLI can no longer be started once a chart is
    uninstalled. *)
Definition clusterFailingAfterOne : @World Config :=
  fun trace c =>
    if (1 <=? List.length (RouteTraces.collect RouteTraces.uninstalledRelease
                             trace))%nat
    then
      match c return Settled (Answer c) with
      | uninstall _ _ => Rejected (Error "spawn helm EAGAIN")
      | other => cluster true "none" unreachable trace other
      end
    else cluster true "none" unreachable trace c.

End RouteExamples2.

(* ------------------------------------------------------------------ *)
(** * hono-app.ts: GET /deployments, the pagination of the list *)

Module Deployments.

Record Pagination : Type := {
  total : nat;
  limit : nat;
  offset : nat;
  hasMore : bool
}.

(** [n || d] for an optional count: [d] when [n] is undefined or 0. *)
Definition orElse (n : option nat) (d : nat) : nat :=
  match n with
  | Some (S m) => S m
  | _ => d
  end.

(** [list.slice(start, end)] for indices that are not negative. *)
Definition slice {A : Type} (l : list A) (start : nat) (end_ : option nat)
  : list A :=
  match end_ with
  | Some e => firstn (e - start)%nat (skipn start l)
  | None => skipn start l
  end.

Definition isDefined {A : Type} (o : option A) : bool :=
  match o with
  | Some _ => true
  | None => false
  end.

(** The handler once [listDeployments] has resolved: [limit] and [offset]
    are the validated query parameters (integers, not negative). *)
Definition paginate {A : Type} (deploymentsList : list A)
    (limit offset : option nat) : list A * Pagination :=
  let total := List.length deploymentsList in
  let deploymentsList :=
    if isDefined offset || isDefined limit
    then
      let start := orElse offset 0 in
      let end_ :=
        match limit with
        | Some (S l) => Some (start + S l)%nat
        | _ => None
        end in
      slice deploymentsList start end_
    else deploymentsList in
  (deploymentsList,
   {| total := total;
      limit := orElse limit total;
      offset := orElse offset 0;
      hasMore := (orElse offset 0 + List.length deploymentsList <? total)%nat
   |}).

(** The whole handler: [listing] is how the lookup of the namespace and
    the listing settled; a rejection is caught and answered with an empty
    page. *)
Definition listDeploymentsRoute {A : Type} (listing : Routes.Settled (list A))
    (limit offset : option nat) : list A * Pagination :=
  match listing with
  | Routes.Resolved deploymentsList => paginate deploymentsList limit offset
  | Routes.Rejected _ =>
      ([], {| total := 0; limit := 0; offset := 0; hasMore := false |})
  end.

(** [Number.isInteger(x)], with the integer: NaN, the infinities and the
    fractions have none. *)
Definition integerOf (x : float) : option Z :=
  match Prim2SF x with
  | S754_zero _ => Some 0%Z
  | S754_finite negative m e =>
      let sign := if negative then (-1)%Z else 1%Z in
      if (0 <=? e)%Z then Some (sign * (Z.pos m * 2 ^ e))%Z
      else if (Z.pos m mod 2 ^ (- e) =? 0)%Z
      then Some (sign * (Z.pos m / 2 ^ (- e)))%Z
      else None
  | _ => None
  end.

(** [z.number().int().min(lowest).max(highest).optional()] applied to
    what the transform hands over: [undefined] for a parameter that is absent
    or empty, else the number [parseInt(val, 10)] read (NaN when it read
    none).  The outer [None] is a refusal. *)
Definition boundedOptional (lowest : Z) (highest : option Z)
    (value : option float) : option (option nat) :=
  match value with
  | None => Some None
  | Some x =>
      match integerOf x with
      | Some n =>
          if ((lowest <=? n)
              && match highest with
                 | Some h => n <=? h
                 | None => true
                 end)%Z
          then Some (Some (Z.to_nat n))
          else None
      | None => None
      end
  end.

(** [namespaceSchema.optional()] *)
Definition optionalNamespace (namespace : option string) : bool :=
  match namespace with
  | Some ns => Validation.namespaceSchema ns
  | None => true
  end.

(** The answer of the route: the page, or the 400 of the validator. *)
Inductive Reply (A : Type) : Type :=
| Listed (deployments : list A) (pagination : Pagination)
| BadRequest.

Arguments Listed {A} deployments pagination.
Arguments BadRequest {A}.

(** GET /deployments behind its [zValidator('query', ...)]: a namespace
    that is not a valid name, a limit that is not an integer from 1 to 100
    or an offset that is not an integer from 0 on is answered 400 before
    the handler runs.  [limit] and [offset] are the query parameters after
    the transform of the schema. *)
Definition getDeployments {A : Type} (listing : Routes.Settled (list A))
    (namespace : option string) (limit offset : option float) : Reply A :=
  match
    optionalNamespace namespace,
    boundedOptional 1 (Some 100%Z) limit,
    boundedOptional 0 None offset
  with
  | true, Some limit, Some offset =>
      let (deployments, pagination) :=
        listDeploymentsRoute listing limit offset in
      Listed deployments pagination
  | _, _, _ => BadRequest
  end.

End Deployments.

(* ------------------------------------------------------------------ *)
(** * services/modelCompatibility.ts *)

Module JsString.

(** [s.split(sep)] for a separator of one character. *)
Fixpoint split (sep : ascii) (s : string) : list string :=
  match s with
  | EmptyString => [EmptyString]
  | String c rest =>
      if Ascii.eqb c sep
      then EmptyString :: split sep rest
      else
        match split sep rest with
        | first :: others => String c first :: others
        | [] => [String c EmptyString]
        end
  end.

(** [list.includes(s)] *)
Definition includes (list : list string) (s : string) : bool :=
  List.existsb (String.eqb s) list.

End JsString.

Module ModelCompatibility.

Import Dynamo.

(** The architectures each engine has been verified to support. *)
Definition ENGINE_ARCHITECTURE_ALLOWLIST (e : Engine) : list string :=
  match e with
  | vllm =>
      [ "LlamaForCausalLM"; "MistralForCausalLM"; "MixtralForCausalLM";
        "Qwen2ForCausalLM"; "Qwen2MoeForCausalLM"; "Qwen3ForCausalLM";
        "GPT2LMHeadModel"; "GPTNeoForCausalLM"; "GPTNeoXForCausalLM";
        "GPTJForCausalLM"; "GPTBigCodeForCausalLM";
        "FalconForCausalLM"; "PhiForCausalLM"; "Phi3ForCausalLM";
        "GemmaForCausalLM"; "Gemma2ForCausalLM"; "StableLmForCausalLM";
        "StarCoder2ForCausalLM"; "OPTForCausalLM"; "BloomForCausalLM";
        "MPTForCausalLM"; "BaichuanForCausalLM"; "InternLMForCausalLM";
        "InternLM2ForCausalLM"; "ChatGLMModel"; "CohereForCausalLM";
        "DbrxForCausalLM"; "DeciLMForCausalLM"; "DeepseekV2ForCausalLM";
        "ExaoneForCausalLM"; "ArcticForCausalLM"; "GraniteForCausalLM";
        "GraniteMoeForCausalLM"; "JambaForCausalLM"; "MiniCPMForCausalLM";
        "OlmoForCausalLM"; "Olmo2ForCausalLM"; "PersimmonForCausalLM";
        "SolarForCausalLM"; "TeleChat2ForCausalLM"; "XverseForCausalLM" ]
  | sglang =>
      [ "LlamaForCausalLM"; "MistralForCausalLM"; "MixtralForCausalLM";
        "Qwen2ForCausalLM"; "Qwen2MoeForCausalLM"; "Qwen3ForCausalLM";
        "GPT2LMHeadModel"; "GPTNeoXForCausalLM"; "GPTBigCodeForCausalLM";
        "GemmaForCausalLM"; "Gemma2ForCausalLM"; "PhiForCausalLM";
        "Phi3ForCausalLM"; "StableLmForCausalLM"; "InternLM2ForCausalLM";
        "DeepseekV2ForCausalLM"; "OlmoForCausalLM"; "Olmo2ForCausalLM";
        "ExaoneForCausalLM"; "MiniCPMForCausalLM" ]
  | trtllm =>
      [ "LlamaForCausalLM"; "MistralForCausalLM"; "MixtralForCausalLM";
        "Qwen2ForCausalLM"; "GPT2LMHeadModel"; "GPTNeoXForCausalLM";
        "FalconForCausalLM"; "PhiForCausalLM"; "GemmaForCausalLM";
        "BloomForCausalLM"; "MPTForCausalLM"; "BaichuanForCausalLM";
        "ChatGLMModel" ]
  end.

Definition SUPPORTED_PIPELINE_TAGS : list string :=
  ["text-generation"; "text2text-generation"; "conversational"].

(** One turn of the loop of [getSupportedEngines]. *)
Definition pushIfSupported (architectures : list string)
    (engines : list Engine) (engine : Engine) : list Engine :=
  let allowlist := ENGINE_ARCHITECTURE_ALLOWLIST engine in
  let isSupported :=
    List.existsb (fun arch => JsString.includes allowlist arch)
      architectures in
  if isSupported then Js.push engines engine else engines.

Definition getSupportedEngines (architectures : list string) : list Engine :=
  fold_left (pushIfSupported architectures) [vllm; sglang; trtllm] [].

(** Some architecture of the list is on the engine's allowlist. *)
Definition supports (architectures : list string) (engine : Engine) : bool :=
  List.existsb
    (fun arch => JsString.includes (ENGINE_ARCHITECTURE_ALLOWLIST engine) arch)
    architectures.

(** [!s] for an optional string. *)
Definition missing (s : option string) : bool :=
  match s with
  | Some s => negb (Js.str_truthy s)
  | None => true
  end.

Definition isPipelineTagCompatible (pipelineTag : option string) : bool :=
  match pipelineTag with
  | Some tag =>
      if negb (Js.str_truthy tag) then false
      else JsString.includes SUPPORTED_PIPELINE_TAGS tag
  | None => false
  end.

Definition getIncompatibilityReason (pipelineTag libraryName : option string)
    (architectures : option (list string))
    (supportedEngines : option (list Engine)) : option string :=
  if missing pipelineTag then Some "Model has no pipeline tag"
  else if negb (isPipelineTagCompatible pipelineTag)
  then
    Some ("Pipeline tag " ++ Routes.dquote ++ Routes.show pipelineTag
            ++ Routes.dquote ++ " is not supported for inference")
  else if negb (missing libraryName)
          && negb (String.eqb (Routes.show libraryName) "transformers")
          && negb (String.eqb (Routes.show libraryName) "vllm")
  then
    Some ("Library " ++ Routes.dquote ++ Routes.show libraryName
            ++ Routes.dquote ++ " is not supported")
  else
    match architectures with
    | None | Some [] => Some "Model architecture is unknown"
    | Some (first :: _) =>
        match supportedEngines with
        | None | Some [] =>
            Some ("Architecture " ++ Routes.dquote ++ first ++ Routes.dquote
                    ++ " is not supported by any engine")
        | Some (_ :: _) => None
        end
    end.

(** The fields of the HuggingFace API result that the service reads. *)
Record HfSafetensorsInfo : Type := {
  safetensors_total : option float;
  safetensors_parameters : option (list (string * float))
}.

Inductive Gated : Type :=
| GatedFlag (b : bool)
| GatedAuto
| GatedManual.

Record HfConfig : Type := {
  config_architectures : option (list string)
}.

Record HfApiModelResult : Type := {
  id : string;
  gated : option Gated;
  downloads : option float;
  likes : option float;
  library_name : option string;
  pipeline_tag : option string;
  config : option HfConfig;
  safetensors : option HfSafetensorsInfo
}.

(** [!!n] and [n || 0] for an optional number. *)
Definition numberTruthy (n : option float) : bool :=
  match n with
  | Some n => JsDouble.truthy n
  | None => false
  end.

Definition numberOrZero (n : option float) : float :=
  if numberTruthy n then n ?? 0%float else 0%float.

Definition extractParameterCount (model : HfApiModelResult) : option float :=
  let total :=
    match safetensors model with
    | Some info => safetensors_total info
    | None => None
    end in
  if numberTruthy total then total
  else
    match safetensors model with
    | Some info =>
        match safetensors_parameters info with
        | Some params =>
            let total :=
              fold_left (fun sum count => PrimFloat.add sum count)
                (List.map snd params) 0%float in
            if PrimFloat.ltb 0 total then Some total else None
        | None => None
        end
    | None => None
    end.

Section WithGpuMemory.

(** [estimateGpuMemory] and [formatGpuMemory] of services/gpuValidation.ts,
    and the truthiness of the number the first one returns. *)
Context {Memory : Type}.
Variable memoryTruthy : Memory -> bool.
Variable estimateGpuMemory : float -> Memory.
Variable formatGpuMemory : Memory -> string.

Record HfModelSearchResult : Type := {
  result_id : string;
  author : string;
  name : string;
  result_downloads : float;
  result_likes : float;
  pipelineTag : string;
  libraryName : string;
  architectures : list string;
  result_gated : bool;
  parameterCount : option float;
  estimatedGpuMemory : option string;
  estimatedGpuMemoryGb : option Memory;
  supportedEngines : list Engine;
  compatible : bool;
  incompatibilityReason : option string
}.

(** [s || d] for a string. *)
Definition stringOr (s d : string) : string :=
  if Js.str_truthy s then s else d.

Definition processHfModel (model : HfApiModelResult) : HfModelSearchResult :=
  let architectures :=
    match config model with
    | Some c => config_architectures c
    | None => None
    end ?? [] in
  let supportedEngines := getSupportedEngines architectures in
  let pipelineTag := stringOr (pipeline_tag model ?? EmptyString) EmptyString in
  let libraryName := stringOr (library_name model ?? EmptyString) EmptyString in
  let compatible :=
    isPipelineTagCompatible (Some pipelineTag)
    && (0 <? List.length supportedEngines)%nat
    && (String.eqb libraryName "transformers"
        || String.eqb libraryName "vllm"
        || String.eqb libraryName EmptyString) in
  let incompatibilityReason :=
    if compatible then None
    else
      getIncompatibilityReason (Some pipelineTag) (Some libraryName)
        (Some architectures) (Some supportedEngines) in
  let parameterCount := extractParameterCount model in
  let gpuMemory :=
    if numberTruthy parameterCount
    then option_map estimateGpuMemory parameterCount
    else None in
  let parts := JsString.split "/" (id model) in
  let author := List.hd EmptyString parts in
  let nameParts := List.tl parts in
  let name := stringOr (String.concat "/" nameParts) (id model) in
  {| result_id := id model;
     author := stringOr author "unknown";
     name := name;
     result_downloads := numberOrZero (downloads model);
     result_likes := numberOrZero (likes model);
     pipelineTag := pipelineTag;
     libraryName := libraryName;
     architectures := architectures;
     result_gated :=
       match gated model with
       | Some (GatedFlag true) | Some GatedAuto | Some GatedManual => true
       | _ => false
       end;
     parameterCount := parameterCount;
     estimatedGpuMemory :=
       match gpuMemory with
       | Some m => if memoryTruthy m then Some (formatGpuMemory m) else None
       | None => None
       end;
     estimatedGpuMemoryGb := gpuMemory;
     supportedEngines := supportedEngines;
     compatible := compatible;
     incompatibilityReason := incompatibilityReason |}.

Definition filterCompatibleModels (models : list HfApiModelResult)
  : list HfModelSearchResult :=
  List.filter compatible (List.map processHfModel models).

End WithGpuMemory.

Definition getEngineArchitectures (engine : Engine) : list string :=
  ENGINE_ARCHITECTURE_ALLOWLIST engine.

End ModelCompatibility.

Module CompatibilityExamples.

Import ModelCompatibility.

(** A model as the HuggingFace API describes it. *)
Definition qwen : HfApiModelResult :=
  {| id := "Qwen/Qwen3-0.6B";
     gated := Some (GatedFlag false);
     downloads := Some 1200345%float;
     likes := Some 512%float;
     library_name := Some "transformers";
     pipeline_tag := Some "text-generation";
     config := Some {| config_architectures := Some ["Qwen3ForCausalLM"] |};
     safetensors :=
       Some {| safetensors_total := Some 596049920%float;
               safetensors_parameters :=
                 Some [("BF16", 596049920%float)] |} |}.

(** A stand-in for the memory estimate: gigabytes, two bytes per parameter
    and one gigabyte on top. *)
Definition estimateGpuMemory (parameterCount : float) : float :=
  (parameterCount * 2 / 1000000000 + 1)%float.

Definition memoryTruthy (gb : float) : bool := JsDouble.truthy gb.

Definition formatGpuMemory (gb : float) : string :=
  JsNumberToString.toString gb ++ " GB".

End CompatibilityExamples.

(* ------------------------------------------------------------------ *)
(** * services/costEstimation.ts: the GPU tables *)

Module GpuTables.

Import CostEstimation.

(** GPU_MEMORY, in GB. *)
Definition GPU_MEMORY (g : GpuType) : Z :=
  match g with
  | nvidia_a100_40gb => 40
  | nvidia_a100_80gb => 80
  | nvidia_h100 => 80
  | nvidia_h200 => 141
  | nvidia_l40s => 48
  | nvidia_l4 => 24
  | nvidia_t4 => 16
  | nvidia_v100 => 32
  | nvidia_a10g => 24
  | unknown => 16
  end.

(** [a >= b] on numbers. *)
Definition ge (a b : float) : bool := PrimFloat.leb b a.

Definition detectGpuTypeFromMemory (memoryGb : option float) : GpuType :=
  match memoryGb with
  | None => unknown
  | Some m =>
      if negb (JsDouble.truthy m) then unknown
      else if ge m (nlit 140) then nvidia_h200
      else if ge m (nlit 80) then nvidia_a100_80gb
      else if ge m (nlit 48) then nvidia_l40s
      else if ge m (nlit 40) then nvidia_a100_40gb
      else if ge m (nlit 32) then nvidia_v100
      else if ge m (nlit 24) then nvidia_l4
      else if ge m (nlit 16) then nvidia_t4
      else unknown
  end.

End GpuTables.

(* ------------------------------------------------------------------ *)
(** * More readings of a generated manifest *)

Module DynamoReadings.

Import Dynamo DynamoSpec.

(** The worker entry of the services map generated for [config]. *)
Definition workerOf (config : DeploymentConfig) : JsValue :=
  Js.prop (servicesOf (generateDynamoManifest config))
    (workerKey (engine config)).

(** The Frontend entry of the services map generated for [config]. *)
Definition frontendOf (config : DeploymentConfig) : JsValue :=
  Js.prop (servicesOf (generateDynamoManifest config)) "Frontend".

(** The value written for a string that is left out when empty. *)
Definition whenPresent (s : string) : JsValue :=
  if Js.str_truthy s then JString s else JUndefined.

(** 1 when the check fails. *)
Definition failing (check : bool) : nat := if check then 0 else 1.

End DynamoReadings.

(* ------------------------------------------------------------------ *)
(** * Image names of the AIKit service
    (backend/src/services/aikit.ts)

    The strings here are made of code units below 256.  [toLowerCase]
    maps the capital letters of that range to their small letters, as the
    JavaScript method does; it keeps the length of such a string, which
    the method does not do for every string (U+0130 becomes two code
    units). *)

Module Aikit.

Import Validation.

Definition lowerChar (c : ascii) : ascii :=
  let n := nat_of_ascii c in
  if ((65 <=? n) && (n <=? 90)
      || (192 <=? n) && (n <=? 214)
      || (216 <=? n) && (n <=? 222))%nat
  then ascii_of_nat (n + 32)
  else c.

Definition toLowerCase (s : list ascii) : list ascii := map lowerChar s.

(** [.replace(/[^a-z0-9-]/g, '-')] *)
Definition replaceDisallowed (s : list ascii) : list ascii :=
  map (fun c => if lower_alnum c || is_hyphen c then c else "-"%char) s.

(** [.replace(/-+/g, '-')]: of each run of hyphens the last one stays. *)
Fixpoint collapseHyphens (s : list ascii) : list ascii :=
  match s with
  | [] => []
  | c :: rest =>
      if is_hyphen c
         && match rest with d :: _ => is_hyphen d | [] => false end
      then collapseHyphens rest
      else c :: collapseHyphens rest
  end.

Definition stripLeading (s : list ascii) : list ascii :=
  match s with
  | c :: rest => if is_hyphen c then rest else s
  | [] => []
  end.

Fixpoint stripTrailing (s : list ascii) : list ascii :=
  match s with
  | [] => []
  | c :: rest =>
      match rest with
      | [] => if is_hyphen c then [] else [c]
      | _ :: _ => c :: stripTrailing rest
      end
  end.

(** [.replace(/^-|-$/g, '')]: one hyphen at the start and one at the end. *)
Definition stripEnds (s : list ascii) : list ascii :=
  stripTrailing (stripLeading s).

Definition slice (first last : nat) (s : list ascii) : list ascii :=
  firstn (last - first) (skipn first s).

Definition sanitizeImageName (modelId : string) : string :=
  string_of_list_ascii
    (slice 0 63
       (stripEnds
          (collapseHyphens
             (replaceDisallowed
                (toLowerCase (list_ascii_of_string modelId)))))).

(** Two hyphens in a row somewhere in [s]. *)
Fixpoint hyphenRun (s : list ascii) : bool :=
  match s with
  | [] => false
  | c :: rest =>
      is_hyphen c
      && match rest with d :: _ => is_hyphen d | [] => false end
      || hyphenRun rest
  end.

Definition allowed (c : ascii) : bool := lower_alnum c || is_hyphen c.

Definition startsWithHyphen (s : list ascii) : bool :=
  match s with
  | c :: _ => is_hyphen c
  | [] => false
  end.

End Aikit.

(* ================================================================== *)
(** * Properties *)

(* ------------------------------------------------------------------ *)
(** ** The resource topology and the cost engine *)

Section CostEstimationFacts.

Import CostEstimation.

Context {num : Type} {N : JsNumber num}.

(** C2.  In aggregated mode [calculateResourceBreakdown] returns
    [totalGpus = replicas * gpusPerReplica] and [totalInstances = replicas],
    whatever the arithmetic of the numbers is. *)
Theorem aggregated_totals (input : CostEstimateInput num) :
  mode input = aggregated ->
  let breakdown := calculateResourceBreakdown input in
  totalGpus breakdown = nmul (replicas input) (gpusPerReplica input)
  /\ totalInstances breakdown = replicas input.
Proof.
  intros Hmode breakdown. subst breakdown.
  unfold calculateResourceBreakdown. rewrite Hmode. cbn. split; reflexivity.
Qed.

(** C3.  In disaggregated mode a missing prefill or decode replica count
    counts as 1, a missing prefill or decode GPU count as [gpusPerReplica];
    [totalGpus] is prefill instances times prefill GPUs plus decode
    instances times decode GPUs, and [totalInstances] the sum of the two
    instance counts. *)
Theorem disaggregated_totals (input : CostEstimateInput num) :
  mode input = disaggregated ->
  let breakdown := calculateResourceBreakdown input in
  let pI := prefillReplicas input ?? nlit 1 in
  let dI := decodeReplicas input ?? nlit 1 in
  let pG := prefillGpus input ?? gpusPerReplica input in
  let dG := decodeGpus input ?? gpusPerReplica input in
  prefillInstances breakdown = Some pI
  /\ decodeInstances breakdown = Some dI
  /\ prefillGpusPerInstance breakdown = Some pG
  /\ decodeGpusPerInstance breakdown = Some dG
  /\ totalGpus breakdown = nadd (nmul pI pG) (nmul dI dG)
  /\ totalInstances breakdown = nadd pI dI.
Proof.
  intros Hmode. unfold calculateResourceBreakdown. rewrite Hmode.
  destruct (prefillReplicas input), (decodeReplicas input),
    (prefillGpus input), (decodeGpus input); cbn; repeat split.
Qed.

Lemma getHourlyRate_none (g : option GpuType) (custom : option num) :
  getHourlyRate (Some none) g custom = None.
Proof. destruct custom; reflexivity. Qed.

Lemma monthly_of_hourly (input : CostEstimateInput num)
    (settings : option (CostSettings num)) :
  let estimate := calculateCostEstimate input settings in
  monthlyRate estimate
  = option_map (fun h => nmul h (nlit 730)) (hourlyRate estimate).
Proof. reflexivity. Qed.

(** C5.  For a request with at least one GPU per replica (the cost route
    accepts no other: its schema asks for an integer of at least 1), the
    monthly rate is the hourly rate times 730 whenever the hourly rate is
    defined; and when the resolved cloud provider is 'none' there are no
    actual costs and no hourly rate, while the GPU multiplier is still
    [totalGpus / gpusPerReplica].  This holds whatever the arithmetic of
    the numbers is. *)
Theorem cost_estimate_rates (input : CostEstimateInput num)
    (settings : option (CostSettings num)) :
  ngt (gpusPerReplica input) (nlit 0) = true ->
  let estimate := calculateCostEstimate input settings in
  (forall hourly, hourlyRate estimate = Some hourly ->
     monthlyRate estimate = Some (nmul hourly (nlit 730)))
  /\ (resolvedCloudProvider input settings = none ->
      hasActualCosts estimate = false
      /\ hourlyRate estimate = None
      /\ gpuMultiplier estimate
         = ndiv (totalGpus (resources estimate)) (gpusPerReplica input)).
Proof.
  intros Hgpus estimate. split.
  - intros hourly Hhourly. subst estimate.
    rewrite monthly_of_hourly, Hhourly. reflexivity.
  - intros Hnone. subst estimate. unfold resolvedCloudProvider in Hnone.
    unfold calculateCostEstimate. cbv zeta. rewrite Hnone.
    rewrite getHourlyRate_none.
    cbn [hasActualCosts hourlyRate gpuMultiplier resources].
    rewrite Hgpus. repeat split.
Qed.

End CostEstimationFacts.


Lemma aggregated_totals_witness :
  CostEstimation.totalGpus
    (CostEstimation.calculateResourceBreakdown CostExamples.twoByFour)
  = nlit 8.
Proof.
  exact (proj1 (aggregated_totals CostExamples.twoByFour eq_refl)).
Defined.

Lemma disaggregated_totals_witness :
  CostEstimation.totalGpus
    (CostEstimation.calculateResourceBreakdown CostExamples.decodeOnly)
  = nlit 14.
Proof.
  exact (proj1 (proj2 (proj2 (proj2 (proj2
    (disaggregated_totals CostExamples.decodeOnly eq_refl)))))).
Defined.

(** Fourteen GPUs at 4.10 an hour: the products are those of binary64
    arithmetic. *)
#[warnings="-inexact-float"]
Lemma cost_estimate_rates_witness :
  CostEstimation.monthlyRate
    (CostEstimation.calculateCostEstimate CostExamples.decodeOnly None)
  = Some 41901.99999999999%float
  /\ CostEstimation.gpuMultiplier
       (CostEstimation.calculateCostEstimate CostExamples.twoByFour None)
     = 2%float.
Proof.
  split.
  - exact (proj1 (cost_estimate_rates CostExamples.decodeOnly None eq_refl)
             (nmul (nlit 14) (ndec 410 100)) eq_refl).
  - exact (proj2 (proj2
      (proj2 (cost_estimate_rates CostExamples.twoByFour None eq_refl)
         eq_refl))).
Defined.

(** The expectations of costEstimation.test.ts hold of the model. *)
Example aws_pricing_test :
  let estimate :=
    CostEstimation.calculateCostEstimate CostExamples.awsTwoByFour None in
  CostEstimation.hasActualCosts estimate = true
  /\ CostEstimation.hourlyRate estimate = Some (ndec 3280 100)
  /\ CostEstimation.estimate_cloudProvider estimate = Some CostEstimation.aws.
Proof. repeat split. Qed.

Example relative_metrics_test :
  let estimate :=
    CostEstimation.calculateCostEstimate CostExamples.splitTwoAndThree None in
  CostEstimation.totalGpus (CostEstimation.resources estimate) = nlit 10
  /\ CostEstimation.additionalGpus estimate = nlit 8
  /\ CostEstimation.gpuMultiplier estimate = nlit 5
  /\ CostEstimation.percentageIncrease estimate = nlit 400.
Proof. repeat split. Qed.

(** The guard of the division: called with no GPU per replica, which the
    cost route does not let through, the engine answers a multiplier of 1
    where the quotient would be 0/0. *)
Example multiplier_without_gpus :
  let estimate :=
    CostEstimation.calculateCostEstimate CostExamples.cpuOnly None in
  CostEstimation.gpuMultiplier estimate = 1%float
  /\ ndiv (CostEstimation.totalGpus (CostEstimation.resources estimate))
          (CostEstimation.gpusPerReplica CostExamples.cpuOnly) = nan.
Proof. split; reflexivity. Qed.


(* ------------------------------------------------------------------ *)
(** ** The Dynamo manifest generator *)

Section DynamoFacts.

Import Dynamo DynamoSpec.

Lemma name_regex_truthy (extra : ascii -> bool) (s : string) :
  Validation.name_regex extra s = true -> Js.str_truthy s = true.
Proof. destruct s; [discriminate | reflexivity]. Qed.

Lemma resourceName_truthy (s : string) :
  Validation.resourceNameSchema s = true -> Js.str_truthy s = true.
Proof.
  unfold Validation.resourceNameSchema. intros H.
  apply andb_true_iff in H. destruct H as [_ H].
  exact (name_regex_truthy _ _ H).
Qed.

Lemma namespace_truthy (s : string) :
  Validation.namespaceSchema s = true -> Js.str_truthy s = true.
Proof.
  unfold Validation.namespaceSchema. intros H.
  apply andb_true_iff in H. destruct H as [_ H].
  exact (name_regex_truthy _ _ H).
Qed.

Lemma services_shape (config : DeploymentConfig) :
  exists frontend worker,
    servicesOf (generateDynamoManifest config)
    = JObject [ ("Frontend", JObject frontend);
                (workerKey (engine config), JObject worker) ].
Proof.
  unfold servicesOf, generateDynamoManifest, generateWorkerSpec.
  destruct (engine config); cbn; eexists; eexists; reflexivity.
Qed.

(** C1.  For a config whose name and namespace satisfy the Kubernetes
    naming rules, the generated manifest has a services map with exactly one
    Frontend key and exactly one worker key, the one of the config's engine
    (the keys of the other two engines are absent), and [validateManifest]
    accepts it with an empty list of errors. *)
Theorem manifest_round_trip (config : DeploymentConfig) :
  Validation.resourceNameSchema (name config) = true ->
  Validation.namespaceSchema (namespace config) = true ->
  let manifest := generateDynamoManifest config in
  exists services,
    servicesOf manifest = JObject services
    /\ Js.count_key services "Frontend" = 1%nat
    /\ (forall e,
          Js.count_key services (workerKey e)
          = if Engine_eqb e (engine config) then 1%nat else 0%nat)
    /\ validateManifest manifest = {| valid := true; errors := [] |}.
Proof.
  intros Hname Hns manifest.
  apply resourceName_truthy in Hname. apply namespace_truthy in Hns.
  destruct (services_shape config) as (frontend & worker & Hservices).
  eexists. split; [exact Hservices |].
  split; [destruct (engine config); reflexivity |].
  split; [intros e; destruct e, (engine config); reflexivity |].
  unfold validateManifest. fold (servicesOf manifest). subst manifest.
  rewrite Hservices.
  unfold generateDynamoManifest;
    cbn [apiVersion kind metadata spec metadata_name metadata_namespace].
  rewrite Hname, Hns.
  destruct (engine config); reflexivity.
Qed.

Lemma get_set_same (o : Js.Obj) (k : string) (v : JsValue) :
  Js.get (Js.set o k v) k = v.
Proof.
  induction o as [| [k' v'] rest IH]; cbn.
  - rewrite String.eqb_refl. reflexivity.
  - destruct (String.eqb k' k) eqn:E; cbn; rewrite E; [reflexivity | exact IH].
Qed.

Lemma push_app {A : Type} (xs : list A) (x : A) :
  Js.push xs x = (xs ++ [x])%list.
Proof. reflexivity. Qed.

Lemma pushEngineArg_flag (args : list string) (entry : string * JsValue) :
  pushEngineArg args entry = (args ++ engineArgFlag entry)%list.
Proof.
  destruct entry as [key value]. unfold pushEngineArg, engineArgFlag. cbn.
  destruct value as [| | [|] | | | |];
    rewrite ?push_app, ?app_nil_r; reflexivity.
Qed.

Lemma engineArgs_fold (entries : Js.Obj) (args : list string) :
  fold_left pushEngineArg entries args
  = (args ++ List.flat_map engineArgFlag entries)%list.
Proof.
  revert args. induction entries as [| entry rest IH]; intros args; cbn.
  - rewrite app_nil_r. reflexivity.
  - rewrite IH, pushEngineArg_flag, <- app_assoc. reflexivity.
Qed.

Lemma buildArgs_parts (config : DeploymentConfig) :
  String.concat " " (buildArgs config) = commandLine config.
Proof.
  unfold commandLine, buildArgs. f_equal.
  destruct (engineArgs config) as [entries |]; cbn [nullish];
    rewrite ?engineArgs_fold;
    destruct (servedModelName config) as [s |];
    [destruct (Js.str_truthy s) | | destruct (Js.str_truthy s) | ];
    destruct (enforceEager config), (enablePrefixCaching config),
      (trustRemoteCode config);
    destruct (contextLength config) as [n |];
    try destruct (JsDouble.truthy n);
    cbn; rewrite ?app_nil_r; reflexivity.
Qed.

Lemma worker_of_services (config : DeploymentConfig) :
  exists base,
    Js.prop (servicesOf (generateDynamoManifest config))
      (workerKey (engine config))
    = JObject
        (Js.set base "extraPodSpec"
           (JObject
              [ ("mainContainer",
                 JObject
                   [ ("workingDir",
                      JString ("/workspace/examples/backends/"
                                 ++ Engine_str (engine config)));
                     ("command", JArray [JString "/bin/sh"; JString "-c"]);
                     ("args",
                      JArray [JString (String.concat " " (buildArgs config))])
                   ]) ])).
Proof.
  unfold servicesOf, generateDynamoManifest, generateWorkerSpec.
  destruct (engine config); cbn; eexists; reflexivity.
Qed.

(** C4, as the code has it.  The worker's args array holds one string: the
    parts joined by single spaces, in this order: the module invocation,
    --model and the model id, --served-model-name when the name is a
    non-empty string, --enforce-eager, --enable-prefix-caching and
    --trust-remote-code when their flags are true, --max-model-len when the
    context length is a number other than 0 and NaN, then the engine
    arguments in the order of the object's entries: the bare flag for true,
    nothing for false, the flag and the value for every value that is not a
    boolean.  A value is written as a template literal writes it: a number,
    whole or not, by Number::toString. *)
Theorem worker_command_line (config : DeploymentConfig) :
  workerArgs (engine config) (generateDynamoManifest config)
  = JArray [JString (commandLine config)].
Proof.
  unfold workerArgs.
  destruct (worker_of_services config) as [base Hworker].
  rewrite Hworker. cbn [Js.prop]. rewrite get_set_same. cbn.
  rewrite buildArgs_parts. reflexivity.
Qed.

(** C4 as written fails on an engine argument set to false: the code leaves
    it out, the specification's rule writes it with its value. *)
Lemma false_flag_dropped :
  let config := testConfig (Some [("quiet", JBool false)]) in
  workerArgs (engine config) (generateDynamoManifest config)
  = JArray
      [JString "python3 -m dynamo.vllm --model Qwen/Qwen3-0.6B --enforce-eager"]
  /\ commandLineAsSpecified config
     = "python3 -m dynamo.vllm --model Qwen/Qwen3-0.6B --enforce-eager"
         ++ " --quiet false"
  /\ workerArgs (engine config) (generateDynamoManifest config)
     <> JArray [JString (commandLineAsSpecified config)].
Proof.
  cbv zeta. split; [reflexivity |]. split; [reflexivity |].
  vm_compute. discriminate.
Qed.

(** Numbers on the command line: a fraction, a number that
    Number::toString writes with an exponent, and NaN as context length,
    which is left out as 0 is. *)
#[warnings="-inexact-float"]
Example numbers_on_the_command_line :
  let config :=
    {| name := "test-deployment";
       namespace := "kubefoundry-system";
       modelId := "Qwen/Qwen3-0.6B";
       engine := vllm;
       mode := aggregated;
       servedModelName := None;
       routerMode := router_none;
       replicas := 1%float;
       hfTokenSecret := "hf-token-secret";
       contextLength := Some 4096%float;
       enforceEager := false;
       enablePrefixCaching := false;
       trustRemoteCode := false;
       resources := None;
       engineArgs :=
         Some [ ("gpu-memory-utilization", JNumber 0.9%float);
                ("max-num-seqs", JNumber 1e21%float);
                ("seed", JNumber 42%float) ] |} in
  workerArgs vllm (generateDynamoManifest config)
  = JArray
      [ JString
          ("python3 -m dynamo.vllm --model Qwen/Qwen3-0.6B"
             ++ " --max-model-len 4096 --gpu-memory-utilization 0.9"
             ++ " --max-num-seqs 1e+21 --seed 42") ]
  /\ buildArgs (testConfig None)
     = buildArgs
         {| name := "test-deployment";
            namespace := "kubefoundry-system";
            modelId := "Qwen/Qwen3-0.6B";
            engine := vllm;
            mode := aggregated;
            servedModelName := None;
            routerMode := router_none;
            replicas := 1%float;
            hfTokenSecret := "hf-token-secret";
            contextLength := Some nan;
            enforceEager := true;
            enablePrefixCaching := false;
            trustRemoteCode := false;
            resources := None;
            engineArgs := None |}.
Proof. split; vm_compute; reflexivity. Qed.

End DynamoFacts.

Lemma manifest_round_trip_witness :
  Dynamo.validateManifest
    (Dynamo.generateDynamoManifest (DynamoSpec.testConfig None))
  = {| Dynamo.valid := true; Dynamo.errors := [] |}.
Proof.
  destruct (manifest_round_trip (DynamoSpec.testConfig None) eq_refl eq_refl)
    as (services & _ & _ & _ & Hvalid).
  exact Hvalid.
Defined.

(* ------------------------------------------------------------------ *)
(** ** The route handlers *)

Section RoutesFacts.

Import Routes.

Local Open Scope list_scope.

Context {Config GpuFitResult : Type}.

Local Abbreviation Call := (@Routes.Call Config).
Local Abbreviation Step := (@Routes.Step Config).
Local Abbreviation World := (@Routes.World Config).
Local Abbreviation Handler := (@Routes.Handler Config).
Local Abbreviation Provider := (@Routes.Provider Config).
Local Abbreviation uninstallStep := (@Routes.uninstallStep Config).

Variable providerRegistry : string -> option Provider.
Variable models : list Model.
Variable config_name config_namespace config_modelId : Config -> string.
Variable fits : GpuFitResult -> bool.
Variable validateGpuFit :
  Config -> ClusterGpuCapacity -> float -> Settled GpuFitResult.
Variable formatGpuWarnings : GpuFitResult -> Settled (list string).

(** *** Running handlers *)

Lemma run_await {R : Type} (c : Call) (k : Answer c -> Handler R)
    (w : World) (tr : list Step) :
  run (await c k) w tr
  = match w tr c with
    | Resolved a => run (k a) w (tr ++ [Issued c (Resolved a)])
    | Rejected e => (tr ++ [Issued c (Rejected e)], Raised e)
    end.
Proof. unfold await. cbn. destruct (w tr c); reflexivity. Qed.

Lemma run_log {R : Type} (level : LogLevel) (msg : string) (k : Handler R)
    (w : World) (tr : list Step) :
  run (Log level msg k) w tr = run k w (tr ++ [Logged level msg]).
Proof. reflexivity. Qed.

Lemma run_extends {R : Type} (h : Handler R) (w : World) :
  forall tr, exists suffix, fst (run h w tr) = tr ++ suffix.
Proof.
  induction h as [r | e | c k IH | level msg k IH]; intros tr; cbn.
  - exists []. now rewrite app_nil_r.
  - exists []. now rewrite app_nil_r.
  - destruct (IH (w tr c) (Js.push tr (Issued c (w tr c)))) as [suffix H].
    exists (Issued c (w tr c) :: suffix). rewrite H.
    unfold Js.push. now rewrite <- app_assoc.
  - destruct (IH (Js.push tr (Logged level msg))) as [suffix H].
    exists (Logged level msg :: suffix). rewrite H.
    unfold Js.push. now rewrite <- app_assoc.
Qed.

Lemma calls_app (a b : list Step) :
  calls (a ++ b) = calls a ++ calls b.
Proof.
  induction a as [| s a IH]; cbn; [reflexivity |].
  destruct (callOf s); cbn; now rewrite IH.
Qed.

(** C8.  When the cluster's first installation status report of the run
    says the provider is installed, the install route answers 200 with
    [success: true], the message that the provider is already installed and
    [alreadyInstalled: true], and the run holds no provisioning operation
    (no repo-add, repo-update, chart install, upgrade or uninstall). *)
Theorem install_already_installed (w : World) (id : string)
    (currentStatus : JsValue) :
  let result := run (installRoute providerRegistry id) w [] in
  firstStatusReport (fst result) = Some (Resolved currentStatus) ->
  Js.truthy (Js.prop currentStatus "installed") = true ->
  (exists provider,
      providerRegistry id = Some provider
      /\ snd result
         = Returned
             {| status := 200;
                body :=
                  JObject
                    [ ("success", JBool true);
                      ("message",
                       JString (provider_name provider
                                  ++ " is already installed")%string);
                      ("alreadyInstalled", JBool true) ] |})
  /\ provisioningCalls (fst result) = [].
Proof.
  cbv zeta. unfold installRoute.
  destruct (providerRegistry id) as [provider |]; [| discriminate].
  rewrite run_await. cbn [app].
  destruct (w [] checkHelmAvailable) as [helmStatus | e]; [| discriminate].
  destruct (available helmStatus); cbn [negb]; [| discriminate].
  rewrite run_await. cbn [app].
  match goal with |- context [w ?tr (checkProviderInstallation id)] =>
    destruct (w tr (checkProviderInstallation id)) as [st | e] end;
    [| discriminate].
  destruct (Js.truthy (Js.prop st "installed")) eqn:Hinstalled.
  - intros _ _. split; [| reflexivity].
    exists provider. split; reflexivity.
  - intros Hfirst Htruthy. exfalso.
    match type of Hfirst with context [run ?h w ?tr] =>
      destruct (run_extends h w tr) as [suffix Hext] end.
    rewrite Hext in Hfirst. cbn in Hfirst.
    injection Hfirst as ->. congruence.
Qed.


Lemma allResolved_app (a b : list Step) :
  allResolved (a ++ b) = allResolved a && allResolved b.
Proof. apply forallb_app. Qed.

(** The loop of the uninstall route, whatever Helm answers: either every
    uninstall produced a result and the loop hands all the entries on, or
    one was rejected and the run ends there with its error. *)
Lemma uninstallCharts_outcome {R : Type} (cs : list HelmChart) :
  forall (results : list JsValue) (k : list JsValue -> Handler R)
         (w : World) (tr : list Step),
    (exists answers,
        List.length answers = List.length cs
        /\ run (uninstallCharts cs results k) w tr
           = run (k (results ++ List.map chartOutcomeJson (combine cs answers)))
               w (tr ++ List.map uninstallStep (combine cs answers)))
    \/ (exists finished failed rest answers e,
          cs = finished ++ failed :: rest
          /\ List.length answers = List.length finished
          /\ run (uninstallCharts cs results k) w tr
             = (tr ++ List.map uninstallStep (combine finished answers)
                  ++ [Issued
                        (uninstall (chart_name failed)
                           (chart_namespace failed))
                        (Rejected e)],
                Raised e)).
Proof.
  induction cs as [| c cs IH]; intros results k w tr.
  - left. exists []. cbn. now rewrite !app_nil_r.
  - cbn [uninstallCharts]. rewrite run_await.
    destruct (w tr (uninstall (chart_name c) (chart_namespace c)))
      as [r | e].
    + destruct (IH (Js.push results (chartJson c r)) k w
                  (tr ++ [Issued (uninstall (chart_name c)
                                    (chart_namespace c)) (Resolved r)]))
        as [(answers & Hlen & Hrun)
           | (finished & failed & rest & answers & e & Hcs & Hlen & Hrun)].
      * left. exists (r :: answers). split; [cbn; now rewrite Hlen |].
        rewrite Hrun. unfold Js.push. cbn [combine List.map].
        now rewrite <- !app_assoc.
      * right. exists (c :: finished), failed, rest, (r :: answers), e.
        split; [now rewrite Hcs |]. split; [cbn; now rewrite Hlen |].
        rewrite Hrun. cbn [combine List.map]. now rewrite <- !app_assoc.
    + right. exists [], c, cs, [], e. repeat split.
Qed.

Lemma outcomeEntry_chartJson (outcomes : list (HelmChart * HelmResult)) :
  List.map chartOutcomeJson outcomes
  = List.map RouteTraces.outcomeEntry outcomes.
Proof.
  apply map_ext. intros [c r]. unfold chartOutcomeJson, chartJson,
    RouteTraces.outcomeEntry. cbn [fst snd].
  destruct (stderr r); reflexivity.
Qed.



(** *** Runs that stop at a failed step *)

Section Halting.

Context {X : Type} (failed : Step -> option X) (raise : X -> Thrown).

Local Abbreviation quiet := (Forall (fun s : Step => failed s = None)).
Local Abbreviation halts := (@haltsAtFailure Config X Response failed raise).

Lemma halts_stop (tr : list Step) (o : Outcome Response) :
  quiet tr -> halts (tr, o).
Proof. intros Hquiet. left. exact Hquiet. Qed.

Lemma quiet_push (tr : list Step) (s : Step) :
  quiet tr -> failed s = None -> quiet (tr ++ [s]).
Proof.
  intros Hquiet Hs. apply Forall_app. split; [exact Hquiet |].
  constructor; [exact Hs | constructor].
Qed.

Lemma halts_await (c : Call) (k : Answer c -> Handler Response)
    (w : World) (tr : list Step) :
  (forall a, failed (Issued c a) = None) ->
  quiet tr ->
  (forall a tr', quiet tr' -> halts (run (k a) w tr')) ->
  halts (run (await c k) w tr).
Proof.
  intros Hc Hquiet Hk. rewrite run_await.
  destruct (w tr c) as [a | e].
  - apply Hk. apply quiet_push; [exact Hquiet | apply Hc].
  - apply halts_stop. apply quiet_push; [exact Hquiet | apply Hc].
Qed.

Lemma halts_log (level : LogLevel) (msg : string) (k : Handler Response)
    (w : World) (tr : list Step) :
  failed (Logged level msg) = None ->
  quiet tr ->
  (forall tr', quiet tr' -> halts (run k w tr')) ->
  halts (run (Log level msg k) w tr).
Proof.
  intros Hlog Hquiet Hk. rewrite run_log. apply Hk.
  apply quiet_push; assumption.
Qed.

Lemma halts_last (result : list Step * Outcome Response) :
  halts result ->
  forall s x,
    In s (fst result) -> failed s = Some x ->
    (exists before, fst result = before ++ [s])
    /\ snd result = Raised (raise x).
Proof.
  intros [Hquiet | (before & s0 & x0 & Hquiet & Htrace & Hfailed & Hraised)]
    s x Hin Hs.
  - rewrite Forall_forall in Hquiet. rewrite (Hquiet s Hin) in Hs.
    discriminate.
  - rewrite Htrace in Hin. apply in_app_or in Hin.
    destruct Hin as [Hin | [<- | []]].
    + rewrite Forall_forall in Hquiet. rewrite (Hquiet s Hin) in Hs.
      discriminate.
    + rewrite Hfailed in Hs. injection Hs as <-.
      split; [exists before; exact Htrace | exact Hraised].
Qed.

End Halting.

Lemma halts_addRepos (repos : list HelmRepo) (k : Handler Response)
    (w : World) :
  (forall tr, Forall (fun s => failedUpgrade s = None) tr ->
              haltsAtFailure failedUpgrade upgradeFailed (run k w tr)) ->
  forall tr, Forall (fun s => failedUpgrade s = None) tr ->
    haltsAtFailure failedUpgrade upgradeFailed (run (addRepos repos k) w tr).
Proof.
  intros Hk. induction repos as [| repo rest IH]; intros tr Hquiet.
  - apply Hk. exact Hquiet.
  - cbn [addRepos]. apply halts_await; [reflexivity | exact Hquiet |].
    intros _ tr' Hquiet'. apply IH. exact Hquiet'.
Qed.

Lemma halts_upgradeCharts (cs : list HelmChart) (w : World)
    (k : list JsValue -> Handler Response) :
  (forall results tr, Forall (fun s => failedUpgrade s = None) tr ->
     haltsAtFailure failedUpgrade upgradeFailed (run (k results) w tr)) ->
  forall results tr, Forall (fun s => failedUpgrade s = None) tr ->
    haltsAtFailure failedUpgrade upgradeFailed
      (run (upgradeCharts cs results k) w tr).
Proof.
  intros Hk. induction cs as [| c rest IH]; intros results tr Hquiet.
  - apply Hk. exact Hquiet.
  - cbn [upgradeCharts]. rewrite run_await.
    destruct (w tr (upgrade c)) as [r | e].
    + destruct (success r) eqn:Hsuccess; cbn [negb].
      * apply IH. apply quiet_push; [exact Hquiet |].
        cbn. now rewrite Hsuccess.
      * right. exists tr, (Issued (upgrade c) (Resolved r)),
          (chart_name c, stderr r).
        repeat split; [exact Hquiet |]. cbn. now rewrite Hsuccess.
    + apply halts_stop. apply quiet_push; [exact Hquiet | reflexivity].
Qed.

Lemma upgradeRoute_halts (w : World) (id : string) :
  haltsAtFailure failedUpgrade upgradeFailed
    (run (upgradeRoute providerRegistry id) w []).
Proof.
  unfold upgradeRoute.
  destruct (providerRegistry id) as [provider |];
    [| apply halts_stop; constructor].
  apply halts_await; [reflexivity | constructor |].
  intros helmStatus tr Hquiet.
  destruct (available helmStatus); cbn [negb];
    [| apply halts_stop; exact Hquiet].
  apply halts_log; [reflexivity | exact Hquiet |].
  apply halts_addRepos. intros tr1 Hquiet1.
  apply halts_await; [reflexivity | exact Hquiet1 |].
  intros _ tr2 Hquiet2.
  apply halts_upgradeCharts; [| exact Hquiet2].
  intros results tr3 Hquiet3.
  apply halts_await; [reflexivity | exact Hquiet3 |].
  intros verifyStatus tr4 Hquiet4. apply halts_stop. exact Hquiet4.
Qed.

Lemma installRoute_halts (w : World) (id : string) :
  haltsAtFailure failedInstall installationFailed
    (run (installRoute providerRegistry id) w []).
Proof.
  unfold installRoute.
  destruct (providerRegistry id) as [provider |];
    [| apply halts_stop; constructor].
  apply halts_await; [reflexivity | constructor |].
  intros helmStatus tr Hquiet.
  destruct (available helmStatus); cbn [negb];
    [| apply halts_stop; exact Hquiet].
  apply halts_await; [reflexivity | exact Hquiet |].
  intros currentStatus tr1 Hquiet1.
  destruct (Js.truthy (Js.prop currentStatus "installed"));
    [apply halts_stop; exact Hquiet1 |].
  apply halts_log; [reflexivity | exact Hquiet1 |].
  intros tr2 Hquiet2. rewrite run_await.
  match goal with |- context [w tr2 ?c] =>
    destruct (w tr2 c) as [result | e] end.
  - destruct (install_success result) eqn:Hsuccess.
    + apply halts_await; [reflexivity | |].
      * apply quiet_push; [exact Hquiet2 |]. cbn. now rewrite Hsuccess.
      * intros verifyStatus tr3 Hquiet3. apply halts_stop. exact Hquiet3.
    + right. eexists tr2, _, result.
      repeat split; [exact Hquiet2 |]. cbn. now rewrite Hsuccess.
  - apply halts_stop. apply quiet_push; [exact Hquiet2 | reflexivity].
Qed.


(** Runs the tail of the creation route, for either answer of the
    cluster. *)
(** The end of every run of a validated request: the creation of the
    deployment, after at most log lines. *)
Ltac finish_creation w capacity logged :=
  cbv beta iota; unfold gpuFitFailed, createAndRespond;
  rewrite ?run_log, run_await;
  match goal with
  | |- context [w ?tr (createDeployment ?config)] =>
      let created := fresh "created" in
      let e := fresh "e" in
      destruct (w tr (createDeployment config)) as [created | e];
      cbn [run fst snd];
      [ exists capacity, logged, (Resolved created)
      | exists capacity, logged, (Rejected e) ];
      cbv beta iota zeta;
      (split; [reflexivity | split; [reflexivity |]])
  end.

(** C9.  For a request that passes the provider's validation, the run is
    the provider lookup, the capacity query, log lines, and the creation of
    the deployment for the validated config, whatever the capacity query and
    the fit check give: a rejected query, an exception of the check or an
    unfitting result never keep the deployment from being created.  The
    outcome is the creation's own: its rejection, or the 201 response with
    the message, the name and the namespace.  That response carries the
    warnings as strings, those [formatGpuWarnings] gives for the result of
    [validateGpuFit] on the capacity the cluster answered when that result
    does not fit; after a failed capacity query, a failed check or a
    fitting result, it carries none. *)
Theorem creation_survives_capacity_failure (w : World) (body : JsValue)
    (provider : Provider) (config : Config) :
  w [] getActiveProvider = Resolved provider ->
  validateConfig provider body = Valid config ->
  let result :=
    run (createDeploymentRoute models config_name config_namespace
           config_modelId fits validateGpuFit formatGpuWarnings body) w [] in
  let modelMinGpus :=
    match
      List.find (fun m => String.eqb (model_id m) (config_modelId config))
        models
    with
    | Some model => minGpus model
    | None => None
    end ?? 1%float in
  exists (capacity : Settled ClusterGpuCapacity) (logged : list Step)
         (creation : Settled unit),
    let gpuWarnings : list string :=
      match capacity with
      | Resolved available =>
          match validateGpuFit config available modelMinGpus with
          | Resolved fit =>
              if fits fit then []
              else
                match formatGpuWarnings fit with
                | Resolved warnings => warnings
                | Rejected _ => []
                end
          | Rejected _ => []
          end
      | Rejected _ => []
      end in
    fst result
    = [ Issued getActiveProvider (Resolved provider);
        Issued getClusterGpuCapacity capacity ]
        ++ logged ++ [Issued (createDeployment config) creation]
    /\ calls logged = []
    /\ snd result
       = match creation with
         | Resolved _ =>
             Returned
               {| status := 201;
                  body :=
                    JObject
                      ([ ("message",
                          JString "Deployment created successfully");
                         ("name", JString (config_name config));
                         ("namespace", JString (config_namespace config)) ]
                         ++ match gpuWarnings with
                            | [] => []
                            | _ :: _ =>
                                [ ("warnings",
                                   JArray (List.map JString gpuWarnings)) ]
                            end) |}
         | Rejected e => Raised e
         end.
Proof.
  intros Hprovider Hvalid result modelMinGpus. subst result.
  unfold createDeploymentRoute.
  rewrite run_await, Hprovider, Hvalid. cbn [app run]. unfold Js.push.
  cbn [app].
  match goal with |- context [w ?t getClusterGpuCapacity] =>
    destruct (w t getClusterGpuCapacity) as [available | e] end.
  2:{ now finish_creation w (@Rejected ClusterGpuCapacity e)
        [@Logged Config warn "Could not perform GPU fit validation"]. }
  match goal with |- context [validateGpuFit config available ?m] =>
    change m with modelMinGpus end.
  destruct (validateGpuFit config available modelMinGpus)
    as [fit | e] eqn:Hfit.
  2:{ finish_creation w (Resolved available)
        [@Logged Config warn "Could not perform GPU fit validation"];
      now rewrite ?Hfit. }
  destruct (fits fit) eqn:Hfits; cbn [negb].
  { finish_creation w (Resolved available) (@nil Step);
      now rewrite ?Hfit, ?Hfits. }
  destruct (formatGpuWarnings fit) as [warnings | e] eqn:Hformat.
  2:{ finish_creation w (Resolved available)
        [@Logged Config warn "Could not perform GPU fit validation"];
      now rewrite ?Hfit, ?Hfits, ?Hformat. }
  finish_creation w (Resolved available)
    [@Logged Config warn "GPU fit warnings for deployment"];
    rewrite ?Hfit, ?Hfits, ?Hformat; try reflexivity.
  destruct warnings; reflexivity.
Qed.

End RoutesFacts.

(* ------------------------------------------------------------------ *)
(** ** The handlers on the example provider *)

Section RouteWitnesses.

Import Routes RouteExamples.

Lemma install_already_installed_witness :
  let result :=
    run (installRoute providerRegistry "dynamo")
      (cluster true "none" unreachable) [] in
  snd result
  = Returned
      {| status := 200;
         body :=
           JObject
             [ ("success", JBool true);
               ("message", JString "NVIDIA Dynamo is already installed");
               ("alreadyInstalled", JBool true) ] |}
  /\ provisioningCalls (fst result) = [].
Proof.
  destruct (install_already_installed providerRegistry
              (cluster true "none" unreachable) "dynamo"
              (JObject [("installed", JBool true)]) eq_refl eq_refl)
    as [(p & Hp & Hreturned) Hcalls].
  injection Hp as <-. split; [exact Hreturned | exact Hcalls].
Defined.


(** The uninstall of B reports failure and A is uninstalled all the same:
    the response holds the three entries, B's with its error. *)
Example uninstall_continues_after_failure :
  run (uninstallRoute providerRegistry "dynamo")
    (cluster true "B" unreachable) []
  = ([ Issued checkHelmAvailable
         (Resolved
            {| available := true;
               helm_version := Some "v3.14.0";
               helm_error := None |});
       Logged info "Starting uninstall of NVIDIA Dynamo";
       Issued (uninstall "C" "dynamo-system") (Resolved helmOk);
       Issued (uninstall "B" "dynamo-system") (Resolved helmFailed);
       Issued (uninstall "A" "dynamo-system") (Resolved helmOk);
       Issued (checkProviderInstallation "dynamo")
         (Resolved (JObject [("installed", JBool true)])) ],
     Returned
       {| status := 200;
          body :=
            JObject
              [ ("success", JBool true);
                ("message", JString "NVIDIA Dynamo uninstalled");
                ("installationStatus", JObject [("installed", JBool true)]);
                ("results",
                 JArray
                   [ JObject
                       [ ("chart", JString "C");
                         ("success", JBool true);
                         ("output", JString "done");
                         ("error", JUndefined) ];
                     JObject
                       [ ("chart", JString "B");
                         ("success", JBool false);
                         ("output", JString EmptyString);
                         ("error", JString "timed out") ];
                     JObject
                       [ ("chart", JString "A");
                         ("success", JBool true);
                         ("output", JString "done");
                         ("error", JUndefined) ] ]) ] |}).
Proof. reflexivity. Qed.



Lemma creation_survives_capacity_failure_witness :
  let config := DynamoSpec.testConfig None in
  let result := run (createRoute JNull) (cluster true "none" unreachable) [] in
  exists (capacity : Settled ClusterGpuCapacity)
         (logged : list (@Step Config)) (creation : Settled unit),
    let gpuWarnings : list string :=
      match capacity with
      | Resolved available =>
          match validateGpuFit config available 1%float with
          | Resolved fit =>
              if fits fit then []
              else
                match formatGpuWarnings fit with
                | Resolved warnings => warnings
                | Rejected _ => []
                end
          | Rejected _ => []
          end
      | Rejected _ => []
      end in
    fst result
    = ([ Issued getActiveProvider (Resolved provider);
         Issued getClusterGpuCapacity capacity ]
         ++ logged ++ [Issued (createDeployment config) creation])%list
    /\ calls logged = []
    /\ snd result
       = match creation with
         | Resolved _ =>
             Returned
               {| status := 201;
                  body :=
                    JObject
                      ([ ("message",
                          JString "Deployment created successfully");
                         ("name", JString "test-deployment");
                         ("namespace", JString "kubefoundry-system") ]
                         ++ match gpuWarnings with
                            | [] => []
                            | _ :: _ =>
                                [ ("warnings",
                                   JArray (List.map JString gpuWarnings)) ]
                            end)%list |}
         | Rejected e => Raised e
         end.
Proof.
  exact (creation_survives_capacity_failure [] Dynamo.name Dynamo.namespace
           Dynamo.modelId fits validateGpuFit formatGpuWarnings
           (cluster true "none" unreachable) JNull provider
           (DynamoSpec.testConfig None) eq_refl eq_refl).
Defined.

(** The cluster cannot be asked for its capacity: the deployment is created
    and the response carries no warning. *)
Example created_without_capacity :
  run (createRoute JNull) (cluster true "none" unreachable) []
  = ([ Issued getActiveProvider (Resolved provider);
       Issued getClusterGpuCapacity unreachable;
       Logged warn "Could not perform GPU fit validation";
       Issued (createDeployment (DynamoSpec.testConfig None)) (Resolved tt) ],
     Returned
       {| status := 201;
          body :=
            JObject
              [ ("message", JString "Deployment created successfully");
                ("name", JString "test-deployment");
                ("namespace", JString "kubefoundry-system") ] |}).
Proof. reflexivity. Qed.

(** A cluster without a free GPU: the deployment is created and the warning
    comes back as a string. *)
Example created_with_warnings :
  snd (run (createRoute JNull)
         (cluster true "none"
            (Resolved
               {| totalGpus := 8%float;
                  allocatedGpus := 8%float;
                  availableGpus := 0%float;
                  maxContiguousAvailable := 0%float;
                  nodes := [] |})) [])
  = Returned
      {| status := 201;
         body :=
           JObject
             [ ("message", JString "Deployment created successfully");
               ("name", JString "test-deployment");
               ("namespace", JString "kubefoundry-system");
               ("warnings", JArray [JString "Not enough GPUs available"]) ] |}.
Proof. reflexivity. Qed.

End RouteWitnesses.

(* ------------------------------------------------------------------ *)
(** ** More on the provider routes *)

Section RouteOrderFacts.

Import Routes RouteTraces.

Local Open Scope list_scope.

Context {Config GpuFitResult : Type}.

Local Abbreviation Call := (@Routes.Call Config).
Local Abbreviation Step := (@Routes.Step Config).
Local Abbreviation World := (@Routes.World Config).
Local Abbreviation Handler := (@Routes.Handler Config).
Local Abbreviation Provider := (@Routes.Provider Config).
Local Abbreviation upgradeStep := (@RouteTraces.upgradeStep Config).
Local Abbreviation repoAddStep := (@RouteTraces.repoAddStep Config).

Variable providerRegistry : string -> option Provider.
Variable models : list Model.
Variable config_name config_namespace config_modelId : Config -> string.
Variable fits : GpuFitResult -> bool.
Variable validateGpuFit :
  Config -> ClusterGpuCapacity -> float -> Settled GpuFitResult.
Variable formatGpuWarnings : GpuFitResult -> Settled (list string).

(** For an id that is not registered, the install, upgrade and uninstall
    routes raise HTTP 404 naming the id, before any operation is issued. *)
Theorem unknown_provider_not_found (w : World) (id : string) :
  providerRegistry id = None ->
  let notFound :=
    ([] : list Step,
     @Raised Response
       (HTTPException 404 ("Provider not found: " ++ id)%string)) in
  run (installRoute providerRegistry id) w [] = notFound
  /\ run (upgradeRoute providerRegistry id) w [] = notFound
  /\ run (uninstallRoute providerRegistry id) w [] = notFound.
Proof.
  intros Hnone. unfold installRoute, upgradeRoute, uninstallRoute.
  rewrite Hnone. repeat split.
Qed.

(** When the Helm CLI check reports the CLI missing, each of the three
    routes raises HTTP 400 with the CLI's error, and the check is the only
    operation of the run: the cluster is not queried and nothing is
    provisioned. *)
Theorem helm_unavailable_stops (w : World) (id : string)
    (provider : Provider) (helmStatus : HelmStatus) :
  providerRegistry id = Some provider ->
  w [] checkHelmAvailable = Resolved helmStatus ->
  available helmStatus = false ->
  let onlyCheck : list Step :=
    [Issued checkHelmAvailable (Resolved helmStatus)] in
  let message (advice : string) : string :=
    ("Helm CLI not available: " ++ show (helm_error helmStatus) ++ advice)
      %string in
  run (installRoute providerRegistry id) w []
  = (onlyCheck,
     Raised
       (HTTPException 400
          (message
             ". Please install Helm or use the manual installation commands.")))
  /\ run (upgradeRoute providerRegistry id) w []
     = (onlyCheck,
        Raised
          (HTTPException 400
             (message
                ". Please install Helm or use the manual upgrade commands.")))
  /\ run (uninstallRoute providerRegistry id) w []
     = (onlyCheck, Raised (HTTPException 400 (message EmptyString))).
Proof.
  intros Hprovider Hhelm Hmissing. cbv zeta.
  unfold installRoute, upgradeRoute, uninstallRoute.
  rewrite Hprovider, !run_await, Hhelm, Hmissing. repeat split.
Qed.

(** A body the active provider's validator rejects raises HTTP 400 with the
    validator's messages joined by ", "; the provider lookup is the only
    operation of the run: no capacity query, no deployment. *)
Theorem invalid_config_rejected (w : World) (body : JsValue)
    (provider : Provider) (errors : list string) :
  w [] getActiveProvider = Resolved provider ->
  validateConfig provider body = Invalid errors ->
  run (createDeploymentRoute models config_name config_namespace
         config_modelId fits validateGpuFit formatGpuWarnings body) w []
  = ([Issued getActiveProvider (Resolved provider)],
     Raised
       (HTTPException 400
          ("Validation error: " ++ String.concat ", " errors)%string)).
Proof.
  intros Hprovider Hinvalid. unfold createDeploymentRoute.
  rewrite run_await, Hprovider, Hinvalid. reflexivity.
Qed.

(** *** The upgrade route when nothing fails *)

Lemma noFailedUpgrade_app (a b : list Step) :
  noFailedUpgrade (a ++ b) = noFailedUpgrade a && noFailedUpgrade b.
Proof. apply forallb_app. Qed.

Lemma calls_repoAddSteps (repos : list HelmRepo) :
  forall outcomes,
    List.length outcomes = List.length repos ->
    calls (List.map repoAddStep (combine repos outcomes))
    = List.map repoAdd repos.
Proof.
  induction repos as [| r repos IH]; intros [| o outcomes] Hlen;
    try discriminate; cbn; [reflexivity |].
  f_equal. apply IH. now injection Hlen.
Qed.

Lemma calls_upgradeSteps (cs : list HelmChart) :
  forall outcomes,
    List.length outcomes = List.length cs ->
    calls (List.map upgradeStep (combine cs outcomes))
    = List.map upgrade cs.
Proof.
  induction cs as [| c cs IH]; intros [| o outcomes] Hlen;
    try discriminate; cbn; [reflexivity |].
  f_equal. apply IH. now injection Hlen.
Qed.

Lemma addRepos_run {R : Type} (repos : list HelmRepo) (k : Handler R)
    (w : World) :
  forall tr,
    allResolved (fst (run (addRepos repos k) w tr)) = true ->
    exists outcomes,
      List.length outcomes = List.length repos
      /\ run (addRepos repos k) w tr
         = run k w (tr ++ List.map repoAddStep (combine repos outcomes)).
Proof.
  induction repos as [| repo rest IH]; intros tr Hall.
  - exists []. cbn. now rewrite app_nil_r.
  - cbn [addRepos] in *. rewrite run_await in *.
    destruct (w tr (repoAdd repo)) as [r | e].
    + destruct (IH _ Hall) as (outcomes & Hlen & Hrun).
      exists (r :: outcomes). split; [cbn; now rewrite Hlen |].
      rewrite Hrun. cbn [combine List.map]. now rewrite <- app_assoc.
    + cbn [fst] in Hall. rewrite allResolved_app in Hall. cbn in Hall.
      now rewrite andb_false_r in Hall.
Qed.

Lemma upgradeCharts_run {R : Type} (cs : list HelmChart) :
  forall (results : list JsValue) (k : list JsValue -> Handler R)
         (w : World) (tr : list Step),
    allResolved (fst (run (upgradeCharts cs results k) w tr)) = true ->
    noFailedUpgrade (fst (run (upgradeCharts cs results k) w tr)) = true ->
    exists outcomes,
      List.length outcomes = List.length cs
      /\ run (upgradeCharts cs results k) w tr
         = run (k (results ++ List.map chartOutcomeJson (combine cs outcomes)))
             w (tr ++ List.map upgradeStep (combine cs outcomes)).
Proof.
  induction cs as [| c cs IH]; intros results k w tr Hall Hquiet.
  - exists []. cbn. now rewrite !app_nil_r.
  - cbn [upgradeCharts] in *. rewrite run_await in *.
    destruct (w tr (upgrade c)) as [r | e].
    + destruct (success r) eqn:Hsuccess; cbn [negb] in *.
      * destruct (IH _ _ _ _ Hall Hquiet) as (outcomes & Hlen & Hrun).
        exists (r :: outcomes). split; [cbn; now rewrite Hlen |].
        rewrite Hrun. unfold Js.push. cbn [combine List.map].
        now rewrite <- !app_assoc.
      * cbn [run fst] in Hquiet. rewrite noFailedUpgrade_app in Hquiet.
        cbn in Hquiet. rewrite Hsuccess in Hquiet. cbn in Hquiet.
        now rewrite andb_false_r in Hquiet.
    + cbn [fst] in Hall. rewrite allResolved_app in Hall. cbn in Hall.
      now rewrite andb_false_r in Hall.
Qed.

(** With the Helm CLI found, every operation producing a result and no
    chart upgrade reporting failure, the upgrade route adds every
    repository, updates them, upgrades every chart in the provider's
    declared order and then queries the installation status; the response
    holds one result entry per chart, in that order.  The results of the
    repository commands are not looked at. *)
Theorem upgrade_in_declared_order (w : World) (id : string)
    (provider : Provider) :
  providerRegistry id = Some provider ->
  let result := run (upgradeRoute providerRegistry id) w [] in
  List.existsb helmFound (fst result) = true ->
  allResolved (fst result) = true ->
  noFailedUpgrade (fst result) = true ->
  exists outcomes verifyStatus,
    List.length outcomes = List.length (getHelmCharts provider)
    /\ calls (fst result)
       = checkHelmAvailable
           :: List.map repoAdd (getHelmRepos provider)
           ++ repoUpdate
           :: List.map upgrade (getHelmCharts provider)
           ++ [checkProviderInstallation id]
    /\ snd result
       = Returned
           (upgradedResponse provider verifyStatus
              (List.map chartOutcomeJson
                 (combine (getHelmCharts provider) outcomes))).
Proof.
  intros Hprovider. cbv zeta. unfold upgradeRoute. rewrite Hprovider.
  rewrite run_await. cbn [app].
  destruct (w [] checkHelmAvailable) as [helmStatus | e]; [| discriminate].
  destruct (available helmStatus) eqn:Havailable; cbn [negb].
  2:{ cbn. rewrite Havailable. discriminate. }
  rewrite run_log. cbn [app]. intros _ Hall Hquiet.
  destruct (addRepos_run _ _ _ _ Hall) as (added & Hadded & Hrun).
  rewrite Hrun in *. clear Hrun. rewrite run_await in *.
  match goal with |- context [w ?tr repoUpdate] =>
    destruct (w tr repoUpdate) as [updated | e] end.
  2:{ cbn [fst] in Hall. rewrite !allResolved_app in Hall. cbn in Hall.
      now rewrite andb_false_r in Hall. }
  destruct (upgradeCharts_run _ _ _ _ _ Hall Hquiet)
    as (outcomes & Hlen & Hrun).
  rewrite Hrun in *. clear Hrun. cbn [app] in *. rewrite run_await in *.
  match goal with |- context [w ?tr (checkProviderInstallation id)] =>
    destruct (w tr (checkProviderInstallation id)) as [verifyStatus | e] end.
  - exists outcomes, verifyStatus. split; [exact Hlen |].
    split; [| reflexivity].
    cbn [run fst]. rewrite calls_app. cbn [calls callOf].
    rewrite !calls_app. cbn [calls callOf].
    rewrite calls_repoAddSteps, calls_upgradeSteps by assumption.
    cbn [app]. rewrite <- !app_assoc. reflexivity.
  - cbn [fst] in Hall. rewrite !allResolved_app in Hall. cbn in Hall.
    now rewrite andb_false_r in Hall.
Qed.

(** *** What a run can hold, whatever the collaborators answer *)

Section Collecting.

Context {A : Type} (read : Step -> option A).

Local Abbreviation addsPrefix := (@RouteTraces.addsPrefix Config A _ read).

Lemma collect_app (a b : list Step) :
  collect read (a ++ b) = collect read a ++ collect read b.
Proof.
  induction a as [| s a IH]; cbn; [reflexivity |].
  destruct (read s); cbn; now rewrite IH.
Qed.

Lemma addsPrefix_stop {R : Type} (items : list A) (h : Handler R) :
  (forall w tr, fst (run h w tr) = tr) -> addsPrefix items h.
Proof.
  intros Hstop w tr. exists 0%nat. rewrite Hstop. cbn. now rewrite app_nil_r.
Qed.

Lemma addsPrefix_await {R : Type} (items : list A) (c : Call)
    (k : Answer c -> Handler R) :
  (forall a, read (Issued c a) = None) ->
  (forall a, addsPrefix items (k a)) ->
  addsPrefix items (await c k).
Proof.
  intros Hsilent Hk w tr. rewrite run_await.
  destruct (w tr c) as [a | e].
  - destruct (Hk a w (tr ++ [Issued c (Resolved a)])) as [n Hn].
    exists n. rewrite Hn, collect_app. cbn. rewrite Hsilent.
    now rewrite app_nil_r.
  - exists 0%nat. cbn [fst]. rewrite collect_app. cbn. now rewrite Hsilent.
Qed.

Lemma addsPrefix_log {R : Type} (items : list A) (level : LogLevel)
    (msg : string) (k : Handler R) :
  read (Logged level msg) = None ->
  addsPrefix items k -> addsPrefix items (Log level msg k).
Proof.
  intros Hsilent Hk w tr. rewrite run_log.
  destruct (Hk w (tr ++ [Logged level msg])) as [n Hn].
  exists n. rewrite Hn, collect_app. cbn. rewrite Hsilent.
  now rewrite app_nil_r.
Qed.

Lemma addsPrefix_addRepos {R : Type} (items : list A)
    (repos : list HelmRepo) (k : Handler R) :
  (forall repo a, read (Issued (repoAdd repo) a) = None) ->
  addsPrefix items k -> addsPrefix items (addRepos repos k).
Proof.
  intros Hsilent Hk. induction repos as [| repo rest IH]; [exact Hk |].
  cbn [addRepos]. apply addsPrefix_await; [apply Hsilent | intros _; exact IH].
Qed.

End Collecting.

Lemma upgradeCharts_prefix {R : Type} (cs : list HelmChart) :
  forall (results : list JsValue) (k : list JsValue -> Handler R),
    (forall results', addsPrefix (@upgradedChart Config) [] (k results')) ->
    addsPrefix (@upgradedChart Config) cs (upgradeCharts cs results k).
Proof.
  induction cs as [| c cs IH]; intros results k Hk w tr.
  - destruct (Hk results w tr) as [n Hn]. exists 0%nat.
    cbn [upgradeCharts]. rewrite Hn. now rewrite firstn_nil.
  - cbn [upgradeCharts]. rewrite run_await.
    destruct (w tr (upgrade c)) as [r | e].
    + destruct (negb (success r)).
      * exists 1%nat. cbn [run fst]. now rewrite collect_app.
      * destruct (IH (Js.push results (chartJson c r)) k Hk w
                    (tr ++ [Issued (upgrade c) (Resolved r)]))
          as [n Hn].
        exists (S n). rewrite Hn. rewrite collect_app.
        cbn. now rewrite <- app_assoc.
    + exists 1%nat. cbn [fst]. now rewrite collect_app.
Qed.

Lemma uninstallCharts_prefix {R : Type} (cs : list HelmChart) :
  forall (results : list JsValue) (k : list JsValue -> Handler R),
    (forall results', addsPrefix (@uninstalledRelease Config) [] (k results')) ->
    addsPrefix (@uninstalledRelease Config)
      (List.map (fun c => (chart_name c, chart_namespace c)) cs)
      (uninstallCharts cs results k).
Proof.
  induction cs as [| c cs IH]; intros results k Hk w tr.
  - destruct (Hk results w tr) as [n Hn]. exists 0%nat.
    cbn [uninstallCharts]. rewrite Hn. now rewrite firstn_nil.
  - cbn [uninstallCharts]. rewrite run_await.
    destruct (w tr (uninstall (chart_name c) (chart_namespace c)))
      as [r | e].
    + destruct (IH (Js.push results (chartJson c r)) k Hk w
                  (tr ++ [Issued (uninstall (chart_name c) (chart_namespace c))
                            (Resolved r)]))
        as [n Hn].
      exists (S n). rewrite Hn. rewrite collect_app.
      cbn. now rewrite <- app_assoc.
    + exists 1%nat. cbn [fst]. now rewrite collect_app.
Qed.

(** Whatever the collaborators answer (results, failures or rejections),
    the chart upgrades the upgrade route issues are an initial part of the
    provider's chart list, in the declared order: no chart is upgraded twice,
    skipped or upgraded before one that precedes it. *)
Theorem upgrades_form_a_prefix (w : World) (id : string)
    (provider : Provider) :
  providerRegistry id = Some provider ->
  exists n,
    collect upgradedChart (fst (run (upgradeRoute providerRegistry id) w []))
    = firstn n (getHelmCharts provider).
Proof.
  intros Hprovider. unfold upgradeRoute. rewrite Hprovider.
  assert (H : addsPrefix (@upgradedChart Config) (getHelmCharts provider)
                (await checkHelmAvailable (fun helmStatus =>
                   if negb (available helmStatus)
                   then
                     Throw (helmUnavailable helmStatus
                              (". Please install Helm or use the manual upgrade"
                                 ++ " commands.")%string)
                   else
                     Log info
                       ("Starting upgrade of " ++ provider_name provider)%string
                       (addRepos (getHelmRepos provider)
                          (await repoUpdate (fun _ =>
                             upgradeCharts (getHelmCharts provider) []
                               (fun results =>
                                  await (checkProviderInstallation id)
                                    (fun verifyStatus =>
                                       Return
                                         (upgradedResponse provider
                                            verifyStatus results))))))))).
  { apply addsPrefix_await; [reflexivity |]. intros helmStatus.
    destruct (negb (available helmStatus));
      [apply addsPrefix_stop; reflexivity |].
    apply addsPrefix_log; [reflexivity |].
    apply addsPrefix_addRepos; [reflexivity |].
    apply addsPrefix_await; [reflexivity |]. intros _.
    apply upgradeCharts_prefix. intros results.
    apply addsPrefix_await; [reflexivity |]. intros verifyStatus.
    apply addsPrefix_stop. reflexivity. }
  exact (H w []).
Qed.

(** Whatever the collaborators answer, the uninstalls the uninstall route
    issues are an initial part of the provider's chart list reversed: a run
    cut short by a rejected operation has still uninstalled the charts in
    reverse order. *)
Theorem uninstalls_form_a_prefix (w : World) (id : string)
    (provider : Provider) :
  providerRegistry id = Some provider ->
  exists n,
    collect uninstalledRelease
      (fst (run (uninstallRoute providerRegistry id) w []))
    = firstn n
        (List.map (fun c => (chart_name c, chart_namespace c))
           (List.rev (getHelmCharts provider))).
Proof.
  intros Hprovider. unfold uninstallRoute. rewrite Hprovider.
  assert (H : addsPrefix (@uninstalledRelease Config)
                (List.map (fun c => (chart_name c, chart_namespace c))
                   (List.rev (getHelmCharts provider)))
                (await checkHelmAvailable (fun helmStatus =>
                   if negb (available helmStatus)
                   then Throw (helmUnavailable helmStatus EmptyString)
                   else
                     Log info
                       ("Starting uninstall of "
                          ++ provider_name provider)%string
                       (uninstallCharts (List.rev (getHelmCharts provider)) []
                          (fun results =>
                             await (checkProviderInstallation id)
                               (fun verifyStatus =>
                                  Return
                                    (uninstalledResponse provider
                                       verifyStatus results))))))).
  { apply addsPrefix_await; [reflexivity |]. intros helmStatus.
    destruct (negb (available helmStatus));
      [apply addsPrefix_stop; reflexivity |].
    apply addsPrefix_log; [reflexivity |].
    apply uninstallCharts_prefix. intros results.
    apply addsPrefix_await; [reflexivity |]. intros verifyStatus.
    apply addsPrefix_stop. reflexivity. }
  exact (H w []).
Qed.

(** When the installation the install route started reports success and
    every operation produces a result, the run is exactly: the Helm CLI
    check, the status query, the installation with the provider's
    repositories and charts, and a second status query; the response carries
    the status that second query answered and one entry per installation
    step. *)
Theorem install_verifies_after_success (w : World) (id : string)
    (provider : Provider) (installed : InstallProviderResult) :
  providerRegistry id = Some provider ->
  let result := run (installRoute providerRegistry id) w [] in
  In installed (collect succeededInstall (fst result)) ->
  allResolved (fst result) = true ->
  exists helmStatus currentStatus verifyStatus,
    fst result
    = [ Issued checkHelmAvailable (Resolved helmStatus);
        Issued (checkProviderInstallation id) (Resolved currentStatus);
        Logged info
          ("Starting installation of " ++ provider_name provider)%string;
        Issued
          (installProvider (getHelmRepos provider) (getHelmCharts provider))
          (Resolved installed);
        Issued (checkProviderInstallation id) (Resolved verifyStatus) ]
    /\ calls (fst result)
       = [ checkHelmAvailable;
           checkProviderInstallation id;
           installProvider (getHelmRepos provider) (getHelmCharts provider);
           checkProviderInstallation id ]
    /\ snd result
       = Returned (installedResponse provider verifyStatus installed).
Proof.
  intros Hprovider. cbv zeta. unfold installRoute. rewrite Hprovider.
  rewrite run_await. cbn [app].
  destruct (w [] checkHelmAvailable) as [helmStatus | e];
    [| intros []].
  destruct (available helmStatus); cbn [negb]; [| intros []].
  rewrite run_await. cbn [app].
  match goal with |- context [w ?tr (checkProviderInstallation id)] =>
    destruct (w tr (checkProviderInstallation id)) as [st | e] end;
    [| intros []].
  destruct (Js.truthy (Js.prop st "installed")); [intros [] |].
  rewrite run_log, run_await. cbn [app].
  match goal with |- context [w ?tr (installProvider ?r ?c)] =>
    destruct (w tr (installProvider r c)) as [r0 | e] end; [| intros []].
  destruct (install_success r0) eqn:Hsuccess.
  - rewrite run_await. cbn [app].
    match goal with |- context [w ?tr (checkProviderInstallation id)] =>
      destruct (w tr (checkProviderInstallation id))
        as [verifyStatus | e] end.
    + cbn. rewrite Hsuccess. intros [<- | []] _.
      exists helmStatus, st, verifyStatus. repeat split.
    + intros _ Hall. discriminate Hall.
  - cbn. rewrite Hsuccess. intros [].
Qed.

End RouteOrderFacts.

Section RouteOrderWitnesses.

Import Routes RouteTraces RouteExamples RouteExamples2.

Lemma unknown_provider_not_found_witness :
  run (uninstallRoute providerRegistry "kuberay")
    (cluster true "none" unreachable) []
  = ([], Raised (HTTPException 404 "Provider not found: kuberay")).
Proof.
  exact (proj2 (proj2 (unknown_provider_not_found providerRegistry
                         (cluster true "none" unreachable) "kuberay"
                         eq_refl))).
Defined.

Lemma helm_unavailable_stops_witness :
  run (uninstallRoute providerRegistry "dynamo") clusterWithoutHelm []
  = ([Issued checkHelmAvailable (Resolved helmMissing)],
     Raised
       (HTTPException 400
          "Helm CLI not available: helm: command not found")).
Proof.
  exact (proj2 (proj2 (helm_unavailable_stops providerRegistry
                         clusterWithoutHelm "dynamo" provider helmMissing
                         eq_refl eq_refl eq_refl))).
Defined.

Lemma invalid_config_rejected_witness :
  run (createRoute JNull) clusterWithStrictProvider []
  = ([Issued getActiveProvider (Resolved strictProvider)],
     Raised
       (HTTPException 400
          "Validation error: name: Required, modelId: Required")).
Proof.
  exact (invalid_config_rejected [] Dynamo.name Dynamo.namespace
           Dynamo.modelId fits validateGpuFit formatGpuWarnings
           clusterWithStrictProvider JNull strictProvider
           ["name: Required"; "modelId: Required"] eq_refl eq_refl).
Defined.

Lemma upgrade_in_declared_order_witness :
  let result :=
    run (upgradeRoute providerRegistry "dynamo")
      (cluster true "none" unreachable) [] in
  exists outcomes verifyStatus,
    List.length outcomes = 3%nat
    /\ calls (fst result)
       = [ checkHelmAvailable; repoAdd repo; repoUpdate;
           upgrade (chartNamed "A"); upgrade (chartNamed "B");
           upgrade (chartNamed "C"); checkProviderInstallation "dynamo" ]
    /\ snd result
       = Returned
           (upgradedResponse provider verifyStatus
              (List.map chartOutcomeJson
                 (combine [chartNamed "A"; chartNamed "B"; chartNamed "C"]
                    outcomes))).
Proof.
  exact (upgrade_in_declared_order providerRegistry
           (cluster true "none" unreachable) "dynamo" provider
           eq_refl eq_refl eq_refl eq_refl).
Defined.

Lemma upgrades_form_a_prefix_witness :
  exists n,
    collect upgradedChart
      (fst (run (upgradeRoute providerRegistry "dynamo")
              (cluster true "B" unreachable) []))
    = firstn n [chartNamed "A"; chartNamed "B"; chartNamed "C"].
Proof.
  exact (upgrades_form_a_prefix providerRegistry
           (cluster true "B" unreachable) "dynamo" provider eq_refl).
Defined.

Lemma uninstalls_form_a_prefix_witness :
  exists n,
    collect uninstalledRelease
      (fst (run (uninstallRoute providerRegistry "dynamo")
              clusterFailingAfterOne []))
    = firstn n
        [ ("C", "dynamo-system"); ("B", "dynamo-system");
          ("A", "dynamo-system") ].
Proof.
  exact (uninstalls_form_a_prefix providerRegistry clusterFailingAfterOne
           "dynamo" provider eq_refl).
Defined.

(** The second uninstall is rejected: C and B were tried, A was not. *)
Example uninstall_cut_short :
  let result :=
    run (uninstallRoute providerRegistry "dynamo") clusterFailingAfterOne [] in
  collect uninstalledRelease (fst result)
  = [("C", "dynamo-system"); ("B", "dynamo-system")]
  /\ snd result = Raised (Error "spawn helm EAGAIN").
Proof. split; reflexivity. Qed.

Lemma install_verifies_after_success_witness :
  let result := run (installRoute providerRegistry "dynamo") freshCluster [] in
  exists helmStatus currentStatus verifyStatus,
    fst result
    = [ Issued checkHelmAvailable (Resolved helmStatus);
        Issued (checkProviderInstallation "dynamo") (Resolved currentStatus);
        Logged info "Starting installation of NVIDIA Dynamo";
        Issued
          (installProvider [repo]
             [chartNamed "A"; chartNamed "B"; chartNamed "C"])
          (Resolved installedInTwoSteps);
        Issued (checkProviderInstallation "dynamo") (Resolved verifyStatus) ]
    /\ calls (fst result)
       = [ checkHelmAvailable;
           checkProviderInstallation "dynamo";
           installProvider [repo]
             [chartNamed "A"; chartNamed "B"; chartNamed "C"];
           checkProviderInstallation "dynamo" ]
    /\ snd result
       = Returned
           (installedResponse provider verifyStatus installedInTwoSteps).
Proof.
  refine (install_verifies_after_success providerRegistry freshCluster
            "dynamo" provider installedInTwoSteps eq_refl _ eq_refl).
  cbn. tauto.
Defined.


End RouteOrderWitnesses.

(* ------------------------------------------------------------------ *)
(** ** The pagination of GET /deployments *)

Section PaginationFacts.

Import Deployments.

Local Open Scope nat_scope.
Local Open Scope list_scope.

Context {A : Type}.

Lemma paginate_window (all : list A) (limit : nat) (offset : option nat) :
  (1 <= limit)%nat ->
  let start := orElse offset 0 in
  let (page, pagination) := paginate all (Some limit) offset in
  page = firstn limit (skipn start all)
  /\ (List.length page <= limit)%nat
  /\ List.length page = Nat.min limit (List.length all - start)
  /\ (hasMore pagination = true <-> (start + limit < List.length all)%nat).
Proof.
  intros Hlimit. destruct limit as [| l]; [lia |].
  unfold paginate. rewrite orb_true_r. cbn [slice].
  replace (orElse offset 0 + S l - orElse offset 0)%nat with (S l) by lia.
  set (start := orElse offset 0).
  assert (Hlen : List.length (firstn (S l) (skipn start all))
                 = Nat.min (S l) (List.length all - start)).
  { rewrite length_firstn, length_skipn. reflexivity. }
  split; [reflexivity |]. split; [rewrite Hlen; lia |].
  split; [exact Hlen |].
  cbn [hasMore]. rewrite Hlen, Nat.ltb_lt. lia.
Qed.

Lemma paginate_tile (all : list A) (limit1 limit2 start : nat) :
  (1 <= limit1)%nat ->
  (1 <= limit2)%nat ->
  fst (paginate all (Some limit1) (Some start))
  ++ fst (paginate all (Some limit2) (Some (start + limit1)))
  = fst (paginate all (Some (limit1 + limit2)) (Some start)).
Proof.
  intros H1 H2.
  destruct limit1 as [| l1]; [lia |]. destruct limit2 as [| l2]; [lia |].
  assert (Hstart : forall n, orElse (Some n) 0 = n)
    by (intros [| n]; reflexivity).
  unfold paginate. cbn [isDefined orb fst slice Nat.add].
  rewrite !Hstart.
  replace (start + S l1 + S l2 - (start + S l1))%nat with (S l2) by lia.
  replace (start + S l1 - start)%nat with (S l1) by lia.
  replace (start + S (l1 + S l2) - start)%nat with (S l1 + S l2)%nat by lia.
  replace (skipn (start + S l1) all) with (skipn (S l1) (skipn start all))
    by (rewrite skipn_skipn; f_equal; lia).
  generalize (skipn start all). intros rest.
  rewrite <- (firstn_skipn (S l1) (firstn (S l1 + S l2) rest)).
  rewrite firstn_firstn, skipn_firstn_comm.
  replace (Nat.min (S l1) (S l1 + S l2)) with (S l1) by lia.
  replace (S l1 + S l2 - S l1)%nat with (S l2) by lia. reflexivity.
Qed.

(** What the validator lets through of a number that is an integer. *)
Lemma boundedOptional_integer (lowest : Z) (highest : option Z) (x : float)
    (n : nat) :
  integerOf x = Some (Z.of_nat n) ->
  (lowest <= Z.of_nat n)%Z ->
  match highest with
  | Some h => (Z.of_nat n <= h)%Z
  | None => True
  end ->
  boundedOptional lowest highest (Some x) = Some (Some n).
Proof.
  intros Hinteger Hlow Hhigh. unfold boundedOptional. rewrite Hinteger.
  assert (Hin : ((lowest <=? Z.of_nat n)
                 && match highest with
                    | Some h => Z.of_nat n <=? h
                    | None => true
                    end)%Z = true).
  { apply andb_true_iff. split; [now apply Z.leb_le |].
    destruct highest; [now apply Z.leb_le | reflexivity]. }
  rewrite Hin, Nat2Z.id. reflexivity.
Qed.

(** With a valid namespace (or none), a limit that is an integer from 1 to
    100 and no offset or one that is an integer from 0 on, the route answers
    the page of the [limit] items that follow the first [offset] ones (fewer
    at the end of the list, none past it), and [hasMore] is true exactly
    when items remain after the page.  A limit that is not an integer (NaN
    when the parameter is not a number), or is below 1 or above 100, is
    answered 400. *)
Theorem page_is_a_window (all : list A) (namespace : option string)
    (limitGiven : float) (limit : nat) (offsetGiven : option float)
    (offset : option nat) :
  optionalNamespace namespace = true ->
  integerOf limitGiven = Some (Z.of_nat limit) ->
  (1 <= limit <= 100)%nat ->
  match offsetGiven, offset with
  | Some given, Some o => integerOf given = Some (Z.of_nat o)
  | None, None => True
  | _, _ => False
  end ->
  let start := orElse offset 0 in
  (exists page pagination,
      getDeployments (Routes.Resolved all) namespace (Some limitGiven)
        offsetGiven
      = Listed page pagination
      /\ page = firstn limit (skipn start all)
      /\ (List.length page <= limit)%nat
      /\ List.length page = Nat.min limit (List.length all - start)
      /\ (hasMore pagination = true
          <-> (start + limit < List.length all)%nat))
  /\ forall (listing : Routes.Settled (list A)) (other : float)
            (anyOffset : option float),
       match integerOf other with
       | Some n => (n < 1 \/ 100 < n)%Z
       | None => True
       end ->
       getDeployments listing namespace (Some other) anyOffset = BadRequest.
Proof.
  intros Hnamespace Hlimit [Hlow Hhigh] Hoffset. cbv zeta. split.
  - unfold getDeployments. rewrite Hnamespace.
    rewrite (boundedOptional_integer 1 (Some 100%Z) limitGiven limit Hlimit)
      by (cbn; lia).
    assert (Hvalidated : boundedOptional 0 None offsetGiven = Some offset).
    { destruct offsetGiven as [given |], offset as [o |];
        try contradiction; [| reflexivity].
      now rewrite (boundedOptional_integer 0 None given o Hoffset)
        by (cbn; lia || exact I). }
    rewrite Hvalidated. cbn [listDeploymentsRoute].
    pose proof (paginate_window all limit offset Hlow) as Hwindow.
    cbv zeta in Hwindow.
    destruct (paginate all (Some limit) offset) as [page pagination].
    exists page, pagination. split; [reflexivity | exact Hwindow].
  - intros listing other anyOffset Hother. unfold getDeployments.
    destruct (optionalNamespace namespace); [| reflexivity].
    unfold boundedOptional at 1.
    destruct (integerOf other) as [n |]; [| reflexivity].
    assert (Hout : ((1 <=? n) && (n <=? 100))%Z = false).
    { apply andb_false_iff.
      destruct Hother; [left; now apply Z.leb_gt | right; now apply Z.leb_gt].
    }
    now rewrite Hout.
Qed.

(** Two consecutive pages make up the page of the summed limit, as long as
    the route accepts that limit (at most 100): walking the list page by
    page neither skips nor repeats a deployment.  [limit1], [limit2],
    [start] and the two sums are the integers of the numbers given in the
    three queries. *)
Theorem consecutive_pages_tile (all : list A) (namespace : option string)
    (limit1 limit2 start : nat)
    (limit1Given limit2Given bothGiven startGiven nextGiven : float) :
  optionalNamespace namespace = true ->
  integerOf limit1Given = Some (Z.of_nat limit1) ->
  integerOf limit2Given = Some (Z.of_nat limit2) ->
  integerOf bothGiven = Some (Z.of_nat (limit1 + limit2)) ->
  integerOf startGiven = Some (Z.of_nat start) ->
  integerOf nextGiven = Some (Z.of_nat (start + limit1)) ->
  (1 <= limit1)%nat ->
  (1 <= limit2)%nat ->
  (limit1 + limit2 <= 100)%nat ->
  exists first second both pagination1 pagination2 pagination,
    getDeployments (Routes.Resolved all) namespace (Some limit1Given)
      (Some startGiven)
    = Listed first pagination1
    /\ getDeployments (Routes.Resolved all) namespace (Some limit2Given)
         (Some nextGiven)
       = Listed second pagination2
    /\ getDeployments (Routes.Resolved all) namespace (Some bothGiven)
         (Some startGiven)
       = Listed both pagination
    /\ first ++ second = both.
Proof.
  intros Hnamespace Hl1 Hl2 Hboth Hstart Hnext H1 H2 Hsum.
  unfold getDeployments. rewrite Hnamespace.
  rewrite (boundedOptional_integer 1 (Some 100%Z) _ _ Hl1) by (cbn; lia).
  rewrite (boundedOptional_integer 1 (Some 100%Z) _ _ Hl2) by (cbn; lia).
  rewrite (boundedOptional_integer 1 (Some 100%Z) _ _ Hboth) by (cbn; lia).
  rewrite (boundedOptional_integer 0 None _ _ Hstart)
    by (cbn; lia || exact I).
  rewrite (boundedOptional_integer 0 None _ _ Hnext)
    by (cbn; lia || exact I).
  cbn [listDeploymentsRoute].
  pose proof (paginate_tile all limit1 limit2 start H1 H2) as Htile.
  destruct (paginate all (Some limit1) (Some start)) as [first p1].
  destruct (paginate all (Some limit2) (Some (start + limit1)))
    as [second p2].
  destruct (paginate all (Some (limit1 + limit2)) (Some start))
    as [both p].
  exists first, second, both, p1, p2, p. repeat split. exact Htile.
Qed.

(** Without query parameters the whole list is returned as one page, with
    [limit] equal to the total and [hasMore] false; and when listing the
    deployments fails, the answer is an empty page with all counters 0
    rather than an error. *)
Theorem unpaged_and_failed_listing (all : list A) (e : Routes.Thrown) :
  listDeploymentsRoute (Routes.Resolved all) None None
  = (all,
     {| total := List.length all;
        limit := List.length all;
        offset := 0;
        hasMore := false |})
  /\ forall limit offset,
       listDeploymentsRoute (@Routes.Rejected (list A) e) limit offset
       = ([], {| total := 0; limit := 0; offset := 0; hasMore := false |}).
Proof.
  split; [| reflexivity].
  unfold listDeploymentsRoute, paginate.
  cbn [isDefined orb orElse Nat.add]. now rewrite Nat.ltb_irrefl.
Qed.

End PaginationFacts.

Lemma page_is_a_window_witness :
  exists page pagination,
    Deployments.getDeployments
      (Routes.Resolved ["a"; "b"; "c"; "d"; "e"]) (Some "kubefoundry-system")
      (Some 2%float) (Some 4%float)
    = Deployments.Listed page pagination
    /\ page = ["e"]
    /\ (List.length page <= 2)%nat
    /\ List.length page = 1%nat
    /\ (Deployments.hasMore pagination = true <-> (4 + 2 < 5)%nat).
Proof.
  refine (proj1 (page_is_a_window ["a"; "b"; "c"; "d"; "e"]
                   (Some "kubefoundry-system") 2%float 2
                   (Some 4%float) (Some 4%nat) eq_refl eq_refl _ eq_refl)).
  lia.
Defined.

(** The page itself, and the queries the route refuses: a limit above 100,
    a limit that is not a number, a fraction, an offset below 0. *)
#[warnings="-inexact-float"]
Example last_page_and_refused_queries :
  let all := ["a"; "b"; "c"; "d"; "e"] in
  Deployments.getDeployments (Routes.Resolved all) None
    (Some 2%float) (Some 4%float)
  = Deployments.Listed ["e"]
      {| Deployments.total := 5;
         Deployments.limit := 2;
         Deployments.offset := 4;
         Deployments.hasMore := false |}
  /\ Deployments.getDeployments (Routes.Resolved all) None
       (Some 101%float) None
     = Deployments.BadRequest
  /\ Deployments.getDeployments (Routes.Resolved all) None (Some nan) None
     = Deployments.BadRequest
  /\ Deployments.getDeployments (Routes.Resolved all) None
       (Some 2.5%float) None
     = Deployments.BadRequest
  /\ Deployments.getDeployments (Routes.Resolved all) None
       (Some 2%float) (Some (-1)%float)
     = Deployments.BadRequest.
Proof. repeat split; vm_compute; reflexivity. Qed.

Lemma consecutive_pages_tile_witness :
  exists first second both pagination1 pagination2 pagination,
    Deployments.getDeployments
      (Routes.Resolved ["a"; "b"; "c"; "d"; "e"]) None
      (Some 2%float) (Some 1%float)
    = Deployments.Listed first pagination1
    /\ Deployments.getDeployments
         (Routes.Resolved ["a"; "b"; "c"; "d"; "e"]) None
         (Some 3%float) (Some 3%float)
       = Deployments.Listed second pagination2
    /\ Deployments.getDeployments
         (Routes.Resolved ["a"; "b"; "c"; "d"; "e"]) None
         (Some 5%float) (Some 1%float)
       = Deployments.Listed both pagination
    /\ (first ++ second)%list = both.
Proof.
  refine (consecutive_pages_tile ["a"; "b"; "c"; "d"; "e"] None 2 3 1
            2 3 5 1 3 eq_refl eq_refl eq_refl eq_refl eq_refl eq_refl
            _ _ _); lia.
Defined.

(* ------------------------------------------------------------------ *)
(** ** The model compatibility service *)

Section ModelCompatibilityFacts.

Import Dynamo ModelCompatibility.

Lemma includes_In (list : list string) (s : string) :
  JsString.includes list s = true <-> In s list.
Proof.
  unfold JsString.includes. rewrite existsb_exists. split.
  - intros (x & Hin & Heq). apply String.eqb_eq in Heq. now subst.
  - intros Hin. exists s. split; [exact Hin | apply String.eqb_refl].
Qed.

Lemma getSupportedEngines_filter (architectures : list string) :
  getSupportedEngines architectures
  = List.filter (supports architectures) [vllm; sglang; trtllm].
Proof.
  unfold getSupportedEngines, pushIfSupported. cbn [fold_left List.filter].
  fold (supports architectures vllm) (supports architectures sglang)
    (supports architectures trtllm).
  destruct (supports architectures vllm), (supports architectures sglang),
    (supports architectures trtllm); reflexivity.
Qed.

(** An engine is among the supported engines exactly when one of the
    model's architectures is on that engine's allowlist; in particular a
    model without architectures has no supported engine. *)
Theorem supported_engine_iff (architectures : list string) (e : Engine) :
  In e (getSupportedEngines architectures)
  <-> exists arch,
        In arch architectures /\ In arch (ENGINE_ARCHITECTURE_ALLOWLIST e).
Proof.
  rewrite getSupportedEngines_filter, filter_In.
  unfold supports. rewrite existsb_exists. split.
  - intros (_ & arch & Hin & Hallowed). exists arch.
    split; [exact Hin | now apply includes_In].
  - intros (arch & Hin & Hallowed). split.
    + destruct e; cbn; tauto.
    + exists arch. split; [exact Hin | now apply includes_In].
Qed.

Lemma allowlist_within_vllm (e : Engine) (arch : string) :
  JsString.includes (ENGINE_ARCHITECTURE_ALLOWLIST e) arch = true ->
  JsString.includes (ENGINE_ARCHITECTURE_ALLOWLIST vllm) arch = true.
Proof.
  intros Hallowed. apply includes_In in Hallowed.
  assert (Hall : List.forallb
                   (JsString.includes (ENGINE_ARCHITECTURE_ALLOWLIST vllm))
                   (ENGINE_ARCHITECTURE_ALLOWLIST e) = true)
    by (destruct e; vm_compute; reflexivity).
  rewrite forallb_forall in Hall. exact (Hall arch Hallowed).
Qed.

Lemma supports_vllm (architectures : list string) (e : Engine) :
  supports architectures e = true -> supports architectures vllm = true.
Proof.
  unfold supports. rewrite !existsb_exists.
  intros (arch & Hin & Hallowed). exists arch.
  split; [exact Hin | exact (allowlist_within_vllm e arch Hallowed)].
Qed.

Lemma vllm_leads (architectures : list string) :
  match getSupportedEngines architectures with
  | [] => True
  | e :: _ => e = vllm
  end.
Proof.
  rewrite getSupportedEngines_filter. cbn [List.filter].
  pose proof (supports_vllm architectures sglang) as Hs.
  pose proof (supports_vllm architectures trtllm) as Ht.
  destruct (supports architectures vllm), (supports architectures sglang),
    (supports architectures trtllm); cbn; try tauto;
    try (specialize (Hs eq_refl); discriminate);
    try (specialize (Ht eq_refl); discriminate).
Qed.

(** The supported engines come in the fixed order vllm, sglang, trtllm,
    each at most once, and vllm is there whenever any engine is: the result
    is one of five lists. *)
Theorem supported_engines_shapes (architectures : list string) :
  In (getSupportedEngines architectures)
    [ []; [vllm]; [vllm; sglang]; [vllm; trtllm]; [vllm; sglang; trtllm] ].
Proof.
  rewrite getSupportedEngines_filter. cbn [List.filter].
  pose proof (supports_vllm architectures sglang) as Hs.
  pose proof (supports_vllm architectures trtllm) as Ht.
  destruct (supports architectures vllm), (supports architectures sglang),
    (supports architectures trtllm); cbn; try tauto;
    try (specialize (Hs eq_refl); discriminate);
    try (specialize (Ht eq_refl); discriminate).
Qed.

Lemma eqb_empty (s : string) :
  String.eqb s EmptyString = negb (Js.str_truthy s).
Proof. destruct s; reflexivity. Qed.

Lemma stringOr_empty (s : string) :
  stringOr s EmptyString = s.
Proof. destruct s; reflexivity. Qed.


Lemma split_nonempty (sep : ascii) (s : string) :
  JsString.split sep s <> [].
Proof.
  destruct s as [| c rest]; cbn; [discriminate |].
  destruct (Ascii.eqb c sep); [discriminate |].
  destruct (JsString.split sep rest); discriminate.
Qed.

Lemma concat_cons (sep first : string) (others : list string) :
  others <> [] ->
  String.concat sep (first :: others)
  = (first ++ sep ++ String.concat sep others)%string.
Proof. destruct others; [congruence | reflexivity]. Qed.

(** Joining what [split] gives with the separator gives the string back. *)
Lemma split_join (s : string) :
  String.concat "/" (JsString.split "/" s) = s.
Proof.
  induction s as [| c rest IH]; [reflexivity |].
  cbn [JsString.split]. destruct (Ascii.eqb c "/") eqn:Hsep.
  - apply Ascii.eqb_eq in Hsep. subst c.
    rewrite concat_cons by apply split_nonempty. cbn. now rewrite IH.
  - pose proof (split_nonempty "/" rest) as Hne.
    destruct (JsString.split "/" rest) as [| first others]; [congruence |].
    destruct others as [| second others].
    + cbn in *. now rewrite IH.
    + rewrite concat_cons by discriminate.
      rewrite concat_cons in IH by discriminate.
      rewrite <- IH. reflexivity.
Qed.

(** A number above 0 is neither 0 nor NaN. *)
Lemma positive_is_truthy (x : float) :
  PrimFloat.ltb 0 x = true -> JsDouble.truthy x = true.
Proof.
  unfold JsDouble.truthy, PrimFloat.is_nan.
  rewrite ltb_spec, !FloatAxioms.eqb_spec.
  change (Prim2SF 0) with (S754_zero false).
  destruct (Prim2SF x) as [s | s | | s m e]; try discriminate.
  - destruct s; [discriminate | reflexivity].
  - destruct s; [discriminate |]. intros _.
    unfold SFeqb, SFcompare. rewrite Z.compare_refl, Pos.compare_cont_refl.
    reflexivity.
Qed.

Lemma stringOr_truthy (s d : string) :
  Js.str_truthy d = true -> Js.str_truthy (stringOr s d) = true.
Proof. unfold stringOr. destruct (Js.str_truthy s) eqn:Hs; auto. Qed.

Section WithGpuMemory.

Context {Memory : Type}.
Variable memoryTruthy : Memory -> bool.
Variable estimateGpuMemory : float -> Memory.
Variable formatGpuMemory : Memory -> string.

Local Abbreviation process :=
  (processHfModel memoryTruthy estimateGpuMemory formatGpuMemory).

Lemma compatible_without_reason (model : HfApiModelResult) :
  compatible (process model) = true ->
  incompatibilityReason (process model) = None.
Proof.
  unfold processHfModel. cbn [compatible incompatibilityReason].
  now intros ->.
Qed.

(** A processed model is marked compatible exactly when it carries no
    incompatibility reason: every model marked incompatible has a reason,
    and no compatible model has one. *)
Theorem compatible_iff_no_reason (model : HfApiModelResult) :
  compatible (process model) = true
  <-> incompatibilityReason (process model) = None.
Proof.
  unfold processHfModel. cbn [compatible incompatibilityReason].
  rewrite !stringOr_empty.
  set (tag := pipeline_tag model ?? EmptyString).
  set (lib := library_name model ?? EmptyString).
  set (archs := _ ?? []).
  set (engines := getSupportedEngines archs). clearbody engines.
  destruct (isPipelineTagCompatible (Some tag)
            && (0 <? List.length engines)%nat
            && (String.eqb lib "transformers" || String.eqb lib "vllm"
                || String.eqb lib EmptyString)) eqn:Hcompatible.
  - split; reflexivity.
  - split; [discriminate |]. intros Hreason. exfalso.
    unfold getIncompatibilityReason in Hreason. cbn [missing] in Hreason.
    destruct (negb (Js.str_truthy tag)) eqn:Htag; [discriminate |].
    destruct (isPipelineTagCompatible (Some tag)); [| discriminate].
    cbn [negb andb] in *. rewrite eqb_empty in Hcompatible.
    cbn [Routes.show nullish] in Hreason.
    destruct (Js.str_truthy lib), (String.eqb lib "transformers"),
      (String.eqb lib "vllm"); cbn in Hreason, Hcompatible;
      try discriminate;
      destruct archs as [| first rest]; try discriminate;
      destruct engines; discriminate.
Qed.

(** [filterCompatibleModels] only returns compatible models: each result
    is marked compatible, has no incompatibility reason, has a supported
    pipeline tag, and lists vllm among its supported engines. *)
Theorem filtered_models_are_compatible (models : list HfApiModelResult) :
  Forall
    (fun r =>
       compatible r = true
       /\ incompatibilityReason r = None
       /\ In (pipelineTag r) SUPPORTED_PIPELINE_TAGS
       /\ In vllm (supportedEngines r))
    (filterCompatibleModels memoryTruthy estimateGpuMemory formatGpuMemory
       models).
Proof.
  apply Forall_forall. intros r Hin.
  unfold filterCompatibleModels in Hin. apply filter_In in Hin.
  destruct Hin as [Hin Hcompatible]. apply in_map_iff in Hin.
  destruct Hin as (model & <- & _).
  split; [exact Hcompatible |].
  split; [now apply compatible_without_reason |].
  unfold processHfModel in *.
  cbn [compatible pipelineTag supportedEngines] in *.
  apply andb_true_iff in Hcompatible. destruct Hcompatible as [Hrest _].
  apply andb_true_iff in Hrest. destruct Hrest as [Htag Hengines].
  split.
  - unfold isPipelineTagCompatible in Htag.
    destruct (negb (Js.str_truthy _)); [discriminate |].
    now apply includes_In.
  - pose proof (vllm_leads
                  (match config model with
                   | Some c => config_architectures c
                   | None => None
                   end ?? [])) as Hleads.
    destruct (getSupportedEngines _) as [| e rest]; [discriminate |].
    now left.
Qed.


(** The parameter count is never falsy (0 or NaN): it is the safetensors
    total when that is a truthy number; else, when there are per-type
    counts, their sum (added in the order of the entries, from 0) if the sum
    is above 0; else undefined.  So every processed model with a parameter
    count has a GPU memory estimate. *)
Theorem parameter_count_never_zero (model : HfApiModelResult) :
  let total :=
    match safetensors model with
    | Some info => safetensors_total info
    | None => None
    end in
  let counts :=
    match safetensors model with
    | Some info => safetensors_parameters info
    | None => None
    end in
  (forall count,
     extractParameterCount model = Some count ->
     JsDouble.truthy count = true)
  /\ (numberTruthy total = true -> extractParameterCount model = total)
  /\ (numberTruthy total = false ->
      extractParameterCount model
      = match counts with
        | Some entries =>
            let sum :=
              fold_left PrimFloat.add (List.map snd entries) 0%float in
            if PrimFloat.ltb 0 sum then Some sum else None
        | None => None
        end)
  /\ estimatedGpuMemoryGb (process model)
     = option_map estimateGpuMemory (parameterCount (process model)).
Proof.
  cbv zeta.
  assert (Htotal :
            numberTruthy
              match safetensors model with
              | Some info => safetensors_total info
              | None => None
              end = true ->
            extractParameterCount model
            = match safetensors model with
              | Some info => safetensors_total info
              | None => None
              end).
  { unfold extractParameterCount. now intros ->. }
  assert (Hcounts :
            numberTruthy
              match safetensors model with
              | Some info => safetensors_total info
              | None => None
              end = false ->
            extractParameterCount model
            = match
                match safetensors model with
                | Some info => safetensors_parameters info
                | None => None
                end
              with
              | Some entries =>
                  if PrimFloat.ltb 0
                       (fold_left PrimFloat.add (List.map snd entries)
                          0%float)
                  then
                    Some (fold_left PrimFloat.add (List.map snd entries)
                            0%float)
                  else None
              | None => None
              end).
  { unfold extractParameterCount. intros ->.
    destruct (safetensors model) as [info |]; [| reflexivity].
    destruct (safetensors_parameters info); reflexivity. }
  assert (Htruthy : forall count,
             extractParameterCount model = Some count ->
             JsDouble.truthy count = true).
  { intros count Hcount.
    destruct (numberTruthy
                match safetensors model with
                | Some info => safetensors_total info
                | None => None
                end) eqn:Hcase.
    - rewrite (Htotal eq_refl) in Hcount. rewrite Hcount in Hcase.
      exact Hcase.
    - rewrite (Hcounts eq_refl) in Hcount.
      destruct (match safetensors model with
                | Some info => safetensors_parameters info
                | None => None
                end) as [entries |]; [| discriminate].
      destruct (PrimFloat.ltb 0 _) eqn:Hpositive; [| discriminate].
      injection Hcount as <-. now apply positive_is_truthy. }
  repeat split; try assumption.
  unfold processHfModel. cbn [estimatedGpuMemoryGb parameterCount].
  destruct (extractParameterCount model) as [count |] eqn:Hcount;
    [| reflexivity].
  cbn [numberTruthy]. now rewrite (Htruthy count eq_refl).
Qed.

End WithGpuMemory.

End ModelCompatibilityFacts.

Lemma parameter_count_never_zero_witness :
  ModelCompatibility.extractParameterCount CompatibilityExamples.qwen
  = Some 596049920%float.
Proof.
  exact (proj1 (proj2 (parameter_count_never_zero
                         CompatibilityExamples.memoryTruthy
                         CompatibilityExamples.estimateGpuMemory
                         CompatibilityExamples.formatGpuMemory
                         CompatibilityExamples.qwen))
           eq_refl).
Defined.

(* ------------------------------------------------------------------ *)
(** ** The Kubernetes naming rules *)

Section NamingFacts.

Import Validation.

Lemma tail_matches_cons (extra : ascii -> bool) (c d : ascii)
    (rest : string) :
  tail_matches extra (String c (String d rest))
  = (lower_alnum c || extra c) && tail_matches extra (String d rest).
Proof. reflexivity. Qed.

Lemma tail_matches_spec (extra : ascii -> bool) (s : string) :
  tail_matches extra s = true
  <-> s = EmptyString
      \/ (Forall (fun c => lower_alnum c || extra c = true)
            (list_ascii_of_string s)
          /\ lower_alnum (List.last (list_ascii_of_string s) "-"%char)
             = true).
Proof.
  induction s as [| c rest IH]; [cbn; tauto |].
  destruct rest as [| d rest].
  - cbn. split.
    + intros Hc. right. split; [| exact Hc].
      constructor; [now rewrite Hc | constructor].
    + intros [Hempty | [_ Hc]]; [discriminate | exact Hc].
  - rewrite tail_matches_cons, andb_true_iff, IH.
    cbn [list_ascii_of_string]. split.
    + intros [Hc [Hempty | [Hall Hlast]]]; [discriminate |].
      right. split; [now constructor | exact Hlast].
    + intros [Hempty | [Hall Hlast]]; [discriminate |].
      inversion Hall as [| x l Hc Hrest]; subst.
      split; [exact Hc |]. right. split; [exact Hrest | exact Hlast].
Qed.

(** The name pattern accepts exactly the non-empty strings made of
    lowercase letters, digits and the extra characters (hyphen, and dot for
    resource names) whose first and last characters are a lowercase letter
    or a digit. *)
Theorem name_regex_spec (extra : ascii -> bool) (s : string) :
  name_regex extra s = true
  <-> s <> EmptyString
      /\ Forall (fun c => lower_alnum c || extra c = true)
           (list_ascii_of_string s)
      /\ lower_alnum (List.hd "-"%char (list_ascii_of_string s)) = true
      /\ lower_alnum (List.last (list_ascii_of_string s) "-"%char) = true.
Proof.
  destruct s as [| c rest]; [cbn; split; [discriminate | tauto] |].
  unfold name_regex. rewrite andb_true_iff, tail_matches_spec.
  cbn [list_ascii_of_string List.hd]. split.
  - intros [Hc [-> | [Hall Hlast]]].
    + repeat split; [discriminate | | exact Hc | exact Hc].
      constructor; [now rewrite Hc | constructor].
    + repeat split; [discriminate | | exact Hc |].
      * constructor; [now rewrite Hc | exact Hall].
      * destruct rest; [exact Hc | exact Hlast].
  - intros (_ & Hall & Hc & Hlast). split; [exact Hc |].
    destruct rest as [| d rest]; [now left |]. right.
    inversion Hall; subst. split; assumption.
Qed.

Lemma tail_matches_weaken (extra1 extra2 : ascii -> bool) (s : string) :
  (forall c, extra1 c = true -> extra2 c = true) ->
  tail_matches extra1 s = true -> tail_matches extra2 s = true.
Proof.
  intros Hextra. rewrite !tail_matches_spec.
  intros [-> | [Hall Hlast]]; [now left |]. right. split; [| exact Hlast].
  eapply Forall_impl; [| exact Hall]. cbn. intros c Hc.
  apply orb_true_iff in Hc. apply orb_true_iff.
  destruct Hc as [Hc | Hc]; [now left | right; now apply Hextra].
Qed.

(** Every string the namespace rule accepts is accepted by the resource
    name rule: a namespace can always serve as a resource name. *)
Theorem namespace_is_resource_name (s : string) :
  namespaceSchema s = true -> resourceNameSchema s = true.
Proof.
  unfold namespaceSchema, resourceNameSchema, name_regex.
  rewrite !andb_true_iff. intros [[Hmin Hmax] Hregex].
  apply Nat.leb_le in Hmax. repeat split.
  - exact Hmin.
  - apply Nat.leb_le. lia.
  - destruct s as [| c rest]; [discriminate |].
    apply andb_true_iff in Hregex. destruct Hregex as [Hc Htail].
    apply andb_true_iff. split; [exact Hc |].
    apply (tail_matches_weaken is_hyphen); [| exact Htail].
    intros ch Hch. unfold is_hyphen_or_dot. unfold is_hyphen in Hch.
    now rewrite Hch.
Qed.

End NamingFacts.

Lemma namespace_is_resource_name_witness :
  Validation.resourceNameSchema "kubefoundry-system" = true.
Proof.
  exact (namespace_is_resource_name "kubefoundry-system" eq_refl).
Defined.

(* ------------------------------------------------------------------ *)
(** ** More on the cost engine *)

Section PricingFacts.

Import CostEstimation GpuTables.

(** The pricing lookup: for aws, azure and gcp every GPU type, known or
    not, has a rate above zero taken from the table, and a custom rate is
    ignored; for on-prem the rate is the custom rate, if any, whatever the
    GPU type; without a provider, or with 'none', there is no rate. *)
Theorem hourly_rate_lookup (g : option GpuType) (custom : option float) :
  (forall p, In p [aws; azure; gcp] ->
     getHourlyRate (Some p) g custom = Some (GPU_PRICING p (g ?? unknown))
     /\ ngt (GPU_PRICING p (g ?? unknown)) (nlit 0) = true)
  /\ getHourlyRate (Some on_prem) g custom = custom
  /\ getHourlyRate (Some none) g custom = None
  /\ getHourlyRate None g custom = None.
Proof.
  split; [| destruct custom, g as [[] |]; repeat split].
  intros p [<- | [<- | [<- | []]]];
    destruct custom, g as [[] |]; split; reflexivity.
Qed.

(** The priced fields of an estimate go together: with actual costs the
    hourly, daily (x 24) and monthly (x 730) rates, the GPU type and the
    cloud provider are all defined; without, all five are undefined. *)
Theorem priced_fields_go_together (input : CostEstimateInput float)
    (settings : option (CostSettings float)) :
  let estimate := calculateCostEstimate input settings in
  if hasActualCosts estimate
  then
    exists hourly,
      hourlyRate estimate = Some hourly
      /\ dailyRate estimate = Some (nmul hourly (nlit 24))
      /\ monthlyRate estimate = Some (nmul hourly (nlit 730))
      /\ estimate_cloudProvider estimate
         = Some (resolvedCloudProvider input settings)
      /\ estimate_gpuType estimate <> None
  else
    hourlyRate estimate = None
    /\ dailyRate estimate = None
    /\ monthlyRate estimate = None
    /\ estimate_cloudProvider estimate = None
    /\ estimate_gpuType estimate = None.
Proof.
  cbv zeta. unfold calculateCostEstimate, resolvedCloudProvider.
  cbn [hasActualCosts hourlyRate dailyRate monthlyRate
       estimate_cloudProvider estimate_gpuType].
  destruct (getHourlyRate _ _ _) as [rate |]; [| repeat split].
  destruct (ngt rate (nlit 0)) eqn:Hgt; [| repeat split].
  change (ntruthy rate) with (JsDouble.truthy rate).
  rewrite (positive_is_truthy rate Hgt). cbn [andb option_map].
  eexists. repeat split. discriminate.
Qed.

Lemma SFleb_finite_trans (s1 s2 s3 : bool) (m1 m2 m3 : positive)
    (e1 e2 e3 : Z) :
  SFleb (S754_finite s1 m1 e1) (S754_finite s2 m2 e2) = true ->
  SFleb (S754_finite s2 m2 e2) (S754_finite s3 m3 e3) = true ->
  SFleb (S754_finite s1 m1 e1) (S754_finite s3 m3 e3) = true.
Proof.
  unfold SFleb, SFcompare.
  change PosDef.Pos.compare_cont with Pos.compare_cont.
  change (Pos.compare_cont Eq) with Pos.compare.
  destruct s1, s2, s3; try (intros; reflexivity || discriminate);
    destruct (Z.compare_spec e1 e2), (Z.compare_spec e2 e3),
      (Z.compare_spec e1 e3); try lia;
    try (intros; reflexivity || discriminate);
    destruct (Pos.compare_spec m1 m2), (Pos.compare_spec m2 m3),
      (Pos.compare_spec m1 m3); cbn; try lia;
    try (intros; reflexivity || discriminate).
Qed.

(** [<=] on numbers is transitive. *)
Lemma leb_trans (a b c : float) :
  PrimFloat.leb a b = true -> PrimFloat.leb b c = true ->
  PrimFloat.leb a c = true.
Proof.
  rewrite !leb_spec.
  destruct (Prim2SF a) as [sa | sa | | sa ma ea],
    (Prim2SF b) as [sb | sb | | sb mb eb],
    (Prim2SF c) as [sc | sc | | sc mc ec];
    try (cbn; discriminate);
    try apply SFleb_finite_trans;
    try (destruct sa; cbn; (reflexivity || discriminate));
    try (destruct sb; cbn; (reflexivity || discriminate));
    try (destruct sc; cbn; (reflexivity || discriminate));
    try (destruct sa, sb; cbn; (reflexivity || discriminate));
    try (destruct sb, sc; cbn; (reflexivity || discriminate));
    try (destruct sa, sc; cbn; (reflexivity || discriminate));
    try (destruct sa, sb, sc; cbn; (reflexivity || discriminate)).
Qed.

Lemma ge_mono (m1 m2 t : float) :
  PrimFloat.leb m1 m2 = true -> ge m1 t = true -> ge m2 t = true.
Proof. unfold ge. intros H12 H1. exact (leb_trans _ _ _ H1 H12). Qed.

(** A number of at least 16 is neither 0 nor NaN. *)
Lemma ge_16_truthy (m : float) :
  ge m (nlit 16) = true -> JsDouble.truthy m = true.
Proof.
  intros H. apply positive_is_truthy. unfold ge in H.
  rewrite ltb_spec. rewrite leb_spec in H.
  change (Prim2SF (nlit 16)) with (Prim2SF 16) in H.
  destruct (Prim2SF m) as [s | s | | s mm e]; try discriminate H.
  - destruct s; [discriminate H | reflexivity].
  - destruct s; [discriminate H | reflexivity].
Qed.

(** The GPU type detected from a memory size grows with the size: of two
    sizes the larger one is never classified as a GPU with less memory.
    And the memory size of every GPU type of the table is classified as a
    GPU type with that same memory. *)
Theorem detected_memory_is_monotone (m1 m2 : float) :
  PrimFloat.leb m1 m2 = true ->
  (GPU_MEMORY (detectGpuTypeFromMemory (Some m1))
   <= GPU_MEMORY (detectGpuTypeFromMemory (Some m2)))%Z
  /\ forall g,
       GPU_MEMORY (detectGpuTypeFromMemory (Some (nlit (GPU_MEMORY g))))
       = GPU_MEMORY g.
Proof.
  intros H12. split; [| intros []; reflexivity].
  unfold detectGpuTypeFromMemory.
  destruct (negb (JsDouble.truthy m1));
    [destruct (negb (JsDouble.truthy m2));
     repeat (destruct (ge m2 _)); cbn; lia |].
  pose proof (ge_mono m1 m2 (nlit 140) H12) as H140.
  pose proof (ge_mono m1 m2 (nlit 80) H12) as H80.
  pose proof (ge_mono m1 m2 (nlit 48) H12) as H48.
  pose proof (ge_mono m1 m2 (nlit 40) H12) as H40.
  pose proof (ge_mono m1 m2 (nlit 32) H12) as H32.
  pose proof (ge_mono m1 m2 (nlit 24) H12) as H24.
  pose proof (ge_mono m1 m2 (nlit 16) H12) as H16.
  assert (Htruthy : ge m1 (nlit 16) = true ->
                    negb (JsDouble.truthy m2) = false).
  { intros H. apply H16 in H. now rewrite (ge_16_truthy m2 H). }
  assert (H16of : forall n : Z,
             PrimFloat.leb (nlit 16) (nlit n) = true ->
             ge m1 (nlit n) = true -> ge m1 (nlit 16) = true).
  { intros n Hn H. unfold ge in *. exact (leb_trans _ _ _ Hn H). }
  destruct (ge m1 (nlit 140)) eqn:E140.
  { rewrite (Htruthy (H16of 140%Z eq_refl E140)), (H140 eq_refl).
    cbn. lia. }
  destruct (ge m1 (nlit 80)) eqn:E80.
  { rewrite (Htruthy (H16of 80%Z eq_refl E80)), (H80 eq_refl).
    destruct (ge m2 (nlit 140)); cbn; lia. }
  destruct (ge m1 (nlit 48)) eqn:E48.
  { rewrite (Htruthy (H16of 48%Z eq_refl E48)), (H48 eq_refl).
    destruct (ge m2 (nlit 140)), (ge m2 (nlit 80)); cbn; lia. }
  destruct (ge m1 (nlit 40)) eqn:E40.
  { rewrite (Htruthy (H16of 40%Z eq_refl E40)), (H40 eq_refl).
    destruct (ge m2 (nlit 140)), (ge m2 (nlit 80)), (ge m2 (nlit 48));
      cbn; lia. }
  destruct (ge m1 (nlit 32)) eqn:E32.
  { rewrite (Htruthy (H16of 32%Z eq_refl E32)), (H32 eq_refl).
    destruct (ge m2 (nlit 140)), (ge m2 (nlit 80)), (ge m2 (nlit 48)),
      (ge m2 (nlit 40)); cbn; lia. }
  destruct (ge m1 (nlit 24)) eqn:E24.
  { rewrite (Htruthy (H16of 24%Z eq_refl E24)), (H24 eq_refl).
    destruct (ge m2 (nlit 140)), (ge m2 (nlit 80)), (ge m2 (nlit 48)),
      (ge m2 (nlit 40)), (ge m2 (nlit 32)); cbn; lia. }
  destruct (ge m1 (nlit 16)) eqn:E16.
  { rewrite (Htruthy eq_refl), (H16 eq_refl).
    destruct (ge m2 (nlit 140)), (ge m2 (nlit 80)), (ge m2 (nlit 48)),
      (ge m2 (nlit 40)), (ge m2 (nlit 32)), (ge m2 (nlit 24)); cbn; lia. }
  clear. destruct (negb (JsDouble.truthy m2)); [cbn; lia |].
  destruct (ge m2 (nlit 140)), (ge m2 (nlit 80)), (ge m2 (nlit 48)),
    (ge m2 (nlit 40)), (ge m2 (nlit 32)), (ge m2 (nlit 24)),
    (ge m2 (nlit 16)); cbn; lia.
Qed.

End PricingFacts.

Lemma hourly_rate_lookup_witness :
  CostEstimation.getHourlyRate (Some CostEstimation.azure)
    (Some CostEstimation.nvidia_h100) (Some (ndec 350 100))
  = Some (nlit 5).
Proof.
  exact (proj1 (proj1 (hourly_rate_lookup (Some CostEstimation.nvidia_h100)
                         (Some (ndec 350 100)))
                  CostEstimation.azure (or_intror (or_introl eq_refl)))).
Defined.

Lemma detected_memory_is_monotone_witness :
  (GpuTables.GPU_MEMORY (GpuTables.detectGpuTypeFromMemory (Some 24%float))
   <= GpuTables.GPU_MEMORY
        (GpuTables.detectGpuTypeFromMemory (Some 141.5%float)))%Z.
Proof.
  exact (proj1 (detected_memory_is_monotone 24 141.5 eq_refl)).
Defined.

(* ------------------------------------------------------------------ *)
(** ** More on the Dynamo manifest *)

Section DynamoMoreFacts.

Import Dynamo DynamoSpec DynamoReadings.

Lemma push_not_nil {A : Type} (l : list A) (x : A) : Js.push l x <> [].
Proof. unfold Js.push. destruct l; discriminate. Qed.

Lemma pushIf_nil (check : bool) (msg : string) (errors : list string) :
  pushIf check msg errors = [] <-> check = false /\ errors = [].
Proof.
  unfold pushIf. destruct check.
  - split; [intros H; now apply push_not_nil in H | intros []; discriminate].
  - tauto.
Qed.

(** [validateManifest] accepts a manifest exactly when the apiVersion and
    the kind are the expected ones, the name and the namespace are not
    empty, and spec.services holds a Frontend and at least one of the three
    worker entries. *)
Theorem valid_manifest_iff (manifest : DynamoManifest) :
  valid (validateManifest manifest) = true
  <-> apiVersion manifest = "nvidia.com/v1alpha1"
      /\ kind manifest = "DynamoGraphDeployment"
      /\ metadata_name (metadata manifest) <> EmptyString
      /\ metadata_namespace (metadata manifest) <> EmptyString
      /\ Js.truthy (Js.prop (servicesOf manifest) "Frontend") = true
      /\ (Js.truthy (Js.prop (servicesOf manifest) "VllmWorker")
          || Js.truthy (Js.prop (servicesOf manifest) "SglangWorker")
          || Js.truthy (Js.prop (servicesOf manifest) "TrtllmWorker")) = true.
Proof.
  unfold validateManifest, servicesOf. cbn [valid].
  rewrite Nat.eqb_eq, length_zero_iff_nil.
  assert (Hname : forall s, Js.str_truthy s = true <-> s <> EmptyString)
    by (intros []; cbn; split; congruence).
  rewrite <- !Hname, <- !String.eqb_eq. clear Hname.
  assert (Hempty : forall s t,
             Js.str_truthy t = true -> String.eqb s t = true ->
             Js.str_truthy s = true).
  { intros s t Ht Heq. apply String.eqb_eq in Heq. now subst. }
  pose proof (Hempty (apiVersion manifest) "nvidia.com/v1alpha1" eq_refl)
    as Hversion.
  pose proof (Hempty (kind manifest) "DynamoGraphDeployment" eq_refl)
    as Hkind.
  clear Hempty.
  assert (Hspec : Js.truthy (Js.prop (spec manifest) "services") = true ->
                  Js.truthy (spec manifest) = true)
    by (destruct (spec manifest); cbn; congruence).
  assert (Hservices :
            Js.truthy (Js.prop (Js.prop (spec manifest) "services") "Frontend")
            = true ->
            Js.truthy (Js.prop (spec manifest) "services") = true)
    by (destruct (Js.prop (spec manifest) "services"); cbn; congruence).
  destruct (Js.truthy (Js.prop (spec manifest) "services")) eqn:Hs;
    cbn [negb].
  - rewrite !pushIf_nil, !negb_false_iff, !orb_false_iff, !negb_false_iff.
    rewrite (Hspec eq_refl). intuition.
  - split.
    + intros H. apply push_not_nil in H. contradiction.
    + intros (_ & _ & _ & _ & Hfrontend & _).
      specialize (Hservices Hfrontend). discriminate.
Qed.

Lemma pushIf_length (check : bool) (msg : string) (errors : list string) :
  List.length (pushIf check msg errors)
  = (List.length errors + failing (negb check))%nat.
Proof.
  unfold pushIf, Js.push. destruct check; cbn.
  - now rewrite length_app.
  - now rewrite Nat.add_0_r.
Qed.

Lemma expected_or_empty (s expected : string) :
  Js.str_truthy expected = true ->
  negb (Js.str_truthy s) || negb (String.eqb s expected)
  = negb (String.eqb s expected).
Proof.
  intros Hexpected. destruct (String.eqb s expected) eqn:Heq.
  - apply String.eqb_eq in Heq. subst. now rewrite Hexpected.
  - apply orb_true_r.
Qed.

(** The validator does not stop at the first violation: the number of
    errors is the number of failed checks, where a missing services map
    counts once and hides the Frontend and worker checks. *)
Theorem one_error_per_failed_check (manifest : DynamoManifest) :
  let services := servicesOf manifest in
  List.length (errors (validateManifest manifest))
  = (failing (String.eqb (apiVersion manifest) "nvidia.com/v1alpha1")
     + failing (String.eqb (kind manifest) "DynamoGraphDeployment")
     + failing (Js.str_truthy (metadata_name (metadata manifest)))
     + failing (Js.str_truthy (metadata_namespace (metadata manifest)))
     + failing (Js.truthy (spec manifest))
     + if Js.truthy services
       then failing (Js.truthy (Js.prop services "Frontend"))
            + failing
                (Js.truthy (Js.prop services "VllmWorker")
                 || Js.truthy (Js.prop services "SglangWorker")
                 || Js.truthy (Js.prop services "TrtllmWorker"))
       else 1)%nat.
Proof.
  cbv zeta. unfold validateManifest, servicesOf. cbn [errors].
  rewrite !expected_or_empty by reflexivity.
  destruct (Js.truthy (Js.prop (spec manifest) "services")); cbn [negb].
  - rewrite !pushIf_length, !negb_involutive. cbn [List.length]. lia.
  - unfold Js.push. rewrite length_app, !pushIf_length, !negb_involutive.
    cbn [List.length]. lia.
Qed.

Lemma get_set_other (o : Js.Obj) (k k' : string) (v : JsValue) :
  String.eqb k k' = false ->
  Js.get (Js.set o k v) k' = Js.get o k'.
Proof.
  intros Hne. induction o as [| [k0 v0] rest IH]; cbn.
  - now rewrite Hne.
  - destruct (String.eqb k0 k) eqn:E; cbn.
    + apply String.eqb_eq in E. subst k0. now rewrite Hne.
    + now rewrite IH.
Qed.

(** The resources of the worker: without [resources] in the config there
    is no resources entry; with it, limits and requests are the same object,
    the GPU count is written as the string [String] gives for the number,
    and the memory is there exactly when it is a non-empty string. *)
Theorem worker_resources (config : DeploymentConfig) :
  let written := Js.prop (workerOf config) "resources" in
  match resources config with
  | None => written = JUndefined
  | Some r =>
      Js.prop written "limits" = Js.prop written "requests"
      /\ Js.prop (Js.prop written "limits") "gpu"
         = JString (JsNumberToString.toString (gpu r))
      /\ Js.prop (Js.prop written "limits") "memory"
         = match memory r with
           | Some m => whenPresent m
           | None => JUndefined
           end
  end.
Proof.
  cbv zeta. unfold workerOf, servicesOf, generateDynamoManifest,
    generateWorkerSpec.
  destruct (engine config); cbn [Js.prop Js.spread fold_left fst snd Js.set
                                 Js.get String.eqb Ascii.eqb Bool.eqb spec
                                 workerKey];
    rewrite get_set_other by reflexivity;
    (destruct (resources config) as [r |];
     [ rewrite get_set_same; cbn; repeat split;
       destruct (memory r) as [[| c m] |]; reflexivity
     | destruct (Js.str_truthy (hfTokenSecret config)); reflexivity ]).
Qed.

(** The Frontend always has one replica, whatever the config asks for,
    while the worker has the config's replica count; both carry the
    deployment name as their dynamoNamespace and the model-hub token secret
    when it is not empty; the Frontend names the router mode unless it is
    'none'. *)
Theorem frontend_and_worker_fields (config : DeploymentConfig) :
  let frontend := frontendOf config in
  let worker := workerOf config in
  Js.prop frontend "replicas" = JNumber 1
  /\ Js.prop worker "replicas" = JNumber (replicas config)
  /\ Js.prop frontend "componentType" = JString "frontend"
  /\ Js.prop worker "componentType" = JString "worker"
  /\ Js.prop frontend "dynamoNamespace" = JString (name config)
  /\ Js.prop worker "dynamoNamespace" = JString (name config)
  /\ Js.prop frontend "envFromSecret" = whenPresent (hfTokenSecret config)
  /\ Js.prop worker "envFromSecret" = whenPresent (hfTokenSecret config)
  /\ Js.prop frontend "router-mode"
     = match routerMode config with
       | router_none => JUndefined
       | mode => JString (RouterMode_str mode)
       end.
Proof.
  cbv zeta. unfold frontendOf, workerOf, servicesOf, generateDynamoManifest,
    generateWorkerSpec, generateFrontendSpec, whenPresent.
  destruct (engine config), (routerMode config),
    (Js.str_truthy (hfTokenSecret config)), (resources config);
    repeat split; reflexivity.
Qed.

End DynamoMoreFacts.

(* ------------------------------------------------------------------ *)
(** ** Image names *)

Section ImageNameFacts.

Import Validation Aikit.
Local Open Scope list_scope.
Local Open Scope nat_scope.

Lemma collapseHyphens_allowed (s : list ascii) :
  Forall (fun c => allowed c = true) s ->
  Forall (fun c => allowed c = true) (collapseHyphens s).
Proof.
  induction 1 as [| c rest Hc Hrest IH]; cbn; [constructor |].
  destruct (is_hyphen c && _); [exact IH | now constructor].
Qed.

Lemma collapseHyphens_start (s : list ascii) :
  startsWithHyphen (collapseHyphens s) = startsWithHyphen s.
Proof.
  induction s as [| c rest IH]; [reflexivity |]. cbn.
  destruct (is_hyphen c) eqn:Hc; cbn; [| exact Hc].
  destruct rest as [| d rest]; [exact Hc |].
  destruct (is_hyphen d) eqn:Hd; cbn [startsWithHyphen] in *.
  - rewrite IH. exact Hd.
  - exact Hc.
Qed.

Lemma collapseHyphens_no_run (s : list ascii) :
  hyphenRun (collapseHyphens s) = false.
Proof.
  induction s as [| c rest IH]; [reflexivity |]. cbn.
  destruct (is_hyphen c) eqn:Hc; cbn.
  - pose proof (collapseHyphens_start rest) as Hstart.
    destruct rest as [| d rest]; [cbn; now rewrite Hc |].
    destruct (is_hyphen d) eqn:Hd; [exact IH |].
    cbn [hyphenRun]. rewrite IH, Hc.
    unfold startsWithHyphen in Hstart at 2. rewrite Hd in Hstart.
    unfold startsWithHyphen in Hstart.
    destruct (collapseHyphens (d :: rest)); [reflexivity |].
    now rewrite Hstart.
  - now rewrite Hc, IH.
Qed.

Lemma hyphenRun_tail (c : ascii) (s : list ascii) :
  hyphenRun (c :: s) = false ->
  hyphenRun s = false /\ (is_hyphen c = true -> startsWithHyphen s = false).
Proof.
  cbn. intros H. apply orb_false_iff in H. destruct H as [Hhead Htail].
  split; [exact Htail |]. intros Hc. rewrite Hc in Hhead.
  destruct s; [reflexivity | exact Hhead].
Qed.

Lemma stripTrailing_cons (c d : ascii) (s : list ascii) :
  stripTrailing (c :: d :: s) = c :: stripTrailing (d :: s).
Proof. reflexivity. Qed.

Lemma stripTrailing_allowed (s : list ascii) :
  Forall (fun c => allowed c = true) s ->
  Forall (fun c => allowed c = true) (stripTrailing s).
Proof.
  induction 1 as [| c rest Hc Hrest IH]; [constructor |].
  destruct rest as [| d rest].
  - cbn. destruct (is_hyphen c); now repeat constructor.
  - rewrite stripTrailing_cons. now constructor.
Qed.

Lemma stripTrailing_start (s : list ascii) :
  startsWithHyphen s = false -> startsWithHyphen (stripTrailing s) = false.
Proof.
  destruct s as [| c [| d rest]]; cbn; [reflexivity | |].
  - intros Hc. rewrite Hc. exact Hc.
  - auto.
Qed.

Lemma stripTrailing_no_run (s : list ascii) :
  hyphenRun s = false -> hyphenRun (stripTrailing s) = false.
Proof.
  induction s as [| c rest IH]; [reflexivity |].
  destruct rest as [| d rest].
  - cbn. destruct (is_hyphen c) eqn:Hc; cbn; [reflexivity |].
    now rewrite Hc.
  - intros Hrun. destruct (hyphenRun_tail _ _ Hrun) as [Htail Hstart].
    rewrite stripTrailing_cons. cbn [hyphenRun].
    rewrite (IH Htail), orb_false_r.
    destruct (is_hyphen c) eqn:Hc; [| reflexivity]. cbn [andb].
    pose proof (stripTrailing_start _ (Hstart eq_refl)) as Hs.
    destruct (stripTrailing (d :: rest)); [reflexivity | exact Hs].
Qed.

Lemma stripTrailing_last (s : list ascii) :
  hyphenRun s = false ->
  is_hyphen (List.last (stripTrailing s) "a"%char) = false.
Proof.
  induction s as [| c rest IH]; [reflexivity |].
  destruct rest as [| d rest].
  - intros _. cbn. destruct (is_hyphen c) eqn:Hc; [reflexivity | exact Hc].
  - intros Hrun. destruct (hyphenRun_tail _ _ Hrun) as [Htail Hstart].
    rewrite stripTrailing_cons. specialize (IH Htail).
    destruct (stripTrailing (d :: rest)) as [| e l] eqn:Hstrip.
    + cbn. destruct (is_hyphen c) eqn:Hc; [| reflexivity].
      specialize (Hstart eq_refl). cbn in Hstart.
      destruct rest as [| e rest]; [| discriminate Hstrip].
      cbn in Hstrip. rewrite Hstart in Hstrip. discriminate.
    + exact IH.
Qed.

Lemma stripTrailing_length (s : list ascii) :
  List.length (stripTrailing s) <= List.length s.
Proof.
  induction s as [| c rest IH]; [reflexivity |].
  destruct rest as [| d rest].
  - cbn. destruct (is_hyphen c); cbn; lia.
  - rewrite stripTrailing_cons. cbn [List.length] in *. lia.
Qed.

Lemma collapseHyphens_length (s : list ascii) :
  List.length (collapseHyphens s) <= List.length s.
Proof.
  induction s as [| c rest IH]; [reflexivity |]. cbn.
  destruct (is_hyphen c && _); cbn; lia.
Qed.

Lemma stripLeading_facts (s : list ascii) :
  hyphenRun s = false ->
  hyphenRun (stripLeading s) = false
  /\ startsWithHyphen (stripLeading s) = false
  /\ List.length (stripLeading s) <= List.length s
  /\ (Forall (fun c => allowed c = true) s ->
      Forall (fun c => allowed c = true) (stripLeading s)).
Proof.
  destruct s as [| c rest]; [cbn; auto |].
  intros Hrun. destruct (hyphenRun_tail _ _ Hrun) as [Htail Hstart].
  cbn [stripLeading]. destruct (is_hyphen c) eqn:Hc.
  - repeat split; [exact Htail | now apply Hstart | cbn; lia |].
    now inversion 1.
  - repeat split; [exact Hrun | exact Hc | lia | auto].
Qed.

Lemma replaceDisallowed_allowed (s : list ascii) :
  Forall (fun c => allowed c = true) (replaceDisallowed s).
Proof.
  apply Forall_forall. intros c Hin. apply in_map_iff in Hin.
  destruct Hin as (d & <- & _). unfold allowed.
  destruct (lower_alnum d || is_hyphen d) eqn:Hd; [exact Hd | reflexivity].
Qed.

Lemma stripEnds_facts (s : list ascii) :
  Forall (fun c => allowed c = true) s ->
  hyphenRun s = false ->
  let r := stripEnds s in
  Forall (fun c => allowed c = true) r
  /\ hyphenRun r = false
  /\ startsWithHyphen r = false
  /\ is_hyphen (List.last r "a"%char) = false
  /\ List.length r <= List.length s.
Proof.
  intros Hall Hrun. cbv zeta. unfold stripEnds.
  destruct (stripLeading_facts s Hrun) as (Hrun' & Hstart & Hlen & Hall').
  repeat split.
  - now apply stripTrailing_allowed, Hall'.
  - now apply stripTrailing_no_run.
  - now apply stripTrailing_start.
  - now apply stripTrailing_last.
  - pose proof (stripTrailing_length (stripLeading s)). lia.
Qed.

Lemma firstn_no_run (n : nat) (s : list ascii) :
  hyphenRun s = false -> hyphenRun (firstn n s) = false.
Proof.
  revert n. induction s as [| c rest IH]; intros n Hrun.
  - now rewrite firstn_nil.
  - destruct n as [| n]; [reflexivity |]. cbn [firstn].
    destruct (hyphenRun_tail _ _ Hrun) as [Htail Hstart].
    cbn [hyphenRun]. rewrite (IH n Htail), orb_false_r.
    destruct (is_hyphen c) eqn:Hc; [| reflexivity]. cbn [andb].
    specialize (Hstart eq_refl).
    destruct rest as [| d rest]; [now rewrite firstn_nil |].
    destruct n; [reflexivity | exact Hstart].
Qed.

Lemma firstn_allowed (n : nat) (s : list ascii) :
  Forall (fun c => allowed c = true) s ->
  Forall (fun c => allowed c = true) (firstn n s).
Proof.
  intros Hall. revert n.
  induction Hall; intros [| n]; cbn; constructor; auto.
Qed.

Lemma firstn_start (n : nat) (s : list ascii) :
  startsWithHyphen s = false -> startsWithHyphen (firstn n s) = false.
Proof. destruct s, n; cbn; auto. Qed.

Lemma last_default (c x y : ascii) (s : list ascii) :
  List.last (c :: s) x = List.last (c :: s) y.
Proof.
  revert c. induction s as [| d rest IH]; intros c; [reflexivity |].
  exact (IH d).
Qed.

Lemma length_of_chars (s : string) :
  List.length (list_ascii_of_string s) = String.length s.
Proof. induction s; cbn; congruence. Qed.

(** The sanitized image name has at most 63 characters, all of them
    lowercase letters, digits or hyphens; it does not start with a hyphen
    and has no two hyphens in a row. *)
Theorem sanitized_name_shape (modelId : string) :
  let name := list_ascii_of_string (sanitizeImageName modelId) in
  List.length name <= 63
  /\ Forall (fun c => lower_alnum c || is_hyphen c = true) name
  /\ startsWithHyphen name = false
  /\ hyphenRun name = false.
Proof.
  cbv zeta. unfold sanitizeImageName.
  rewrite list_ascii_of_string_of_list_ascii.
  set (s := replaceDisallowed _).
  destruct (stripEnds_facts (collapseHyphens s))
    as (Hall & Hrun & Hstart & _ & _).
  { apply collapseHyphens_allowed, replaceDisallowed_allowed. }
  { apply collapseHyphens_no_run. }
  unfold slice. cbn [skipn Nat.sub]. repeat split.
  - apply firstn_le_length.
  - now apply firstn_allowed.
  - now apply firstn_start.
  - now apply firstn_no_run.
Qed.

(** When the model id has at most 63 characters, all of them code units
    below 256 (on these [toLowerCase] keeps the length), the sanitized name
    is empty or a valid namespace name: in particular it does not end with
    a hyphen. *)
Theorem short_id_gives_valid_name (modelId : string) :
  String.length modelId <= 63 ->
  sanitizeImageName modelId <> EmptyString ->
  namespaceSchema (sanitizeImageName modelId) = true.
Proof.
  intros Hshort Hnonempty. unfold sanitizeImageName in *.
  set (s := replaceDisallowed _) in *.
  assert (Hlen : List.length s <= 63).
  { unfold s, replaceDisallowed, toLowerCase.
    now rewrite !length_map, length_of_chars. }
  destruct (stripEnds_facts (collapseHyphens s))
    as (Hall & Hrun & Hstart & Hlast & Hstrip).
  { apply collapseHyphens_allowed, replaceDisallowed_allowed. }
  { apply collapseHyphens_no_run. }
  pose proof (collapseHyphens_length s) as Hcollapse.
  unfold slice in *. cbn [skipn Nat.sub] in *.
  rewrite firstn_all2 in * by lia.
  set (r := stripEnds (collapseHyphens s)) in *.
  assert (Hr : List.length r <= 63) by lia.
  clear Hstrip Hcollapse Hlen. clearbody r. clear s.
  unfold namespaceSchema.
  rewrite <- (length_of_chars (string_of_list_ascii r)).
  rewrite list_ascii_of_string_of_list_ascii.
  destruct r as [| c rest]; [now contradiction Hnonempty |].
  apply andb_true_iff. split.
  { apply andb_true_iff.
    split; apply Nat.leb_le; cbn [List.length] in *; lia. }
  cbn [string_of_list_ascii name_regex].
  inversion Hall as [| ? ? Hc Hrest]; subst.
  cbn in Hstart. unfold allowed in Hc. rewrite Hstart, orb_false_r in Hc.
  rewrite Hc. cbn [andb]. apply tail_matches_spec.
  destruct rest as [| d rest]; [now left |]. right.
  rewrite list_ascii_of_string_of_list_ascii. split.
  - exact Hrest.
  - change (List.last (c :: d :: rest) "a"%char)
      with (List.last (d :: rest) "a"%char) in Hlast.
    assert (Hin : In (List.last (d :: rest) "a"%char) (d :: rest)).
    { destruct (exists_last (l := d :: rest)) as (l' & a & Heq);
        [discriminate |].
      rewrite Heq, last_last. apply in_or_app. right. now left. }
    rewrite Forall_forall in Hrest. specialize (Hrest _ Hin).
    unfold allowed in Hrest.
    rewrite (last_default d "-"%char "a"%char).
    rewrite Hlast, orb_false_r in Hrest. exact Hrest.
Qed.

Lemma lower_alnum_not_hyphen (c : ascii) :
  lower_alnum c = true -> is_hyphen c = false.
Proof.
  intros Hc. unfold is_hyphen. destruct (Ascii.eqb c "-") eqn:Heq.
  - apply Ascii.eqb_eq in Heq. subst c. discriminate Hc.
  - reflexivity.
Qed.

Lemma lowerChar_allowed (c : ascii) : allowed c = true -> lowerChar c = c.
Proof.
  destruct c as [[] [] [] [] [] [] [] []]; vm_compute;
    intros H; (reflexivity || discriminate H).
Qed.

Lemma collapseHyphens_id (s : list ascii) :
  hyphenRun s = false -> collapseHyphens s = s.
Proof.
  induction s as [| c rest IH]; [reflexivity |]. cbn.
  intros Hrun. apply orb_false_iff in Hrun. destruct Hrun as [-> Htail].
  now rewrite IH.
Qed.

Lemma stripTrailing_id (s : list ascii) :
  is_hyphen (List.last s "a"%char) = false -> stripTrailing s = s.
Proof.
  induction s as [| c rest IH]; [reflexivity |].
  destruct rest as [| d rest].
  - cbn. now intros ->.
  - intros Hlast. rewrite stripTrailing_cons. f_equal. now apply IH.
Qed.

(** A valid namespace name without two hyphens in a row is its own
    sanitized name. *)
Theorem valid_name_is_kept (name : string) :
  namespaceSchema name = true ->
  hyphenRun (list_ascii_of_string name) = false ->
  sanitizeImageName name = name.
Proof.
  unfold namespaceSchema. rewrite !andb_true_iff, Nat.leb_le.
  intros [[_ Hlen] Hregex] Hrun. unfold sanitizeImageName.
  rewrite <- (string_of_list_ascii_of_string name) at 2.
  rewrite <- length_of_chars in Hlen. f_equal.
  destruct name as [| c rest]; [discriminate Hregex |].
  cbn [name_regex] in Hregex. apply andb_true_iff in Hregex.
  destruct Hregex as [Hc Htail]. apply tail_matches_spec in Htail.
  cbn [list_ascii_of_string] in *.
  set (s := list_ascii_of_string rest) in *.
  assert (Hall : Forall (fun c => allowed c = true) (c :: s)).
  { constructor; [unfold allowed; now rewrite Hc |].
    destruct Htail as [-> | [Hall _]]; [constructor | exact Hall]. }
  assert (Hlast : is_hyphen (List.last (c :: s) "a"%char) = false).
  { apply lower_alnum_not_hyphen.
    destruct Htail as [-> | [_ Hlast]]; [exact Hc |].
    destruct s as [| d s']; [exact Hc |].
    change (List.last (c :: d :: s') "a"%char)
      with (List.last (d :: s') "a"%char).
    now rewrite (last_default d "a"%char "-"%char). }
  clear Htail. unfold toLowerCase, replaceDisallowed. rewrite map_map.
  rewrite (map_ext_Forall _ (fun x => x)), map_id.
  - rewrite (collapseHyphens_id _ Hrun). unfold stripEnds, stripLeading.
    rewrite (lower_alnum_not_hyphen _ Hc), (stripTrailing_id _ Hlast).
    unfold slice. cbn [skipn Nat.sub]. apply firstn_all2.
    now apply Nat.leb_le.
  - eapply Forall_impl; [| exact Hall]. cbn. intros a Ha.
    rewrite (lowerChar_allowed _ Ha). fold (allowed a). now rewrite Ha.
Qed.

End ImageNameFacts.

Lemma short_id_gives_valid_name_witness :
  Validation.namespaceSchema
    (Aikit.sanitizeImageName "TheBloke/Llama-2-7B") = true.
Proof.
  refine (short_id_gives_valid_name "TheBloke/Llama-2-7B" _ _).
  - vm_compute. lia.
  - vm_compute. discriminate.
Defined.

Lemma valid_name_is_kept_witness :
  Aikit.sanitizeImageName "thebloke-llama-2-7b" = "thebloke-llama-2-7b".
Proof.
  exact (valid_name_is_kept "thebloke-llama-2-7b" eq_refl eq_refl).
Defined.

(** The examples of the service's tests. *)
Example sanitizeImageName_tests :
  Aikit.sanitizeImageName "TheBloke" = "thebloke"
  /\ Aikit.sanitizeImageName "TheBloke/Llama-2-7B" = "thebloke-llama-2-7b"
  /\ Aikit.sanitizeImageName "Org/Model_v1.0" = "org-model-v1-0"
  /\ Aikit.sanitizeImageName "a--b---c" = "a-b-c"
  /\ Aikit.sanitizeImageName "-test-" = "test".
Proof. repeat split; reflexivity. Qed.
